(** * UserLens: the analysis pipeline, embedded and verified

    A shallow embedding of the TypeScript sources of UserLens:
    - [NLPProcessor] (src/nlp/semantic-processor.ts),
    - [PatternMatcher] (src/nlp/pattern-matcher.ts),
    - [ReactAnalyzer] (src/analyzers/react/react-analyzer.ts),
    - [CacheManager] (src/cache/cache-manager.ts),
    - the [analyze] command of the CLI (src/cli/index.ts), with the file
      discovery ([findComponentFiles], [isComponentFile]) and the tests the
      [generate] command makes on the changeset,
    - the page name of [MarkdownGenerator.generateComponentDoc]
      (src/generators/markdown/markdown-generator.ts).

    JavaScript strings are modelled as Rocq byte strings; [toLowerCase] and
    [toUpperCase] act on the ASCII letters, which is what the keywords and
    identifiers of the sources are made of.  JavaScript numbers are IEEE 754
    binary64 values: the primitive floats of Rocq, whose operations round to
    nearest, ties to even, as those of JavaScript do. *)

From Stdlib Require Import Ascii String.
From Stdlib Require Import Sorted Permutation.
From Stdlib Require Import Floats.
From Stdlib Require Uint63.
From stdpp Require Import base strings list gmap.

Local Open Scope string_scope.
Local Open Scope list_scope.

(** ** JavaScript string primitives *)
Module Js.

Definition lowerAscii (c : ascii) : ascii :=
  let n := nat_of_ascii c in
  if (65 <=? n)%nat && (n <=? 90)%nat then ascii_of_nat (n + 32) else c.

Definition upperAscii (c : ascii) : ascii :=
  let n := nat_of_ascii c in
  if (97 <=? n)%nat && (n <=? 122)%nat then ascii_of_nat (n - 32) else c.

Definition isUpper (c : ascii) : bool :=
  let n := nat_of_ascii c in (65 <=? n)%nat && (n <=? 90)%nat.

Definition isLower (c : ascii) : bool :=
  let n := nat_of_ascii c in (97 <=? n)%nat && (n <=? 122)%nat.

Fixpoint mapString (f : ascii -> ascii) (s : string) : string :=
  match s with
  | EmptyString => EmptyString
  | String c s' => String (f c) (mapString f s')
  end.

(** [s.toLowerCase()], [s.toUpperCase()] *)
Definition toLowerCase : string -> string := mapString lowerAscii.
Definition toUpperCase : string -> string := mapString upperAscii.

(** [s.startsWith(p)] *)
Definition startsWith (s p : string) : bool := String.prefix p s.

(** [s.includes(sub)] *)
Fixpoint includes (s sub : string) : bool :=
  String.prefix sub s ||
  match s with
  | EmptyString => false
  | String _ s' => includes s' sub
  end.

(** [s.substring(n)] and [s.slice(n)] for [0 <= n] *)
Fixpoint drop (n : nat) (s : string) : string :=
  match n, s with
  | O, _ => s
  | S n', String _ s' => drop n' s'
  | S _, EmptyString => EmptyString
  end.

(** [s.charAt(0).toUpperCase() + s.slice(1)] *)
Definition capitalizeFirst (s : string) : string :=
  match s with
  | EmptyString => EmptyString
  | String c s' => String (upperAscii c) s'
  end.

(** [xs.includes(x)] on an array of strings *)
Definition arrayIncludes (xs : list string) (x : string) : bool :=
  existsb (String.eqb x) xs.

(** [s.replace(p, r)] with a string pattern: the first occurrence only. *)
Fixpoint replaceFirst (s p r : string) : string :=
  if String.prefix p s then r +:+ drop (String.length p) s
  else match s with
       | EmptyString => EmptyString
       | String c s' => String c (replaceFirst s' p r)
       end.

(** The two regular-expression replacements that turn camelCase and
    PascalCase into space-separated words:
    [/([a-z])([A-Z])/g -> '$1 $2'] and [/([A-Z])([A-Z][a-z])/g -> '$1 $2'].
    Matches are found left to right and do not overlap. *)
Fixpoint spaceLowerUpper (s : string) : string :=
  match s with
  | String a ((String b _) as rest) =>
      if isLower a && isUpper b
      then String a (String " " (spaceLowerUpper rest))
      else String a (spaceLowerUpper rest)
  | _ => s
  end.

Fixpoint spaceUpperUpperLower (s : string) : string :=
  match s with
  | String a rest =>
      match rest with
      | String b (String c rest') =>
          if isUpper a && isUpper b && isLower c
          then String a (String " " (String b (String c (spaceUpperUpperLower rest'))))
          else String a (spaceUpperUpperLower rest)
      | _ => s
      end
  | EmptyString => s
  end.

(** [s.split(/[-_]/)] and the like: split at every separator character. *)
Fixpoint split (isSep : ascii -> bool) (s : string) : list string :=
  match s with
  | EmptyString => [EmptyString]
  | String c s' =>
      if isSep c then EmptyString :: split isSep s'
      else match split isSep s' with
           | p :: ps => String c p :: ps
           | [] => [String c EmptyString]
           end
  end.

(** [parts.join('')] *)
Definition join (parts : list string) : string := foldr String.append EmptyString parts.

(** [s.endsWith(suffix)] *)
Definition endsWith (s suffix : string) : bool :=
  (String.length suffix <=? String.length s)%nat
  && String.eqb (drop (String.length s - String.length suffix) s) suffix.

(** [/^[A-Z]/.test(s)] *)
Definition startsWithUpper (s : string) : bool :=
  match s with
  | String c _ => isUpper c
  | EmptyString => false
  end.

Definition isDigit (c : ascii) : bool :=
  let n := nat_of_ascii c in (48 <=? n)%nat && (n <=? 57)%nat.

(** [s.replace(/[^a-z0-9]/g, '-')] *)
Definition replaceNonAlnum (s : string) : string :=
  mapString (fun c => if isLower c || isDigit c then c else "-"%char) s.

End Js.

(** ** Node's [path] module (POSIX), on paths that do not end in a slash *)
Module Path.
Import Js.

Definition isSlash (c : ascii) : bool := Ascii.eqb c "/".
Definition isDot (c : ascii) : bool := Ascii.eqb c ".".

(** [path.isAbsolute(p)] *)
Definition isAbsolute (p : string) : bool :=
  match p with
  | String c _ => isSlash c
  | EmptyString => false
  end.

(** The last portion of a path. *)
Fixpoint lastSegment (p : string) : string :=
  match p with
  | EmptyString => EmptyString
  | String c p' =>
      if includes p' "/" then lastSegment p'
      else if isSlash c then p' else p
  end.

(** The suffix that starts at the last dot, if there is a dot. *)
Fixpoint fromLastDot (s : string) : option string :=
  match s with
  | EmptyString => None
  | String c s' =>
      match fromLastDot s' with
      | Some r => Some r
      | None => if isDot c then Some s else None
      end
  end.

(** [path.extname(p)]: a dot that starts the last portion is no extension,
    and [".."] has none. *)
Definition extname (p : string) : string :=
  let seg := lastSegment p in
  match seg with
  | String c rest =>
      if isDot c then
        if String.eqb rest "." then EmptyString
        else default EmptyString (fromLastDot rest)
      else default EmptyString (fromLastDot seg)
  | EmptyString => EmptyString
  end.

(** [path.basename(p, ext)]: the extension is cut off when the last portion
    ends with it and is longer than it. *)
Definition basename (p ext : string) : string :=
  let seg := lastSegment p in
  if String.eqb ext EmptyString then seg
  else if String.eqb p ext then EmptyString
  else
    let n := (String.length seg - String.length ext)%nat in
    if (0 <? n)%nat && String.eqb (drop n seg) ext then String.substring 0 n seg else seg.

(** [path.relative(from, to)] for normalized absolute paths: drop the common
    leading directories, climb out of what is left of [from], descend
    into what is left of [to]. *)
Fixpoint dropCommon (a b : list string) : list string * list string :=
  match a, b with
  | x :: a', y :: b' => if String.eqb x y then dropCommon a' b' else (a, b)
  | _, _ => (a, b)
  end.

Fixpoint joinWith (sep : string) (parts : list string) : string :=
  match parts with
  | [] => EmptyString
  | [x] => x
  | x :: rest => x +:+ sep +:+ joinWith sep rest
  end.

Definition segments (p : string) : list string :=
  List.filter (fun s => negb (String.eqb s EmptyString)) (split isSlash p).

Definition relative (from to : string) : string :=
  let '(up, down) := dropCommon (segments from) (segments to) in
  joinWith "/" (map (fun _ => "..") up ++ down).

End Path.

(** ** src/models/interfaces.ts *)

Inductive ComponentCategory := FORM | NAVIGATION | DISPLAY | INTERACTION | LAYOUT.

Record PropDefinition := {
  prop_name : string;
  prop_type : string;
  prop_required : bool
}.

Inductive ActionType := click | input | navigation | submit.

Record UserAction := {
  action_type : ActionType;
  trigger : string;
  action_description : string;
  outcome : string
}.

Record ComponentMetadata := {
  name : string;
  filePath : string;
  props : list PropDefinition;
  userActions : list UserAction;
  semanticCategory : ComponentCategory;
  description : string
}.

Record Comments := {
  leading : list string;
  trailing : list string;
  inner : list string;
  jsdoc : list string
}.

Record NlpComponentContext := {
  ctx_filePath : string;
  ctx_props : list PropDefinition;
  jsxTextContent : list string;
  comments : Comments;
  importSources : list string;
  htmlTagsUsed : list string
}.

#[global] Instance ComponentCategory_eq_dec : EqDecision ComponentCategory.
Proof. solve_decision. Defined.
#[global] Instance ActionType_eq_dec : EqDecision ActionType.
Proof. solve_decision. Defined.
#[global] Instance PropDefinition_eq_dec : EqDecision PropDefinition.
Proof. solve_decision. Defined.
#[global] Instance UserAction_eq_dec : EqDecision UserAction.
Proof. solve_decision. Defined.
#[global] Instance ComponentMetadata_eq_dec : EqDecision ComponentMetadata.
Proof. solve_decision. Defined.

(** ** src/nlp/semantic-processor.ts *)
Module NLPProcessor.
Import Js.

(** [semanticMappings], in declaration order ([Object.entries] order). *)
Definition semanticMappings : list (string * string) :=
  [ ("Login", "Sign in to your account");
    ("Register", "Create a new account");
    ("SignUp", "Create a new account");
    ("Profile", "Manage your profile information");
    ("Settings", "Configure your preferences");
    ("Dashboard", "View your overview and statistics");
    ("User", "Your account information");
    ("Password", "Manage password security");
    ("Notification", "Manage your alerts and messages");
    ("Search", "Find what you need");
    ("Filter", "Narrow down your results");
    ("Cart", "Your shopping cart");
    ("Checkout", "Complete your purchase");
    ("Product", "View product details");
    ("Admin", "Administrative controls");
    ("Navigation", "Navigate through the application");
    ("Menu", "Access different sections");
    ("Form", "Enter your information");
    ("List", "Browse through items");
    ("Table", "View structured data");
    ("Modal", "View additional information");
    ("Popup", "Quick information or action");
    ("Button", "Perform an action");
    ("Input", "Enter information");
    ("Select", "Choose from options");
    ("Dropdown", "Select from a list");
    ("Checkbox", "Toggle an option");
    ("Radio", "Choose one option");
    ("Sidebar", "Access additional navigation");
    ("Header", "Main navigation area");
    ("Footer", "Additional information") ].

(** [record[key]] on the record's own keys, [None] for a missing key or a
    falsy (empty) value, as the [if (record[key])] tests read it.  Keys
    inherited from [Object.prototype] (a component named [constructor], for
    instance) are outside the model. *)
Fixpoint lookupTruthy (record : list (string * string)) (key : string) : option string :=
  match record with
  | [] => None
  | (k, v) :: rest =>
      if String.eqb k key then (if String.eqb v "" then None else Some v)
      else lookupTruthy rest key
  end.

Definition humanize (componentName : string) : string :=
  capitalizeFirst (spaceUpperUpperLower (spaceLowerUpper componentName)).

Section WithCustomMappings.
Variable customMappings : list (string * string).

Definition generateDescription (componentName : string)
    (props : list PropDefinition) (additionalContext : NlpComponentContext) : string :=
  match lookupTruthy customMappings componentName with
  | Some d => d
  | None =>
    match lookupTruthy semanticMappings componentName with
    | Some d => d
    | None =>
      match List.find (fun '(pattern, _) => includes componentName pattern) semanticMappings with
      | Some (_, d) => d
      | None => humanize componentName
      end
    end
  end.
End WithCustomMappings.

Definition categorizeComponent (componentName : string)
    (props : list PropDefinition) (additionalContext : NlpComponentContext)
    : ComponentCategory :=
  let name := toLowerCase componentName in
  let propNames := map (fun p => toLowerCase (prop_name p)) props in
  if includes name "form" || includes name "input" || includes name "login"
     || includes name "register"
     || existsb (fun p => includes p "onsubmit" || includes p "form") propNames
  then FORM
  else if includes name "nav" || includes name "menu" || includes name "link"
     || includes name "route"
     || existsb (fun p => includes p "href" || includes p "to" || includes p "path") propNames
  then NAVIGATION
  else if includes name "button" || includes name "click" || includes name "action"
     || existsb (fun p => includes p "onclick" || includes p "onpress") propNames
  then INTERACTION
  else if includes name "view" || includes name "display" || includes name "show"
     || includes name "card" || includes name "list" || includes name "table"
  then DISPLAY
  else LAYOUT.

(** *** [extractKeywords] *)

(** [keywords.add(x)] on a [Set], kept in insertion order. *)
Definition setAdd (set : list string) (x : string) : list string :=
  if arrayIncludes set x then set else set ++ [x].

(** The words of a camelCase or PascalCase name: the two replacements,
    [toLowerCase()] and [split(' ')]. *)
Definition nameWords (s : string) : list string :=
  split (fun c => Ascii.eqb c " ") (toLowerCase (spaceUpperUpperLower (spaceLowerUpper s))).

Definition extractKeywords (componentName : string) (props : list PropDefinition)
    (additionalContext : NlpComponentContext) : list string :=
  let keywords :=
    foldl (fun keywords word =>
             if (2 <? String.length word)%nat then setAdd keywords word else keywords)
      [] (nameWords componentName) in
  foldl (fun keywords prop =>
           foldl (fun keywords word =>
                    if (2 <? String.length word)%nat
                       && negb (arrayIncludes ["the"; "and"; "for"; "with"] word)
                    then setAdd keywords word else keywords)
             keywords (nameWords (prop_name prop)))
    keywords props.

(** *** The ordered rule list of the specification (§4.2), for comparison *)

Record CategoryRule := {
  rule_category : ComponentCategory;
  nameKeywords : list string;
  propKeywords : list string
}.

Definition categoryRules : list CategoryRule :=
  [ {| rule_category := FORM;
       nameKeywords := ["form"; "input"; "login"; "register"];
       propKeywords := ["onsubmit"; "form"] |};
    {| rule_category := NAVIGATION;
       nameKeywords := ["nav"; "menu"; "link"; "route"];
       propKeywords := ["href"; "to"; "path"] |};
    {| rule_category := INTERACTION;
       nameKeywords := ["button"; "click"; "action"];
       propKeywords := ["onclick"; "onpress"] |};
    {| rule_category := DISPLAY;
       nameKeywords := ["view"; "display"; "show"; "card"; "list"; "table"];
       propKeywords := [] |} ].

(** Case-insensitive substring membership. *)
Definition containsCI (s keyword : string) : bool :=
  includes (toLowerCase s) (toLowerCase keyword).

Definition ruleMatches (r : CategoryRule) (componentName : string)
    (props : list PropDefinition) : bool :=
  existsb (containsCI componentName) (nameKeywords r)
  || existsb (fun p => existsb (containsCI (prop_name p)) (propKeywords r)) props.

Fixpoint firstMatch (rules : list CategoryRule) (componentName : string)
    (props : list PropDefinition) : ComponentCategory :=
  match rules with
  | [] => LAYOUT
  | r :: rest =>
      if ruleMatches r componentName props then rule_category r
      else firstMatch rest componentName props
  end.

End NLPProcessor.

(** ** src/nlp/pattern-matcher.ts

    The confidence of a pattern is a JavaScript number, that is, a double. *)
Module PatternMatcher.
Import Js.

Record UIPattern := {
  pat_components : list string;
  pat_actions : list string;
  pat_description : string;
  pat_userGoal : string
}.

Record DetectedPattern := {
  dp_name : string;
  dp_description : string;
  dp_userGoal : string;
  dp_components : list ComponentMetadata;
  dp_actions : list UserAction;
  confidence : float
}.

Record WorkflowStep := {
  step_name : string;
  step_description : string;
  step_actions : list UserAction
}.

Record Workflow := {
  wf_name : string;
  wf_description : string;
  steps : list WorkflowStep;
  wf_components : list ComponentMetadata
}.

(** [patterns], in declaration order ([Object.entries] order). *)
Definition patterns : list (string * UIPattern) :=
  [ ("authentication",
     {| pat_components := ["login"; "signin"; "register"; "signup"; "password"; "auth"];
        pat_actions := ["submit credentials"; "create account"; "reset password"];
        pat_description := "User authentication flow";
        pat_userGoal := "Access your account securely" |});
    ("search",
     {| pat_components := ["search"; "filter"; "results"; "query"];
        pat_actions := ["enter search term"; "apply filter"; "view results"];
        pat_description := "Search and filtering functionality";
        pat_userGoal := "Find specific information" |});
    ("form-submission",
     {| pat_components := ["form"; "input"; "submit"; "field"; "validation"];
        pat_actions := ["fill form"; "validate input"; "submit data"];
        pat_description := "Data entry and submission";
        pat_userGoal := "Submit information" |});
    ("crud",
     {| pat_components := ["create"; "add"; "edit"; "update"; "delete"; "remove"; "list"];
        pat_actions := ["create new"; "update existing"; "delete item"; "view items"];
        pat_description := "Create, Read, Update, Delete operations";
        pat_userGoal := "Manage your data" |});
    ("navigation",
     {| pat_components := ["nav"; "menu"; "sidebar"; "header"; "footer"; "link"; "route"];
        pat_actions := ["navigate to"; "open page"; "go to section"];
        pat_description := "Navigation through the application";
        pat_userGoal := "Move between different sections" |});
    ("dashboard",
     {| pat_components := ["dashboard"; "overview"; "stats"; "analytics"; "widgets"];
        pat_actions := ["view statistics"; "monitor data"; "check status"];
        pat_description := "Overview and analytics display";
        pat_userGoal := "Get a comprehensive view of your data" |});
    ("settings",
     {| pat_components := ["settings"; "preferences"; "config"; "options"; "profile"];
        pat_actions := ["change settings"; "update preferences"; "configure options"];
        pat_description := "User preferences and configuration";
        pat_userGoal := "Customize your experience" |});
    ("notification",
     {| pat_components := ["notification"; "alert"; "message"; "toast"];
        pat_actions := ["view notifications"; "mark as read"; "dismiss alert"];
        pat_description := "User notification system";
        pat_userGoal := "Stay informed about important updates" |});
    ("cart-checkout",
     {| pat_components := ["cart"; "basket"; "checkout"; "payment"; "order"];
        pat_actions := ["add to cart"; "remove item"; "complete purchase"];
        pat_description := "Shopping cart and checkout process";
        pat_userGoal := "Complete your purchase" |});
    ("wizard",
     {| pat_components := ["wizard"; "step"; "progress"; "multi-step"; "flow"];
        pat_actions := ["proceed to next step"; "go back"; "complete process"];
        pat_description := "Step-by-step guided process";
        pat_userGoal := "Complete a multi-step process" |}) ].

Definition matchesPattern (name : string) (patternKeywords : list string) : bool :=
  existsb (fun keyword => includes name keyword) patternKeywords.

Definition findMatchingActions (actions : list UserAction)
    (patternActions : list string) : list UserAction :=
  List.filter (fun action =>
    existsb (fun pattern =>
      includes (toLowerCase (action_description action)) (toLowerCase pattern)
      || includes (toLowerCase (outcome action)) (toLowerCase pattern))
      patternActions) actions.

(** A length as a number.  The length of an array is below 2^32, where the
    conversion is exact. *)
Definition number (n : nat) : float := of_uint63 (Uint63.of_Z (Z.of_nat n)).

(** [xs.length] *)
Definition len {A} (xs : list A) : float := number (length xs).

#[warnings="-inexact-float"]
Definition calculateConfidence (matchingComponents : list ComponentMetadata)
    (matchingActions : list UserAction) (pattern : UIPattern) : float :=
  let componentScore := (len matchingComponents / len (pat_components pattern))%float in
  let actionScore :=
    if (0 <? length matchingActions)%nat
    then (len matchingActions / len (pat_actions pattern))%float else 0%float in
  ((componentScore * 0.7) + (actionScore * 0.3))%float.

(** One iteration of the loop over [Object.entries(this.patterns)]. *)
Definition detectOne (components : list ComponentMetadata)
    (entry : string * UIPattern) : list DetectedPattern :=
  let '(patternName, pattern) := entry in
  let matchingComponents :=
    List.filter (fun component =>
      matchesPattern (toLowerCase (name component)) (pat_components pattern)) components in
  if (0 <? length matchingComponents)%nat then
    let matchingActions :=
      findMatchingActions (flat_map userActions matchingComponents) (pat_actions pattern) in
    [ {| dp_name := patternName;
         dp_description := pat_description pattern;
         dp_userGoal := pat_userGoal pattern;
         dp_components := matchingComponents;
         dp_actions := matchingActions;
         confidence := calculateConfidence matchingComponents matchingActions pattern |} ]
  else [].

(** The comparator [(a, b) => b.confidence - a.confidence]. *)
Definition byConfidence (a b : DetectedPattern) : float :=
  (confidence b - confidence a)%float.

(** [Array.prototype.sort] with that comparator: a stable sort, in which an
    element goes behind another one only where the comparator gives a
    positive number for the pair (a NaN counts as 0).  The confidences are
    numbers that the comparator orders totally, so every stable sort
    returns the list that the insertions below build. *)
Fixpoint insertByConfidence (p : DetectedPattern) (sorted : list DetectedPattern)
    : list DetectedPattern :=
  match sorted with
  | [] => [p]
  | q :: rest =>
      if (0 <? byConfidence p q)%float then q :: insertByConfidence p rest
      else p :: q :: rest
  end.

Definition sortByConfidence (l : list DetectedPattern) : list DetectedPattern :=
  foldr insertByConfidence [] l.

Definition detectPatterns (components : list ComponentMetadata) : list DetectedPattern :=
  sortByConfidence (flat_map (detectOne components) patterns).

(** *** Workflows *)

Definition lc (s : string) : string := toLowerCase s.
Definition nameHas (c : ComponentMetadata) (k : string) : bool := includes (lc (name c)) k.
Definition descHas (a : UserAction) (k : string) : bool := includes (lc (action_description a)) k.
Definition trigHas (a : UserAction) (k : string) : bool := includes (lc (trigger a)) k.
Definition outHas (a : UserAction) (k : string) : bool := includes (lc (outcome a)) k.
Definition isType (a : UserAction) (t : ActionType) : bool := bool_decide (action_type a = t).
Definition isForm (c : ComponentMetadata) : bool := bool_decide (semanticCategory c = FORM).

Definition hasAuthenticationFlow (components : list ComponentMetadata) (actions : list UserAction) : bool :=
  existsb (fun c => nameHas c "login" || nameHas c "signin" || nameHas c "register") components
  && existsb (fun a => descHas a "sign in" || descHas a "log in" || descHas a "create account") actions.

Definition hasSearchFlow (components : list ComponentMetadata) (actions : list UserAction) : bool :=
  existsb (fun c => nameHas c "search" || nameHas c "filter" || nameHas c "results") components
  && existsb (fun a => descHas a "search" || descHas a "filter" || descHas a "find") actions.

Definition hasFormSubmissionFlow (components : list ComponentMetadata) (actions : list UserAction) : bool :=
  existsb (fun c => nameHas c "form" || isForm c) components
  && existsb (fun a => isType a submit || descHas a "submit" || descHas a "save") actions.

Definition hasCRUDFlow (components : list ComponentMetadata) (actions : list UserAction) : bool :=
  existsb (fun c => nameHas c "create" || nameHas c "edit" || nameHas c "delete"
                    || nameHas c "list") components
  && existsb (fun a => descHas a "create" || descHas a "add" || descHas a "edit"
                       || descHas a "update" || descHas a "delete" || descHas a "remove") actions.

Definition hasCheckoutFlow (components : list ComponentMetadata) (actions : list UserAction) : bool :=
  existsb (fun c => nameHas c "cart" || nameHas c "checkout" || nameHas c "payment") components
  && existsb (fun a => descHas a "add to cart" || descHas a "checkout" || descHas a "payment"
                       || descHas a "purchase") actions.

Definition mkStep (n d : string) (f : UserAction -> bool) (actions : list UserAction) : WorkflowStep :=
  {| step_name := n; step_description := d; step_actions := List.filter f actions |}.

Definition createAuthenticationWorkflow (components : list ComponentMetadata)
    (actions : list UserAction) : Workflow :=
  {| wf_name := "Authentication";
     wf_description := "Sign in or create a new account";
     steps :=
       [ mkStep "Enter credentials" "Enter your username/email and password"
           (fun a => isType a input
                     && (trigHas a "username" || trigHas a "email" || trigHas a "password")) actions;
         mkStep "Submit credentials" "Click the sign in button to access your account"
           (fun a => isType a submit
                     || (isType a click && (trigHas a "login" || trigHas a "signin"))) actions ];
     wf_components :=
       List.filter (fun c => nameHas c "login" || nameHas c "signin" || nameHas c "auth") components |}.

Definition createSearchWorkflow (components : list ComponentMetadata)
    (actions : list UserAction) : Workflow :=
  {| wf_name := "Search and Filter";
     wf_description := "Find and narrow down results";
     steps :=
       [ mkStep "Enter search term" "Type what you want to find in the search box"
           (fun a => isType a input && trigHas a "search") actions;
         mkStep "Apply filters" "Narrow down results by selecting specific criteria"
           (fun a => descHas a "filter" || trigHas a "filter") actions;
         mkStep "View results" "Browse through the matching items"
           (fun a => outHas a "results" || outHas a "found") actions ];
     wf_components :=
       List.filter (fun c => nameHas c "search" || nameHas c "filter" || nameHas c "results")
         components |}.

Definition createFormWorkflow (components : list ComponentMetadata)
    (actions : list UserAction) : Workflow :=
  {| wf_name := "Form Submission";
     wf_description := "Enter and submit information";
     steps :=
       [ mkStep "Fill in the form" "Enter the required information in the form fields"
           (fun a => isType a input) actions;
         mkStep "Validate information" "Ensure all information is correct and complete"
           (fun a => descHas a "validate" || descHas a "check") actions;
         mkStep "Submit the form" "Send the information by clicking the submit button"
           (fun a => isType a submit
                     || (isType a click && (trigHas a "submit" || trigHas a "save"))) actions ];
     wf_components := List.filter (fun c => isForm c || nameHas c "form") components |}.

Definition createCRUDWorkflow (components : list ComponentMetadata)
    (actions : list UserAction) : Workflow :=
  {| wf_name := "Manage Items";
     wf_description := "Create, view, edit and delete items";
     steps :=
       [ mkStep "View items" "Browse through the available items"
           (fun a => outHas a "view" || outHas a "list" || outHas a "display") actions;
         mkStep "Create new item" "Add a new item by filling in the required information"
           (fun a => descHas a "create" || descHas a "add" || descHas a "new") actions;
         mkStep "Edit item" "Modify an existing item"
           (fun a => descHas a "edit" || descHas a "update" || descHas a "modify") actions;
         mkStep "Delete item" "Remove an item that is no longer needed"
           (fun a => descHas a "delete" || descHas a "remove") actions ];
     wf_components :=
       List.filter (fun c => nameHas c "create" || nameHas c "edit" || nameHas c "delete"
                             || nameHas c "list") components |}.

Definition createCheckoutWorkflow (components : list ComponentMetadata)
    (actions : list UserAction) : Workflow :=
  {| wf_name := "Shopping Checkout";
     wf_description := "Complete a purchase";
     steps :=
       [ mkStep "Add items to cart" "Select items and add them to your shopping cart"
           (fun a => descHas a "add to cart" || outHas a "added to cart") actions;
         mkStep "Review cart" "Check the items in your cart and make any adjustments"
           (fun a => outHas a "view cart" || trigHas a "cart") actions;
         mkStep "Proceed to checkout" "Begin the checkout process"
           (fun a => descHas a "checkout" || outHas a "checkout") actions;
         mkStep "Enter shipping information" "Provide your shipping details"
           (fun a => descHas a "shipping" || trigHas a "address") actions;
         mkStep "Enter payment information" "Provide your payment details"
           (fun a => descHas a "payment" || trigHas a "payment" || trigHas a "credit card") actions;
         mkStep "Complete purchase" "Finalize your order"
           (fun a => descHas a "complete" || descHas a "purchase" || descHas a "order") actions ];
     wf_components :=
       List.filter (fun c => nameHas c "cart" || nameHas c "checkout" || nameHas c "payment"
                             || nameHas c "order") components |}.

Definition detectWorkflows (components : list ComponentMetadata) : list Workflow :=
  let allActions := flat_map userActions components in
  (if hasAuthenticationFlow components allActions
   then [createAuthenticationWorkflow components allActions] else [])
  ++ (if hasSearchFlow components allActions
      then [createSearchWorkflow components allActions] else [])
  ++ (if hasFormSubmissionFlow components allActions
      then [createFormWorkflow components allActions] else [])
  ++ (if hasCRUDFlow components allActions
      then [createCRUDWorkflow components allActions] else [])
  ++ (if hasCheckoutFlow components allActions
      then [createCheckoutWorkflow components allActions] else []).

End PatternMatcher.

(** ** The syntax tree of [@babel/parser], as far as the analyzer looks at it

    A node lists its children in the order [@babel/traverse] visits them;
    [Other] stands for every node kind no visitor of the analyzer inspects. *)
Module Babel.

Inductive TSType :=
  | TSStringKeyword | TSNumberKeyword | TSBooleanKeyword
  | TSFunctionType | TSTypeLiteral | TSArrayType | TSOtherType.

#[warnings="-register-all"]
Inductive Node :=
  | Identifier (idName : string)
  | StringLiteral (value : string)
  | MemberExpression (object property : Node)
  | AssignmentExpression (left right : Node)
  | ObjectExpression (properties : list Node)
  | ObjectProperty (key value : Node)
  | ObjectPattern (properties : list Node)
  | FunctionDeclaration (id : option string) (params : list Node) (body : list Node)
  | ClassDeclaration (id : option string) (body : list Node)
  | ArrowFunctionExpression (params : list Node) (body : list Node)
  | ExportDefaultDeclaration (declaration : Node)
  | ExportNamedDeclaration (declaration : option Node)
  | TSInterfaceDeclaration (id : string) (body : list Node)
  | TSPropertySignature (key : Node) (optional : bool) (typeAnnotation : option TSType)
  | JSXElement (tagName : string) (attributes : list Node) (children : list Node)
  | JSXText (value : string)
  | Other (children : list Node).

(** The program body of a parsed file. *)
Definition File := list Node.

(** The nodes of a tree in the order [traverse] enters them. *)
Fixpoint preorder (n : Node) : list Node :=
  n ::
  match n with
  | Identifier _ | StringLiteral _ | JSXText _ => []
  | MemberExpression o p => preorder o ++ preorder p
  | AssignmentExpression l r => preorder l ++ preorder r
  | ObjectExpression ps => flat_map preorder ps
  | ObjectProperty k v => preorder k ++ preorder v
  | ObjectPattern ps => flat_map preorder ps
  | FunctionDeclaration _ ps b => flat_map preorder ps ++ flat_map preorder b
  | ClassDeclaration _ b => flat_map preorder b
  | ArrowFunctionExpression ps b => flat_map preorder ps ++ flat_map preorder b
  | ExportDefaultDeclaration d => preorder d
  | ExportNamedDeclaration (Some d) => preorder d
  | ExportNamedDeclaration None => []
  | TSInterfaceDeclaration _ b => flat_map preorder b
  | TSPropertySignature k _ _ => preorder k
  | JSXElement _ attrs cs => flat_map preorder attrs ++ flat_map preorder cs
  | Other cs => flat_map preorder cs
  end.

(** [traverse(ast, visitor)] for a visitor that updates a state [S]. *)
Definition traverse {S} (ast : File) (visitor : S -> Node -> S) (init : S) : S :=
  foldl visitor init (flat_map preorder ast).

End Babel.

(** ** src/analyzers/react/react-analyzer.ts *)
Module ReactAnalyzer.
Import Js Babel.

(** *** [extractComponentName] *)

(** The two visitors of the traversal; each one assigns [componentName]. *)
Definition nameVisitor (componentName : string) (n : Node) : string :=
  match n with
  | ExportDefaultDeclaration (Identifier x) => x
  | ExportDefaultDeclaration (FunctionDeclaration (Some x) _ _) => x
  | ExportDefaultDeclaration (ClassDeclaration (Some x) _) => x
  | ExportNamedDeclaration (Some (FunctionDeclaration (Some x) _ _)) => x
  | ExportNamedDeclaration (Some (ClassDeclaration (Some x) _)) => x
  | _ => componentName
  end.

Definition isDashOrUnderscore (c : ascii) : bool :=
  Ascii.eqb c "-" || Ascii.eqb c "_".

(** The name derived from the file name. *)
Definition nameFromFile (filePath : string) : string :=
  let base := Path.basename filePath (Path.extname filePath) in
  join (map capitalizeFirst (split isDashOrUnderscore base)).

Definition extractComponentName (filePath : string) (ast : File) : string :=
  let componentName := traverse ast nameVisitor EmptyString in
  if String.eqb componentName EmptyString then nameFromFile filePath
  else componentName.

(** *** [extractProps] *)

(** [propTypes[propName] = v] on a plain object: an existing key keeps its
    place, a new key goes last, and ["__proto__"] creates no own key. *)
Fixpoint recordSet {V} (record : list (string * V)) (k : string) (v : V)
    : list (string * V) :=
  match record with
  | [] => [(k, v)]
  | (k', v') :: rest =>
      if String.eqb k' k then (k', v) :: rest else (k', v') :: recordSet rest k v
  end.

Definition objectAssign {V} (record : list (string * V)) (k : string) (v : V)
    : list (string * V) :=
  if String.eqb k "__proto__" then record else recordSet record k v.

(** One property of the object assigned to [X.propTypes]. *)
Definition propTypesEntry (propTypes : list (string * (string * bool))) (prop : Node)
    : list (string * (string * bool)) :=
  match prop with
  | ObjectProperty (Identifier propName) value =>
      let '(propType, required) :=
        match value with
        | MemberExpression (Identifier o) (Identifier pr) => (o, String.eqb pr "isRequired")
        | _ => ("any", false)
        end in
      objectAssign propTypes propName (propType, required)
  | _ => propTypes
  end.

Definition propTypesVisitor (propTypes : list (string * (string * bool))) (n : Node)
    : list (string * (string * bool)) :=
  match n with
  | AssignmentExpression (MemberExpression _ (Identifier p)) (ObjectExpression properties) =>
      if String.eqb p "propTypes" then foldl propTypesEntry propTypes properties
      else propTypes
  | _ => propTypes
  end.

Definition tsPropType (annotation : option TSType) : string :=
  match annotation with
  | Some TSStringKeyword => "string"
  | Some TSNumberKeyword => "number"
  | Some TSBooleanKeyword => "boolean"
  | Some TSFunctionType => "function"
  | Some TSTypeLiteral => "object"
  | Some TSArrayType => "array"
  | _ => "any"
  end.

Definition interfaceMember (props : list PropDefinition) (member : Node)
    : list PropDefinition :=
  match member with
  | TSPropertySignature (Identifier propName) optional annotation =>
      props ++ [ {| prop_name := propName;
                    prop_type := tsPropType annotation;
                    prop_required := negb optional |} ]
  | _ => props
  end.

Definition interfaceVisitor (props : list PropDefinition) (n : Node)
    : list PropDefinition :=
  match n with
  | TSInterfaceDeclaration id body =>
      if includes id "Props" then foldl interfaceMember props body else props
  | _ => props
  end.

Definition hasProp (props : list PropDefinition) (propName : string) : bool :=
  existsb (fun p => String.eqb (prop_name p) propName) props.

Definition destructuredProperty (props : list PropDefinition) (property : Node)
    : list PropDefinition :=
  match property with
  | ObjectProperty (Identifier propName) _ =>
      if hasProp props propName then props
      else props ++ [ {| prop_name := propName; prop_type := "any"; prop_required := false |} ]
  | _ => props
  end.

Definition extractFunctionComponentProps (params : list Node)
    (props : list PropDefinition) : list PropDefinition :=
  match params with
  | ObjectPattern properties :: _ => foldl destructuredProperty props properties
  | _ => props
  end.

Definition functionVisitor (props : list PropDefinition) (n : Node)
    : list PropDefinition :=
  match n with
  | FunctionDeclaration _ params _ => extractFunctionComponentProps params props
  | ArrowFunctionExpression params _ => extractFunctionComponentProps params props
  | _ => props
  end.

Definition propTypesProps (propTypes : list (string * (string * bool)))
    : list PropDefinition :=
  map (fun '(n, (t, r)) => {| prop_name := n; prop_type := t; prop_required := r |}) propTypes.

Definition extractProps (ast : File) : list PropDefinition :=
  let propTypes := traverse ast propTypesVisitor [] in
  let props := traverse ast interfaceVisitor [] in
  let props := props ++ propTypesProps propTypes in
  traverse ast functionVisitor props.

(** *** [extractUserActions] *)

Definition formatTriggerName (n : string) : string :=
  toLowerCase (spaceUpperUpperLower (spaceLowerUpper n)).

(** [a || b] on strings: the empty string is falsy. *)
Definition orElse (a b : string) : string :=
  if String.eqb a EmptyString then b else a.

Definition createClickAction (propName componentName : string) : UserAction :=
  let trigger := orElse (replaceFirst propName "onClick" "") componentName in
  {| action_type := click;
     trigger := trigger;
     action_description := "Click the " +:+ formatTriggerName trigger;
     outcome := "Performs the " +:+ formatTriggerName trigger +:+ " action" |}.

Definition createSubmitAction (propName componentName : string) : UserAction :=
  {| action_type := submit;
     trigger := componentName;
     action_description := "Submit the " +:+ formatTriggerName componentName;
     outcome := "Sends the form data" |}.

Definition createInputAction (propName componentName : string) : UserAction :=
  let trigger :=
    orElse (replaceFirst (replaceFirst propName "onChange" "") "onInput" "") componentName in
  {| action_type := input;
     trigger := trigger;
     action_description := "Enter information in the " +:+ formatTriggerName trigger;
     outcome := "Updates the input value" |}.

Definition createNavigationAction (componentName : string) : UserAction :=
  {| action_type := navigation;
     trigger := componentName;
     action_description := "Click the " +:+ formatTriggerName componentName;
     outcome := "Navigates to another page" |}.

(** The actions one prop contributes. *)
Definition propActions (componentName : string) (prop : PropDefinition) : list UserAction :=
  let n := prop_name prop in
  if startsWith n "on" && (2 <? String.length n)%nat then
    let eventType := toLowerCase (drop 2 n) in
    if String.eqb eventType "click" then [createClickAction n componentName]
    else if String.eqb eventType "submit" then [createSubmitAction n componentName]
    else if String.eqb eventType "change" || String.eqb eventType "input"
    then [createInputAction n componentName]
    else []
  else [].

Definition extractUserActions (component : ComponentMetadata) : list UserAction :=
  flat_map (propActions (name component)) (props component)
  ++ (if includes (toLowerCase (name component)) "link"
         || includes (toLowerCase (name component)) "nav"
         || existsb (fun p => String.eqb (prop_name p) "to" || String.eqb (prop_name p) "href")
              (props component)
      then [createNavigationAction (name component)] else []).

(** *** [parseComponent]

    The parser ([parseCode], a call of [@babel/parser]) and the gathering of
    the classifier's context ([extractNlpContext]) are parameters: the
    results below hold for every parser and every context. *)
Section Analyzer.
Variable customMappings : list (string * string).
Variable parseCode : string -> string -> option File.
Variable extractNlpContext : string -> File -> list PropDefinition -> NlpComponentContext.

Definition identifyComponentPurpose (component : ComponentMetadata)
    (props : list PropDefinition) (additionalContext : NlpComponentContext) : string :=
  NLPProcessor.generateDescription customMappings (name component) props additionalContext.

(** [parseComponent] once the file is read and parsed. *)
Definition analyzeAst (filePath : string) (ast : File) : ComponentMetadata :=
  let componentName := extractComponentName filePath ast in
  let props := extractProps ast in
  let userActions :=
    extractUserActions
      {| name := componentName; filePath := filePath; props := props;
         userActions := []; semanticCategory := DISPLAY; description := "" |} in
  let nlpContext := extractNlpContext filePath ast props in
  let semanticCategory := NLPProcessor.categorizeComponent componentName props nlpContext in
  let description :=
    identifyComponentPurpose
      {| name := componentName; filePath := filePath; props := props;
         userActions := userActions; semanticCategory := semanticCategory;
         description := "" |} props nlpContext in
  {| name := componentName; filePath := filePath; props := props;
     userActions := userActions; semanticCategory := semanticCategory;
     description := description |}.

(** [parseComponent(filePath)] on a file with content [fileContent];
    [None] when the parser throws. *)
Definition parseComponent (filePath fileContent : string) : option ComponentMetadata :=
  analyzeAst filePath <$> parseCode fileContent filePath.
End Analyzer.

End ReactAnalyzer.

(** ** [crypto.createHash('md5').update(s).digest('hex')]

    The MD5 digest of RFC 1321 over the bytes of the string, in lower-case
    hexadecimal. *)
Module Md5.
Local Open Scope Z_scope.

Definition mask32 (x : Z) : Z := Z.land x 0xffffffff.
Definition add32 (x y : Z) : Z := mask32 (x + y).
Definition not32 (x : Z) : Z := Z.lxor x 0xffffffff.
Definition rotl32 (x c : Z) : Z :=
  mask32 (Z.lor (Z.shiftl x c) (Z.shiftr x (32 - c))).

Definition K : list Z :=
  [
    0xd76aa478; 0xe8c7b756; 0x242070db; 0xc1bdceee;
    0xf57c0faf; 0x4787c62a; 0xa8304613; 0xfd469501;
    0x698098d8; 0x8b44f7af; 0xffff5bb1; 0x895cd7be;
    0x6b901122; 0xfd987193; 0xa679438e; 0x49b40821;
    0xf61e2562; 0xc040b340; 0x265e5a51; 0xe9b6c7aa;
    0xd62f105d; 0x02441453; 0xd8a1e681; 0xe7d3fbc8;
    0x21e1cde6; 0xc33707d6; 0xf4d50d87; 0x455a14ed;
    0xa9e3e905; 0xfcefa3f8; 0x676f02d9; 0x8d2a4c8a;
    0xfffa3942; 0x8771f681; 0x6d9d6122; 0xfde5380c;
    0xa4beea44; 0x4bdecfa9; 0xf6bb4b60; 0xbebfbc70;
    0x289b7ec6; 0xeaa127fa; 0xd4ef3085; 0x04881d05;
    0xd9d4d039; 0xe6db99e5; 0x1fa27cf8; 0xc4ac5665;
    0xf4292244; 0x432aff97; 0xab9423a7; 0xfc93a039;
    0x655b59c3; 0x8f0ccc92; 0xffeff47d; 0x85845dd1;
    0x6fa87e4f; 0xfe2ce6e0; 0xa3014314; 0x4e0811a1;
    0xf7537e82; 0xbd3af235; 0x2ad7d2bb; 0xeb86d391 ].

Definition shifts : list Z :=
  [ 7; 12; 17; 22; 7; 12; 17; 22; 7; 12; 17; 22; 7; 12; 17; 22;
    5; 9; 14; 20; 5; 9; 14; 20; 5; 9; 14; 20; 5; 9; 14; 20;
    4; 11; 16; 23; 4; 11; 16; 23; 4; 11; 16; 23; 4; 11; 16; 23;
    6; 10; 15; 21; 6; 10; 15; 21; 6; 10; 15; 21; 6; 10; 15; 21 ].

Definition bytesOf (s : string) : list Z :=
  map (fun c => Z.of_nat (nat_of_ascii c)) (list_ascii_of_string s).

(** The little-endian bytes of a number, [n] of them. *)
Fixpoint leBytes (n : nat) (x : Z) : list Z :=
  match n with
  | O => []
  | S n' => Z.land x 0xff :: leBytes n' (Z.shiftr x 8)
  end.

Definition pad (msg : list Z) : list Z :=
  let n := Z.of_nat (length msg) in
  let zeros := Z.to_nat ((55 - n) mod 64) in
  msg ++ [0x80] ++ repeat 0 zeros ++ leBytes 8 (8 * n).

Fixpoint leWords (fuel : nat) (bytes : list Z) : list Z :=
  match fuel, bytes with
  | S fuel', b0 :: b1 :: b2 :: b3 :: rest =>
      (b0 + Z.shiftl b1 8 + Z.shiftl b2 16 + Z.shiftl b3 24) :: leWords fuel' rest
  | _, _ => []
  end.

Fixpoint blocks (fuel : nat) (words : list Z) : list (list Z) :=
  match fuel, words with
  | S fuel', _ :: _ => take 16 words :: blocks fuel' (List.skipn 16 words)
  | _, _ => []
  end.

Definition nthZ (l : list Z) (i : Z) : Z := nth (Z.to_nat i) l 0.

Definition step (M : list Z) (st : Z * Z * Z * Z) (i : Z) : Z * Z * Z * Z :=
  let '(a, b, c, d) := st in
  let '(f, g) :=
    if i <? 16 then (Z.lor (Z.land b c) (Z.land (not32 b) d), i)
    else if i <? 32 then (Z.lor (Z.land d b) (Z.land (not32 d) c), (5 * i + 1) mod 16)
    else if i <? 48 then (Z.lxor (Z.lxor b c) d, (3 * i + 5) mod 16)
    else (Z.lxor c (Z.lor b (not32 d)), (7 * i) mod 16) in
  let f' := add32 (add32 (add32 f a) (nthZ K i)) (nthZ M g) in
  (d, add32 b (rotl32 f' (nthZ shifts i)), b, c).

Definition processBlock (st : Z * Z * Z * Z) (M : list Z) : Z * Z * Z * Z :=
  let '(a0, b0, c0, d0) := st in
  let '(a, b, c, d) := foldl (step M) st (map Z.of_nat (seq 0 64)) in
  (add32 a0 a, add32 b0 b, add32 c0 c, add32 d0 d).

Definition hexDigit (x : Z) : ascii :=
  if x <? 10 then ascii_of_nat (Z.to_nat (48 + x)) else ascii_of_nat (Z.to_nat (87 + x)).

Definition hexByte (b : Z) : string :=
  String (hexDigit (Z.shiftr b 4)) (String (hexDigit (Z.land b 0xf)) EmptyString).

Definition md5 (s : string) : string :=
  let bytes := pad (bytesOf s) in
  let words := leWords (length bytes) bytes in
  let '(a, b, c, d) :=
    foldl processBlock (0x67452301, 0xefcdab89, 0x98badcfe, 0x10325476)
      (blocks (length words) words) in
  Js.join (map hexByte (leBytes 4 a ++ leBytes 4 b ++ leBytes 4 c ++ leBytes 4 d)).

End Md5.

(** ** src/cache/cache-manager.ts

    The directory [.userlens_cache/metadata] is a finite map from file names
    to file contents.  A content is represented by what [JSON.parse] makes
    of it: either it is rejected, or it yields a document, of which the
    model keeps the two fields the cache manager reads.  A present
    [componentMetadata] has the shape the source's cast gives it.
    Reading, writing and unlinking do not fail for reasons other than a
    missing file. *)
Module CacheManager.

Inductive CacheFile :=
  | Unparsable
  | JsonData (sourceFileHash : option string) (componentMetadata : option ComponentMetadata).

Record CachedComponent := {
  sourceFileHash : string;
  componentMetadata : ComponentMetadata
}.

#[global] Instance CacheFile_eq_dec : EqDecision CacheFile.
Proof. solve_decision. Defined.
#[global] Instance CachedComponent_eq_dec : EqDecision CachedComponent.
Proof. solve_decision. Defined.

Section WithHash.
Variable calculateStringMD5 : string -> string.

(** The name of the cache file inside the metadata directory. *)
Definition getCacheFilePath (sourceFilePath : string) : string :=
  calculateStringMD5 sourceFilePath +:+ ".json".

Definition removeCachedComponent (dir : gmap string CacheFile)
    (sourceFilePath : string) : gmap string CacheFile :=
  delete (getCacheFilePath sourceFilePath) dir.

(** Returns the cached data ([None] for [null]) and the directory as the
    call leaves it. *)
Definition getCachedComponent (dir : gmap string CacheFile)
    (sourceFilePath : string) : option CachedComponent * gmap string CacheFile :=
  match dir !! getCacheFilePath sourceFilePath with
  | None => (None, dir)
  | Some Unparsable => (None, dir)
  | Some (JsonData (Some h) (Some m)) =>
      (Some {| sourceFileHash := h; componentMetadata := m |}, dir)
  | Some (JsonData _ _) => (None, removeCachedComponent dir sourceFilePath)
  end.

Definition cacheComponent (dir : gmap string CacheFile) (sourceFilePath : string)
    (hash : string) (metadata : ComponentMetadata) : gmap string CacheFile :=
  <[ getCacheFilePath sourceFilePath := JsonData (Some hash) (Some metadata) ]> dir.

(** [None] when the file cannot be read. *)
Definition calculateFileContentHash (sources : gmap string string)
    (absoluteFilePath : string) : option string :=
  calculateStringMD5 <$> sources !! absoluteFilePath.

(** The path one directory entry contributes. *)
Definition cachedFilePath (entry : string * CacheFile) : list string :=
  let '(file, content) := entry in
  if String.eqb (Path.extname file) ".json" then
    match content with
    | JsonData _ (Some m) => [filePath m]
    | _ => []
    end
  else [].

Definition getAllCachedFilePaths (dir : gmap string CacheFile) : list string :=
  flat_map cachedFilePath (map_to_list dir).
End WithHash.

End CacheManager.

(** ** src/generators/markdown/markdown-generator.ts: the name of a component's page *)
Module MarkdownGenerator.

(** The file [generateComponentDoc] writes into the directory of the
    component's category. *)
Definition componentDocFileName (component : ComponentMetadata) : string :=
  Js.replaceNonAlnum (Js.toLowerCase (name component)) +:+ ".md".

End MarkdownGenerator.

(** ** src/cli/index.ts: the [analyze] command

    The command is modelled from the point where the configuration is
    resolved, the analyzer plugin is chosen and [findComponentFiles] has
    returned the list of component files.  The analyzer and
    [JSON.stringify] are parameters.  Source files are a finite map from
    absolute paths to contents; reading a path outside the map fails. *)
Module Cli.
Import CacheManager PatternMatcher.

Record Changeset := {
  newComponents : list string;
  changedComponents : list string;
  deletedComponents : list string;
  componentsJsonChanged : bool;
  patternsJsonChanged : bool;
  workflowsJsonChanged : bool
}.

(** An output artifact on disk: absent, empty, rejected by [JSON.parse], or
    a document. *)
Inductive JsonFile (A : Type) :=
  | Missing
  | EmptyText
  | Malformed
  | Json (v : A).
Arguments Missing {A}.
Arguments EmptyText {A}.
Arguments Malformed {A}.
Arguments Json {A} v.

Record FileSystem := {
  sources : gmap string string;
  metadataCacheDir : gmap string CacheFile;
  componentsJson : JsonFile (list ComponentMetadata);
  patternsJson : JsonFile (list DetectedPattern);
  workflowsJson : JsonFile (list Workflow);
  changesetJson : option Changeset
}.

(** The variables of the per-file loop; [parsed] records the calls of
    [analyzer.parseComponent]. *)
Record LoopState := {
  cache : gmap string CacheFile;
  components : list ComponentMetadata;
  processedRelativeFilePaths : list string;
  changedOrNewRelativeFilePaths : list string;
  parsed : list string
}.

Definition withFilePath (m : ComponentMetadata) (p : string) : ComponentMetadata :=
  {| name := name m; filePath := p; props := props m; userActions := userActions m;
     semanticCategory := semanticCategory m; description := description m |}.

Section Analyze.
Variable md5 : string -> string.
Variable projectRoot : string.
(** [analyzer.parseComponent] on a path and the content it reads there;
    [None] when it throws. *)
Variable analyzer : string -> string -> option ComponentMetadata.
(** [JSON.stringify(data, null, 2)] on the three artifacts. *)
Variable stringifyComponents : list ComponentMetadata -> string.
Variable stringifyPatterns : list DetectedPattern -> string.
Variable stringifyWorkflows : list Workflow -> string.

(** The filePath of reused metadata, made relative when it is absolute. *)
Definition normalizeFilePath (m : ComponentMetadata) : ComponentMetadata :=
  if Path.isAbsolute (filePath m)
  then withFilePath m (Path.relative projectRoot (filePath m))
  else m.

(** One iteration of [for (const absoluteFilePath of componentFiles)]. *)
Definition processFile (sources : gmap string string) (st : LoopState)
    (absoluteFilePath : string) : LoopState :=
  let relativeFilePath := Path.relative projectRoot absoluteFilePath in
  let processed := processedRelativeFilePaths st ++ [relativeFilePath] in
  match sources !! absoluteFilePath with
  | None =>
      {| cache := cache st; components := components st;
         processedRelativeFilePaths := processed;
         changedOrNewRelativeFilePaths := changedOrNewRelativeFilePaths st;
         parsed := parsed st |}
  | Some content =>
      let currentContentHash := md5 content in
      let '(cachedData, dir) := getCachedComponent md5 (cache st) relativeFilePath in
      let reanalyze :=
        match analyzer absoluteFilePath content with
        | None =>
            {| cache := dir; components := components st;
               processedRelativeFilePaths := processed;
               changedOrNewRelativeFilePaths := changedOrNewRelativeFilePaths st;
               parsed := parsed st ++ [absoluteFilePath] |}
        | Some parsedMetadata =>
            let metadataToCache := withFilePath parsedMetadata relativeFilePath in
            {| cache := cacheComponent md5 dir relativeFilePath currentContentHash metadataToCache;
               components := components st ++ [metadataToCache];
               processedRelativeFilePaths := processed;
               changedOrNewRelativeFilePaths :=
                 changedOrNewRelativeFilePaths st ++ [relativeFilePath];
               parsed := parsed st ++ [absoluteFilePath] |}
        end in
      match cachedData with
      | Some data =>
          if String.eqb (sourceFileHash data) currentContentHash then
            {| cache := dir;
               components := components st ++ [normalizeFilePath (componentMetadata data)];
               processedRelativeFilePaths := processed;
               changedOrNewRelativeFilePaths := changedOrNewRelativeFilePaths st;
               parsed := parsed st |}
          else reanalyze
      | None => reanalyze
      end
  end.

(** One iteration of the loop over the paths cached before the run. *)
Definition handleDeleted (processed : list string)
    (acc : gmap string CacheFile * list string) (cachedPath : string)
    : gmap string CacheFile * list string :=
  let '(dir, deleted) := acc in
  if Js.arrayIncludes processed cachedPath then acc
  else (removeCachedComponent md5 dir cachedPath, deleted ++ [cachedPath]).

Definition calculateJsonHash {A} (stringify : A -> string) (data : A) : string :=
  md5 (stringify data).

(** Compare an artifact with the stored one and write it when it differs:
    the dirty flag and the file afterwards, or [None] when [JSON.parse]
    throws on the stored text, which ends the command. *)
Definition updateArtifact {A} (stringify : A -> string) (old : JsonFile A) (new : A)
    : option (bool * JsonFile A) :=
  match old with
  | Missing | EmptyText => Some (true, Json new)
  | Malformed => None
  | Json v =>
      let changed :=
        negb (String.eqb (calculateJsonHash stringify v) (calculateJsonHash stringify new)) in
      Some (changed, if changed then Json new else old)
  end.

(** The state of the cache loop after all files and the deletions. *)
Record CachePhase := {
  finalCache : gmap string CacheFile;
  allComponents : list ComponentMetadata;
  newPaths : list string;
  changedPaths : list string;
  deletedPaths : list string;
  parsedFiles : list string
}.

Definition cachePhase (componentFiles : list string) (fs : FileSystem) : CachePhase :=
  let initialCachedRelativePaths := getAllCachedFilePaths (metadataCacheDir fs) in
  let st :=
    foldl (processFile (sources fs))
      {| cache := metadataCacheDir fs; components := [];
         processedRelativeFilePaths := []; changedOrNewRelativeFilePaths := [];
         parsed := [] |}
      componentFiles in
  let '(dir, deletedRelativeFilePaths) :=
    foldl (handleDeleted (processedRelativeFilePaths st)) (cache st, [])
      initialCachedRelativePaths in
  {| finalCache := dir;
     allComponents := components st;
     newPaths :=
       List.filter (fun p => negb (Js.arrayIncludes initialCachedRelativePaths p))
         (changedOrNewRelativeFilePaths st);
     changedPaths :=
       List.filter (Js.arrayIncludes initialCachedRelativePaths)
         (changedOrNewRelativeFilePaths st);
     deletedPaths := deletedRelativeFilePaths;
     parsedFiles := parsed st |}.

(** The [analyze] command on the files found by the scan: the file system
    afterwards and the changeset written, [None] when the command ends
    with an error. *)
Definition analyze (componentFiles : list string) (fs : FileSystem)
    : FileSystem * option Changeset :=
  let ph := cachePhase componentFiles fs in
  let fs0 :=
    {| sources := sources fs; metadataCacheDir := finalCache ph;
       componentsJson := componentsJson fs; patternsJson := patternsJson fs;
       workflowsJson := workflowsJson fs; changesetJson := changesetJson fs |} in
  match updateArtifact stringifyComponents (componentsJson fs) (allComponents ph) with
  | None => (fs0, None)
  | Some (cChanged, cFile) =>
    let fs1 :=
      {| sources := sources fs; metadataCacheDir := finalCache ph;
         componentsJson := cFile; patternsJson := patternsJson fs;
         workflowsJson := workflowsJson fs; changesetJson := changesetJson fs |} in
    let patterns := detectPatterns (allComponents ph) in
    let workflows := detectWorkflows (allComponents ph) in
    match updateArtifact stringifyPatterns (patternsJson fs) patterns with
    | None => (fs1, None)
    | Some (pChanged, pFile) =>
      let fs2 :=
        {| sources := sources fs; metadataCacheDir := finalCache ph;
           componentsJson := cFile; patternsJson := pFile;
           workflowsJson := workflowsJson fs; changesetJson := changesetJson fs |} in
      match updateArtifact stringifyWorkflows (workflowsJson fs) workflows with
      | None => (fs2, None)
      | Some (wChanged, wFile) =>
        let changeset :=
          {| newComponents := newPaths ph;
             changedComponents := changedPaths ph;
             deletedComponents := deletedPaths ph;
             componentsJsonChanged := cChanged;
             patternsJsonChanged := pChanged;
             workflowsJsonChanged := wChanged |} in
        ({| sources := sources fs; metadataCacheDir := finalCache ph;
            componentsJson := cFile; patternsJson := pFile;
            workflowsJson := wFile; changesetJson := Some changeset |},
         Some changeset)
      end
    end
  end.
End Analyze.

(** *** [findComponentFiles]

    The directory below the entry path is a tree of the entries
    [fs.readdir(dirPath, { withFileTypes: true })] returns; every directory
    can be read.  The test against the exclude patterns is a parameter. *)

Definition isComponentFile (fileName framework : string) : bool :=
  let ext := Js.toLowerCase (Path.extname fileName) in
  let baseName := Path.basename fileName ext in
  if String.eqb framework "react" then
    (String.eqb ext ".jsx" || String.eqb ext ".tsx" || String.eqb ext ".js"
     || String.eqb ext ".ts")
    && (Js.startsWithUpper baseName
        || Js.includes baseName "Component"
        || Js.includes fileName "/components/"
        || Js.includes fileName "\components\"
        || Js.endsWith baseName "Page"
        || Js.endsWith baseName "View")
    && negb (Js.endsWith baseName ".test")
    && negb (Js.endsWith baseName ".spec")
  else if String.eqb framework "vue" then String.eqb ext ".vue"
  else if String.eqb framework "angular" then
    String.eqb ext ".ts"
    && (Js.endsWith baseName ".component" || Js.includes fileName ".component.")
  else false.

(** A directory entry: a file, a directory with its entries, or something
    that is neither (a symbolic link, a socket). *)
#[warnings="-register-all"]
Inductive DirEntry :=
  | FileEntry (entryName : string)
  | Directory (entryName : string) (entries : list DirEntry)
  | OtherEntry (entryName : string).

Definition entry_name (entry : DirEntry) : string :=
  match entry with
  | FileEntry n | Directory n _ | OtherEntry n => n
  end.

(** The directories [scanDirectory] does not enter. *)
Definition skippedDirectory (entryName : string) : bool :=
  String.eqb entryName "node_modules" || String.eqb entryName "dist"
  || String.eqb entryName "build" || Js.startsWith entryName ".".

Section Scan.
Variable framework : string.
(** [excludeRegexes.some(regex => regex.test(fullPath))] *)
Variable excluded : string -> bool.

(** One iteration of the loop of [scanDirectory]; [path.join(dirPath, entry.name)]
    is [dirPath/name] for a directory path without a trailing slash. *)
Fixpoint scanEntry (dirPath : string) (entry : DirEntry) : list string :=
  let fullPath := dirPath +:+ "/" +:+ entry_name entry in
  if excluded fullPath then []
  else match entry with
       | Directory entryName entries =>
           if negb (skippedDirectory entryName)
           then flat_map (scanEntry fullPath) entries else []
       | FileEntry _ => if isComponentFile fullPath framework then [fullPath] else []
       | OtherEntry _ => []
       end.

Definition findComponentFiles (entryPath : string) (entries : list DirEntry) : list string :=
  flat_map (scanEntry entryPath) entries.
End Scan.

(** *** The [generate] command: its two tests on the changeset, and the
    page it looks for when a component was deleted *)

Definition noRelevantChanges (changeset : Changeset) : bool :=
  (length (newComponents changeset) =? 0)%nat
  && (length (changedComponents changeset) =? 0)%nat
  && (length (deletedComponents changeset) =? 0)%nat
  && negb (componentsJsonChanged changeset)
  && negb (patternsJsonChanged changeset)
  && negb (workflowsJsonChanged changeset).

Definition needsStructuralUpdate (changeset : Changeset) : bool :=
  (0 <? length (newComponents changeset))%nat
  || (0 <? length (changedComponents changeset))%nat
  || (0 <? length (deletedComponents changeset))%nat
  || componentsJsonChanged changeset
  || patternsJsonChanged changeset
  || workflowsJsonChanged changeset.

Definition deletedDocFileName (deletedComponentPath : string) : string :=
  let baseName := Path.basename deletedComponentPath (Path.extname deletedComponentPath) in
  Js.replaceNonAlnum (Js.toLowerCase baseName) +:+ ".md".


End Cli.

(** * Inputs of the scenarios and the statements of the specification *)

Import Js Babel ReactAnalyzer NLPProcessor PatternMatcher CacheManager Cli.

(** ** Syntax trees *)
Module Scenario.
(** const LoginForm = ({ onLogin, redirectUrl }) => {
      return (
        <form onSubmit={() => onLogin(redirectUrl)}>
          <button>Sign In</button>
        </form>
      );
    };
    export default LoginForm; *)
Definition loginFormAst : File :=
  [ Other [ Other [ Identifier "LoginForm";
      ArrowFunctionExpression
        [ ObjectPattern
            [ ObjectProperty (Identifier "onLogin") (Identifier "onLogin");
              ObjectProperty (Identifier "redirectUrl") (Identifier "redirectUrl") ] ]
        [ Other [ Other [
            JSXElement "form"
              [ Other [ Other [ ArrowFunctionExpression []
                  [ Other [ Identifier "onLogin"; Identifier "redirectUrl" ] ] ] ] ]
              [ JSXElement "button" [] [ JSXText "Sign In" ] ] ] ] ] ] ];
    ExportDefaultDeclaration (Identifier "LoginForm") ].

(** export default function App() { return <Dashboard />; }
    export function formatDate(d) { return d.toISOString(); } *)
Definition appWithHelperAst : File :=
  [ ExportDefaultDeclaration
      (FunctionDeclaration (Some "App") [] [ Other [ JSXElement "Dashboard" [] [] ] ]);
    ExportNamedDeclaration
      (Some (FunctionDeclaration (Some "formatDate") [ Identifier "d" ]
               [ Other [ Other [ MemberExpression (Identifier "d") (Identifier "toISOString") ] ] ])) ].

(** interface ButtonProps { label: string; size?: number; }
    function Button({ label, size, color, onClick }: ButtonProps) {
      return <button onClick={onClick}>{label}</button>;
    }
    Button.propTypes = { label: PropTypes.string, color: PropTypes.string };
    export default Button; *)
Definition buttonAst : File :=
  [ TSInterfaceDeclaration "ButtonProps"
      [ TSPropertySignature (Identifier "label") false (Some TSStringKeyword);
        TSPropertySignature (Identifier "size") true (Some TSNumberKeyword) ];
    FunctionDeclaration (Some "Button")
      [ ObjectPattern
          [ ObjectProperty (Identifier "label") (Identifier "label");
            ObjectProperty (Identifier "size") (Identifier "size");
            ObjectProperty (Identifier "color") (Identifier "color");
            ObjectProperty (Identifier "onClick") (Identifier "onClick") ] ]
      [ Other [ JSXElement "button" [ Other [ Other [ Identifier "onClick" ] ] ]
                  [ Other [ Identifier "label" ] ] ] ];
    Other [ AssignmentExpression
              (MemberExpression (Identifier "Button") (Identifier "propTypes"))
              (ObjectExpression
                 [ ObjectProperty (Identifier "label")
                     (MemberExpression (Identifier "PropTypes") (Identifier "string"));
                   ObjectProperty (Identifier "color")
                     (MemberExpression (Identifier "PropTypes") (Identifier "string")) ]) ];
    ExportDefaultDeclaration (Identifier "Button") ].
End Scenario.


(** ** Statements of the specification, for comparison with the code *)

(** The order of the merge as the specification words it: prop-descriptor
    object first, then the interface, then the destructured names. *)
Definition propsInClaimedOrder (ast : File) : list PropDefinition :=
  traverse ast functionVisitor
    (propTypesProps (traverse ast propTypesVisitor []) ++ traverse ast interfaceVisitor []).

(** Scenario A as the specification words it. *)
Definition scenarioA (m : ComponentMetadata) : Prop :=
  name m = "LoginForm"
  /\ In "onLogin" (map prop_name (props m))
  /\ In "redirectUrl" (map prop_name (props m))
  /\ (exists a, In a (userActions m) /\ action_type a = submit)
  /\ semanticCategory m = FORM
  /\ includes (description m) "Sign in" = true.

(** The names a parameter list destructures: the identifier keys of the
    object pattern in first position. *)
Definition propertyKey (property : Node) : list string :=
  match property with
  | ObjectProperty (Identifier propName) _ => [propName]
  | _ => []
  end.

Definition destructuredKeys (n : Node) : list string :=
  match n with
  | FunctionDeclaration _ (ObjectPattern properties :: _) _ => flat_map propertyKey properties
  | ArrowFunctionExpression (ObjectPattern properties :: _) _ => flat_map propertyKey properties
  | _ => []
  end.

Definition destructuredNames (ast : File) : list string :=
  flat_map destructuredKeys (flat_map preorder ast).

Definition untypedProp (n : string) : PropDefinition :=
  {| prop_name := n; prop_type := "any"; prop_required := false |}.

(** Add each name that is not yet there. *)
Definition fillProps (props : list PropDefinition) (names : list string)
    : list PropDefinition :=
  foldl (fun acc n => if hasProp acc n then acc else acc ++ [untypedProp n]) props names.

(** ** A project with six search components *)

Definition mkComponent (n : string) : ComponentMetadata :=
  {| name := n; filePath := "src/components/" +:+ n +:+ ".jsx"; props := [];
     userActions := []; semanticCategory := LAYOUT; description := "" |}.

Definition searchHeavyProject : list ComponentMetadata :=
  map mkComponent
    ["SearchBar"; "SearchBox"; "SearchPage"; "SearchFilter"; "SearchResults"; "SearchQuery"].

#[warnings="-inexact-float"]
Definition searchPattern : DetectedPattern :=
  {| dp_name := "search";
     dp_description := "Search and filtering functionality";
     dp_userGoal := "Find specific information";
     dp_components := searchHeavyProject;
     dp_actions := [];
     confidence := 1.0499999999999998 |}.

(** ** Disk states of the cache scenarios *)

Module Disk.
Definition projectRoot := "/proj".
Definition loginAbs := "/proj/src/components/LoginForm.jsx".
Definition loginRel := "src/components/LoginForm.jsx".
Definition navigationRel := "src/components/Navigation.jsx".
Definition loginSource :=
  "const LoginForm = ({ onLogin, redirectUrl }) => { return (<form onSubmit={() => onLogin(redirectUrl)}><button>Sign In</button></form>); }; export default LoginForm;".
Definition brokenSource :=
  "export default function LoginForm({ onLogin, redirectUrl } {".

Definition loginMeta (path : string) : ComponentMetadata :=
  {| name := "LoginForm"; filePath := path;
     props := [ {| prop_name := "onLogin"; prop_type := "any"; prop_required := false |};
                {| prop_name := "redirectUrl"; prop_type := "any"; prop_required := false |} ];
     userActions := []; semanticCategory := FORM;
     description := "Sign in to your account" |}.

Definition navigationMeta : ComponentMetadata :=
  {| name := "Navigation"; filePath := navigationRel; props := [];
     userActions := [ ReactAnalyzer.createNavigationAction "Navigation" ];
     semanticCategory := NAVIGATION;
     description := "Navigate through the application" |}.

Definition corruptCache : gmap string CacheFile :=
  {[ getCacheFilePath Md5.md5 loginRel := Unparsable ]}.

Definition legacyCache : gmap string CacheFile :=
  {[ getCacheFilePath Md5.md5 loginRel :=
       JsonData (Some (Md5.md5 loginSource)) (Some (loginMeta loginAbs)) ]}.

Definition loginCache : gmap string CacheFile :=
  {[ getCacheFilePath Md5.md5 loginRel :=
       JsonData (Some (Md5.md5 loginSource)) (Some (loginMeta loginRel)) ]}.

Definition twoEntryCache : gmap string CacheFile :=
  <[ getCacheFilePath Md5.md5 navigationRel :=
       JsonData (Some (Md5.md5 "nav")) (Some navigationMeta) ]> loginCache.

Definition emptyLoop (dir : gmap string CacheFile) : LoopState :=
  {| cache := dir; components := []; processedRelativeFilePaths := [];
     changedOrNewRelativeFilePaths := []; parsed := [] |}.

Definition freshOutput (src : gmap string string) (dir : gmap string CacheFile) : FileSystem :=
  {| sources := src; metadataCacheDir := dir; componentsJson := Missing;
     patternsJson := Missing; workflowsJson := Missing; changesetJson := None |}.

(** [parseCode] on the two source texts above: the first parses, the
    second is a syntax error. *)
Definition parseCode (code filePath : string) : option Babel.File :=
  if String.eqb code loginSource then Some Scenario.loginFormAst else None.

Definition noContext (filePath : string) (ast : Babel.File) (props : list PropDefinition)
    : NlpComponentContext :=
  {| ctx_filePath := filePath; ctx_props := props; jsxTextContent := [];
     comments := {| leading := []; trailing := []; inner := []; jsdoc := [] |};
     importSources := []; htmlTagsUsed := [] |}.

Definition analyzer : string -> string -> option ComponentMetadata :=
  ReactAnalyzer.parseComponent [] parseCode noContext.

(** Stand-ins for [JSON.stringify] in the concrete runs. *)
Definition printComponents (cs : list ComponentMetadata) : string :=
  Path.joinWith "," (map name cs).
Definition printPatterns (ps : list PatternMatcher.DetectedPattern) : string :=
  Path.joinWith "," (map PatternMatcher.dp_name ps).
Definition printWorkflows (ws : list PatternMatcher.Workflow) : string :=
  Path.joinWith "," (map PatternMatcher.wf_name ws).

Definition run : list string -> FileSystem -> FileSystem * option Changeset :=
  analyze Md5.md5 projectRoot analyzer printComponents printPatterns printWorkflows.
End Disk.


(** The per-file cache contract as the specification words it: for a file
    with a cache entry, the stored metadata is reused without a call of the
    analyzer exactly when the hashes agree, and on a mismatch the analyzer
    is called and the entry is overwritten with the current hash. *)
Definition cacheContract (md5 : string -> string) (projectRoot : string)
    (analyzer : string -> string -> option ComponentMetadata)
    (src : gmap string string) (st : LoopState) (absoluteFilePath : string) : Prop :=
  forall content data,
    src !! absoluteFilePath = Some content ->
    (getCachedComponent md5 (cache st) (Path.relative projectRoot absoluteFilePath)).1
      = Some data ->
    let st' := processFile md5 projectRoot analyzer src st absoluteFilePath in
    ((parsed st' = parsed st
      /\ components st' =
           components st ++ [normalizeFilePath projectRoot (componentMetadata data)])
     <-> sourceFileHash data = md5 content)
    /\ (sourceFileHash data <> md5 content ->
        parsed st' = parsed st ++ [absoluteFilePath]
        /\ exists m,
             cache st' !! getCacheFilePath md5 (Path.relative projectRoot absoluteFilePath)
             = Some (JsonData (Some (md5 content)) (Some m))).

(** The paths the deletion loop removes: cached before the run, not seen
    by the scan. *)
Definition vanished (processed cached : list string) : list string :=
  List.filter (fun p => negb (Js.arrayIncludes processed p)) cached.

Definition legacyEntry : CachedComponent :=
  {| sourceFileHash := Md5.md5 Disk.loginSource;
     componentMetadata := Disk.loginMeta Disk.loginAbs |}.

Definition loginEntry : CachedComponent :=
  {| sourceFileHash := Md5.md5 Disk.loginSource;
     componentMetadata := Disk.loginMeta Disk.loginRel |}.

Definition scenarioC : FileSystem :=
  Disk.freshOutput {[ Disk.loginAbs := Disk.loginSource ]} Disk.twoEntryCache.

Definition scenarioC_changeset : Changeset :=
  {| newComponents := []; changedComponents := [];
     deletedComponents := [Disk.navigationRel];
     componentsJsonChanged := true; patternsJsonChanged := true;
     workflowsJsonChanged := true |}.

(** ** Idempotence of the analyze command: its conditions *)

(** A cache file with the extension .json that holds metadata is named by
    the key of the filePath it stores, which is how [cacheComponent] writes
    it. *)
Definition wellKeyedEntry (md5 : string -> string) (k : string) (e : CacheFile) : bool :=
  match e with
  | JsonData _ (Some m) =>
      if String.eqb (Path.extname k) ".json"
      then String.eqb k (getCacheFilePath md5 (filePath m)) else true
  | _ => true
  end.

Definition wellKeyed (md5 : string -> string) (dir : gmap string CacheFile) : Prop :=
  map_Forall (fun k e => wellKeyedEntry md5 k e = true) dir.

(** No two of the paths have the same fingerprint. *)
Definition collisionFree (md5 : string -> string) (paths : list string) : Prop :=
  forall p q, In p paths -> In q paths -> md5 p = md5 q -> p = q.

(** No two of the scanned files have the same relative path. *)
Definition distinctRelativePaths (projectRoot : string) (files : list string) : Prop :=
  forall f g, In f files -> In g files ->
    Path.relative projectRoot f = Path.relative projectRoot g -> f = g.

(** What a visit of the loop adds to [components] when the cache file of
    the visited path holds [e] afterwards. *)
Definition reuse (md5 : string -> string) (projectRoot : string)
    (e : option CacheFile) (content : string) : list ComponentMetadata :=
  match e with
  | Some (JsonData (Some h) (Some m)) =>
      if String.eqb h (md5 content) then [normalizeFilePath projectRoot m] else []
  | _ => []
  end.

(** A cache file is settled for a source file when a visit of the loop
    leaves the cache as it is: a hit, or an extraction that fails. *)
Definition settled (md5 : string -> string)
    (analyzer : string -> string -> option ComponentMetadata)
    (e : option CacheFile) (absoluteFilePath content : string) : Prop :=
  match e with
  | Some (JsonData (Some h) (Some m)) =>
      h = md5 content \/ analyzer absoluteFilePath content = None
  | Some (JsonData _ _) => False
  | _ => analyzer absoluteFilePath content = None
  end.

(** The components a visit of a file adds when the cache is [dir] after
    the visit. *)
Definition visitResult (md5 : string -> string) (projectRoot : string)
    (src : gmap string string) (dir : gmap string CacheFile) (abs : string)
    : list ComponentMetadata :=
  match src !! abs with
  | Some content =>
      reuse md5 projectRoot
        (dir !! getCacheFilePath md5 (Path.relative projectRoot abs)) content
  | None => []
  end.

Definition settledAll (md5 : string -> string) (projectRoot : string)
    (analyzer : string -> string -> option ComponentMetadata)
    (src : gmap string string) (dir : gmap string CacheFile) (files : list string) : Prop :=
  forall f content, In f files -> src !! f = Some content ->
    settled md5 analyzer (dir !! getCacheFilePath md5 (Path.relative projectRoot f)) f content.

Definition emptyChangeset : Changeset :=
  {| newComponents := []; changedComponents := []; deletedComponents := [];
     componentsJsonChanged := false; patternsJsonChanged := false;
     workflowsJsonChanged := false |}.

Definition withChangeset (fs : FileSystem) (cs : Changeset) : FileSystem :=
  {| sources := sources fs; metadataCacheDir := metadataCacheDir fs;
     componentsJson := componentsJson fs; patternsJson := patternsJson fs;
     workflowsJson := workflowsJson fs; changesetJson := Some cs |}.

(** Decision procedures for [wellKeyed] and [collisionFree]. *)
Definition wellKeyedb (md5 : string -> string) (dir : gmap string CacheFile) : bool :=
  forallb (fun '(k, e) => wellKeyedEntry md5 k e) (map_to_list dir).

Definition collisionFreeb (md5 : string -> string) (paths : list string) : bool :=
  forallb (fun p =>
    forallb (fun q => if String.eqb (md5 p) (md5 q) then String.eqb p q else true) paths)
    paths.

(** ** Further statements and inputs *)

Import MarkdownGenerator.

(** The characters of a string. *)
Definition chars (s : string) : list ascii := list_ascii_of_string s.

(** A string without its spaces. *)
Fixpoint withoutSpaces (s : string) : string :=
  match s with
  | EmptyString => EmptyString
  | String c s' => if Ascii.eqb c " " then withoutSpaces s' else String c (withoutSpaces s')
  end.

(** What a keyword looks like: longer than two characters, in lower case,
    without a space. *)
Definition keywordLike (k : string) : Prop :=
  (2 < String.length k)%nat /\ toLowerCase k = k /\ includes k " " = false.

(** The name an export declaration gives to [componentName]. *)
Definition exportedName (n : Node) : option string :=
  match n with
  | ExportDefaultDeclaration (Identifier x) => Some x
  | ExportDefaultDeclaration (FunctionDeclaration (Some x) _ _) => Some x
  | ExportDefaultDeclaration (ClassDeclaration (Some x) _) => Some x
  | ExportNamedDeclaration (Some (FunctionDeclaration (Some x) _ _)) => Some x
  | ExportNamedDeclaration (Some (ClassDeclaration (Some x) _)) => Some x
  | _ => None
  end.

(** The own keys of a plain object: distinct, and never ["__proto__"]. *)
Definition ownKeys {V} (record : list (string * V)) : Prop :=
  List.NoDup (map fst record) /\ ~ In "__proto__" (map fst record).

(** Neither a slash nor a dot. *)
Definition plainChar (c : ascii) : bool := negb (Path.isSlash c) && negb (Path.isDot c).

(** A directory tree without the directories the scan does not enter, at
    every depth. *)
Fixpoint pruneEntry (entry : DirEntry) : list DirEntry :=
  match entry with
  | Directory entryName entries =>
      if skippedDirectory entryName then []
      else [Directory entryName (flat_map pruneEntry entries)]
  | _ => [entry]
  end.

(** A first run: LoginForm.jsx, no cache, no artifacts. *)
Definition scenarioFirstRun : FileSystem :=
  Disk.freshOutput {[ Disk.loginAbs := Disk.loginSource ]} ∅.

Definition scenarioFirstRun_changeset : Changeset :=
  {| newComponents := [Disk.loginRel]; changedComponents := [];
     deletedComponents := [];
     componentsJsonChanged := true; patternsJsonChanged := true;
     workflowsJsonChanged := true |}.

(** LoginForm.jsx was edited since it was cached, Navigation.jsx is gone. *)
Definition staleCache : gmap string CacheFile :=
  <[ getCacheFilePath Md5.md5 Disk.navigationRel :=
       JsonData (Some (Md5.md5 "nav")) (Some Disk.navigationMeta) ]>
    {[ getCacheFilePath Md5.md5 Disk.loginRel :=
         JsonData (Some (Md5.md5 "an earlier text")) (Some (Disk.loginMeta Disk.loginRel)) ]}.

Definition scenarioStale : FileSystem :=
  Disk.freshOutput {[ Disk.loginAbs := Disk.loginSource ]} staleCache.

Definition scenarioStale_changeset : Changeset :=
  {| newComponents := []; changedComponents := [Disk.loginRel];
     deletedComponents := [Disk.navigationRel];
     componentsJsonChanged := true; patternsJsonChanged := true;
     workflowsJsonChanged := true |}.

(** The names of the members of [Object.prototype]: a lookup [record[key]]
    in a plain object finds them when the object has no own key of that
    name. *)
Definition objectPrototypeKeys : list string :=
  [ "constructor"; "__defineGetter__"; "__defineSetter__"; "hasOwnProperty";
    "__lookupGetter__"; "__lookupSetter__"; "isPrototypeOf"; "propertyIsEnumerable";
    "toString"; "valueOf"; "__proto__"; "toLocaleString" ].

(** A character of the ASCII range, on which the case functions of
    JavaScript are those of [Js]. *)
Definition isAscii (c : ascii) : bool := (nat_of_ascii c <? 128)%nat.

(** Navigation.jsx is gone from the project; its cache entry, beside the
    entry of LoginForm.jsx, stores the absolute path of the file. *)
Definition navigationAbs := "/proj/src/components/Navigation.jsx".

Definition legacyNavigationEntry : CachedComponent :=
  {| sourceFileHash := Md5.md5 "nav";
     componentMetadata :=
       {| name := "Navigation"; filePath := navigationAbs; props := [];
          userActions := [ ReactAnalyzer.createNavigationAction "Navigation" ];
          semanticCategory := NAVIGATION;
          description := "Navigate through the application" |} |}.

Definition legacyNavigationCache : gmap string CacheFile :=
  <[ getCacheFilePath Md5.md5 Disk.navigationRel :=
       JsonData (Some (sourceFileHash legacyNavigationEntry))
         (Some (componentMetadata legacyNavigationEntry)) ]> Disk.loginCache.

Definition scenarioLegacyDeletion : FileSystem :=
  Disk.freshOutput {[ Disk.loginAbs := Disk.loginSource ]} legacyNavigationCache.

(** A run that finds patterns.json with a text that cannot be parsed. *)
Definition scenarioMalformed : FileSystem :=
  {| sources := {[ Disk.loginAbs := Disk.loginSource ]}; metadataCacheDir := ∅;
     componentsJson := Missing; patternsJson := Malformed; workflowsJson := Missing;
     changesetJson := Some emptyChangeset |}.

(** A project in which rounding decides the order of the patterns: three
    search components with one matching action and four CRUD components
    with three.  In exact arithmetic both scores are 5/8. *)
Definition withAction (n d : string) : ComponentMetadata :=
  {| name := n; filePath := "src/components/" +:+ n +:+ ".jsx"; props := [];
     userActions := [ {| action_type := click; trigger := "Click"; action_description := d;
                         outcome := "" |} ];
     semanticCategory := LAYOUT; description := "" |}.

Definition tieProject : list ComponentMetadata :=
  [ withAction "SearchBar" "Apply filter"; mkComponent "SearchBox"; mkComponent "SearchPage";
    withAction "CreateItem" "Create new item"; withAction "EditItem" "Update existing item";
    withAction "DeleteItem" "Delete item"; mkComponent "UpdateItem" ].

(** ** Doubles: sign and order

    The specification of the primitive operations is given on [spec_float],
    the representation of a double by sign, mantissa and exponent. *)

(** The sign of a number; [None] for NaN. *)
Definition signOf (x : spec_float) : option bool :=
  match x with
  | S754_zero s | S754_infinity s | S754_finite s _ _ => Some s
  | S754_nan => None
  end.

(** Neither NaN nor a zero. *)
Definition nonzero (x : spec_float) : bool :=
  match x with
  | S754_infinity _ | S754_finite _ _ _ => true
  | _ => false
  end.

(** A key that orders the numbers as [SFcompare] does: the class and the
    sign, then the exponent, then the mantissa. *)
Definition SFkey (x : spec_float) : Z * Z * Z :=
  match x with
  | S754_zero _ | S754_nan => (0, 0, 0)
  | S754_infinity s => (if s then -2 else 2, 0, 0)
  | S754_finite s m e => if s then (-1, - e, Z.neg m) else (1, e, Z.pos m)
  end%Z.

Definition keyCompare (k1 k2 : Z * Z * Z) : comparison :=
  match (k1.1.1 ?= k2.1.1)%Z with
  | Eq => match (k1.1.2 ?= k2.1.2)%Z with
          | Eq => (k1.2 ?= k2.2)%Z
          | c => c
          end
  | c => c
  end.

Definition keyLe (k1 k2 : Z * Z * Z) : Prop :=
  (k1.1.1 < k2.1.1
   \/ (k1.1.1 = k2.1.1 /\ (k1.1.2 < k2.1.2 \/ (k1.1.2 = k2.1.2 /\ k1.2 <= k2.2))))%Z.

Definition isNumber (x : float) : Prop := signOf (Prim2SF x) <> None.

Definition key (x : float) : Z * Z * Z := SFkey (Prim2SF x).

(** [calculateConfidence] on the four lengths it reads. *)
#[warnings="-inexact-float"]
Definition score (matchingComponents matchingActions keywords phrases : nat) : float :=
  let componentScore := (number matchingComponents / number keywords)%float in
  let actionScore :=
    if (0 <? matchingActions)%nat
    then (number matchingActions / number phrases)%float else 0%float in
  ((componentScore * 0.7) + (actionScore * 0.3))%float.

(** The scores of a pattern are above 0 and not above 1 as long as there is
    a matching component, the matching components are no more than its
    keywords and the matching actions no more than its action phrases. *)
Definition boundedScores (entry : string * UIPattern) : bool :=
  let keywords := length (pat_components entry.2) in
  let phrases := length (pat_actions entry.2) in
  forallb (fun mc =>
    forallb (fun ma =>
      (0 <? score mc ma keywords phrases)%float && (score mc ma keywords phrases <=? 1)%float)
      (seq 0 (S phrases)))
    (seq 1 keywords).

(** * Theorems *)


(** The digest is computed by [vm_compute] only. *)
Opaque Md5.md5.

(** ** The primitives on known values *)

(** The test suite of RFC 1321. *)
Example md5_empty : Md5.md5 "" = "d41d8cd98f00b204e9800998ecf8427e".
Proof. vm_compute. reflexivity. Qed.

Example md5_abc : Md5.md5 "abc" = "900150983cd24fb0d6963f7d28e17f72".
Proof. vm_compute. reflexivity. Qed.

Example md5_two_blocks :
  Md5.md5 "12345678901234567890123456789012345678901234567890123456789012345678901234567890"
  = "57edf4a22be3c955ac49da2e2107b67a".
Proof. vm_compute. reflexivity. Qed.

Example extname_values :
  map Path.extname ["a1b2.json"; ".json"; "notes.txt"; "dir.d/file"; ".."; "x.tar.gz"]
  = [".json"; ""; ".txt"; ""; ""; ".gz"].
Proof. reflexivity. Qed.

Example relative_values :
  Path.relative "/proj" "/proj/src/components/LoginForm.jsx" = "src/components/LoginForm.jsx"
  /\ Path.relative "/proj/app" "/proj/lib/Button.tsx" = "../lib/Button.tsx"
  /\ Path.relative "/proj" "/proj" = "".
Proof. repeat split. Qed.

Example nameFromFile_values :
  map nameFromFile ["/proj/src/login-form.jsx"; "/proj/src/user_card.tsx"; "/proj/src/App.js"]
  = ["LoginForm"; "UserCard"; "App"].
Proof. reflexivity. Qed.

Example humanize_values :
  map humanize ["userProfileCard"; "HTTPServerStatus"; "sidebar"]
  = ["User Profile Card"; "HTTP Server Status"; "Sidebar"].
Proof. reflexivity. Qed.

(** ** Lists and booleans *)

Lemma existsb_map_compose {A B} (f : B -> bool) (g : A -> B) (l : list A) :
  existsb f (map g l) = existsb (fun x => f (g x)) l.
Proof. induction l as [|x l IH]; simpl; [done | by rewrite IH]. Qed.

Lemma existsb_never {A} (l : list A) : existsb (fun _ => false) l = false.
Proof. by induction l. Qed.

Lemma existsb_congr {A} (f g : A -> bool) (l : list A) :
  (forall x, f x = g x) -> existsb f l = existsb g l.
Proof. intros H. induction l as [|x l IH]; simpl; [done | by rewrite H, IH]. Qed.

Ltac lower_literals :=
  repeat match goal with
  | |- context [toLowerCase (String ?a ?s)] =>
      let r := eval vm_compute in (toLowerCase (String a s)) in
      change (toLowerCase (String a s)) with r
  end.

Lemma arrayIncludes_In xs x : arrayIncludes xs x = true <-> In x xs.
Proof.
  unfold arrayIncludes. rewrite existsb_exists. split.
  - intros (y & Hy & Heq). apply String.eqb_eq in Heq. by subst.
  - intros H. exists x. split; [done | apply String.eqb_refl].
Qed.

Lemma app_singleton_neq {A} (l : list A) (x : A) : l ++ [x] <> l.
Proof.
  intros H. apply (f_equal length) in H. rewrite length_app in H. simpl in H. lia.
Qed.

(** ** The classifier *)

(** C6. For every component name and prop list, [categorizeComponent]
    returns the category of the first matching rule of the ordered list
    FORM, NAVIGATION, INTERACTION, DISPLAY, where a rule matches when the
    name contains one of its keywords or some prop name contains one of its
    prop keywords, case-insensitively, and LAYOUT when no rule matches; the
    result is one of the five categories. *)
Theorem categorizeComponent_first_match
    (componentName : string) (props : list PropDefinition) (ctx : NlpComponentContext) :
  map rule_category categoryRules = [FORM; NAVIGATION; INTERACTION; DISPLAY]
  /\ categorizeComponent componentName props ctx = firstMatch categoryRules componentName props
  /\ In (categorizeComponent componentName props ctx)
        [FORM; NAVIGATION; INTERACTION; DISPLAY; LAYOUT].
Proof.
  split; [reflexivity | split].
  - unfold categorizeComponent, categoryRules, firstMatch, ruleMatches, containsCI.
    rewrite !existsb_map_compose.
    cbn [rule_category nameKeywords propKeywords existsb].
    lower_literals.
    rewrite existsb_never, !orb_false_r, !orb_assoc.
    rewrite (existsb_congr
      (fun p => includes (toLowerCase (prop_name p)) "onsubmit"
                || (includes (toLowerCase (prop_name p)) "form" || false))
      (fun p => includes (toLowerCase (prop_name p)) "onsubmit"
                || includes (toLowerCase (prop_name p)) "form"))
      by (intros; by rewrite orb_false_r).
    rewrite (existsb_congr
      (fun p => includes (toLowerCase (prop_name p)) "href"
                || (includes (toLowerCase (prop_name p)) "to"
                    || (includes (toLowerCase (prop_name p)) "path" || false)))
      (fun p => includes (toLowerCase (prop_name p)) "href"
                || includes (toLowerCase (prop_name p)) "to"
                || includes (toLowerCase (prop_name p)) "path"))
      by (intros; by rewrite orb_false_r, orb_assoc).
    rewrite (existsb_congr
      (fun p => includes (toLowerCase (prop_name p)) "onclick"
                || (includes (toLowerCase (prop_name p)) "onpress" || false))
      (fun p => includes (toLowerCase (prop_name p)) "onclick"
                || includes (toLowerCase (prop_name p)) "onpress"))
      by (intros; by rewrite orb_false_r).
    reflexivity.
  - unfold categorizeComponent.
    repeat match goal with |- context [if ?b then _ else _] => destruct b end;
      simpl; tauto.
Qed.

(** C10. The category depends on the component name and the prop names
    only: two calls with the same name, props of the same names and any two
    contexts return the same category. *)
Theorem categorizeComponent_depends_on_names_only
    (componentName : string) (props1 props2 : list PropDefinition)
    (ctx1 ctx2 : NlpComponentContext) :
  map prop_name props1 = map prop_name props2 ->
  categorizeComponent componentName props1 ctx1 = categorizeComponent componentName props2 ctx2.
Proof.
  intros Hnames. unfold categorizeComponent.
  assert (Hlower : map (fun p => toLowerCase (prop_name p)) props1
                   = map (fun p => toLowerCase (prop_name p)) props2).
  { rewrite <- (map_map prop_name toLowerCase props1).
    rewrite <- (map_map prop_name toLowerCase props2). by rewrite Hnames. }
  by rewrite Hlower.
Qed.

(** C10, at a concrete input: a button whose only prop is described in two
    ways, classified under two different contexts. *)
Lemma categorizeComponent_depends_on_names_only_witness :
  categorizeComponent "SaveButton"
    [ {| prop_name := "onClick"; prop_type := "function"; prop_required := true |} ]
    (Disk.noContext "src/SaveButton.tsx" [] [])
  = categorizeComponent "SaveButton"
      [ {| prop_name := "onClick"; prop_type := "any"; prop_required := false |} ]
      {| ctx_filePath := "src/SaveButton.tsx"; ctx_props := [];
         jsxTextContent := ["Save"];
         comments := {| leading := ["a link"]; trailing := []; inner := [];
                        jsdoc := ["Navigation form"] |};
         importSources := ["react-router"]; htmlTagsUsed := ["form"; "a"] |}.
Proof.
  apply categorizeComponent_depends_on_names_only. reflexivity.
Defined.

(** ** Doubles

    What the proofs below need of the arithmetic of doubles: the sign of the
    result of an operation on numbers that are not negative, and the order
    that the comparisons and the sign of a difference define. *)

Section Doubles.
Local Open Scope Z_scope.

(** *** Rounding keeps the sign

    [binary_round_aux] shifts the mantissa to the right, which halves it at
    every step, and rounds it to nearest even: a mantissa that is not
    negative stays so, and a positive mantissa of a number at or above the
    least exponent does not become 0. *)

Lemma iter_pos_invariant {A} (f : A -> A) (P : Z -> A -> Prop) :
  (forall k x, 0 <= k -> P k x -> P (k + 1) (f x)) ->
  forall n k x, 0 <= k -> P k x -> P (k + Z.pos n) (SpecFloat.iter_pos f n x).
Proof.
  intros Hstep. induction n as [n IH | n IH |]; intros k x Hk Hx; simpl.
  - replace (k + Z.pos n~1) with (k + 1 + Z.pos n + Z.pos n) by lia.
    apply IH; [lia|]. apply IH; [lia|]. by apply Hstep.
  - replace (k + Z.pos n~0) with (k + Z.pos n + Z.pos n) by lia.
    apply IH; [lia|]. by apply IH.
  - by apply Hstep.
Qed.

Lemma shr_1_m mrs : 0 <= shr_m mrs -> shr_m (shr_1 mrs) = shr_m mrs / 2.
Proof.
  destruct mrs as [m r s]. simpl. intros Hm.
  destruct m as [|[p|p|]|p]; simpl; try lia; try done.
  - rewrite <- Z.div2_div. done.
  - rewrite <- Z.div2_div. done.
Qed.

Lemma shr_m_shr mrs e n mrs' e' :
  0 <= shr_m mrs -> shr mrs e n = (mrs', e') ->
  shr_m mrs' = shr_m mrs / 2 ^ Z.max 0 n /\ e' = e + Z.max 0 n.
Proof.
  intros Hm. unfold shr. destruct n as [|p|p]; intros [= <- <-].
  - simpl. rewrite Z.div_1_r. lia.
  - replace (Z.max 0 (Z.pos p)) with (Z.pos p) by lia. split; [|done].
    assert (Hstep : forall k x, 0 <= k -> shr_m x = shr_m mrs / 2 ^ k ->
                                shr_m (shr_1 x) = shr_m mrs / 2 ^ (k + 1)).
    { intros k x Hk Hx. rewrite shr_1_m.
      - rewrite Hx, Z.pow_add_r, Z.pow_1_r by lia. rewrite Z.div_div; lia.
      - rewrite Hx. apply Z.div_pos; lia. }
    apply (iter_pos_invariant shr_1 (fun k x => shr_m x = shr_m mrs / 2 ^ k) Hstep p 0 mrs);
      [lia|]. simpl. by rewrite Z.div_1_r.
  - simpl. rewrite Z.div_1_r. lia.
Qed.

Lemma digits2_pos_bounds p :
  2 ^ (Z.pos (digits2_pos p) - 1) <= Z.pos p < 2 ^ Z.pos (digits2_pos p).
Proof.
  induction p as [p IH | p IH |]; simpl digits2_pos.
  - rewrite Pos2Z.inj_succ. replace (Z.succ (Z.pos (digits2_pos p)) - 1)
      with (Z.succ (Z.pos (digits2_pos p) - 1)) by lia.
    rewrite !Z.pow_succ_r by lia. lia.
  - rewrite Pos2Z.inj_succ. replace (Z.succ (Z.pos (digits2_pos p)) - 1)
      with (Z.succ (Z.pos (digits2_pos p) - 1)) by lia.
    rewrite !Z.pow_succ_r by lia. lia.
  - simpl. lia.
Qed.

Lemma shr_record_of_loc_m m l : shr_m (shr_record_of_loc m l) = m.
Proof. by destruct l as [|[]]. Qed.

Lemma shr_fexp_nonneg m e l mrs e' :
  0 <= m -> shr_fexp prec emax m e l = (mrs, e') -> 0 <= shr_m mrs.
Proof.
  intros Hm Hshr. unfold shr_fexp in Hshr.
  apply shr_m_shr in Hshr as [-> _]; rewrite shr_record_of_loc_m; [|done].
  apply Z.div_pos; lia.
Qed.

Lemma shr_fexp_pos m e l mrs e' :
  0 < m -> emin <= e -> shr_fexp prec emax m e l = (mrs, e') ->
  0 < shr_m mrs /\ emin <= e'.
Proof.
  intros Hm He Hshr. unfold shr_fexp in Hshr.
  apply shr_m_shr in Hshr as [-> ->]; rewrite shr_record_of_loc_m; [|lia].
  destruct m as [|p|p]; try lia. simpl Zdigits2.
  pose proof (digits2_pos_bounds p) as [Hlow _].
  unfold fexp, SpecFloat.emin, prec, emax in *.
  split; [|lia].
  apply Z.div_str_pos. split; [lia|].
  etrans; [|exact Hlow]. apply Z.pow_le_mono_r; lia.
Qed.

Lemma round_nearest_even_ge m l : m <= round_nearest_even m l.
Proof. destruct l as [|[]]; simpl; try lia. destruct (Z.even m); lia. Qed.

Lemma binary_round_aux_sign sx mx ex lx :
  0 <= mx -> signOf (binary_round_aux prec emax sx mx ex lx) = Some sx.
Proof.
  intros Hm. unfold binary_round_aux.
  destruct (shr_fexp prec emax mx ex lx) as [mrs' e1] eqn:H1.
  apply shr_fexp_nonneg in H1; [|done].
  pose proof (round_nearest_even_ge (shr_m mrs') (loc_of_shr_record mrs')) as Hr.
  destruct (shr_fexp prec emax _ e1 loc_Exact) as [mrs'' e2] eqn:H2.
  apply shr_fexp_nonneg in H2; [|lia].
  destruct (shr_m mrs''); [done| |lia]. by destruct (_ <=? _).
Qed.

Lemma binary_round_aux_nonzero sx mx ex lx :
  0 < mx -> emin <= ex -> nonzero (binary_round_aux prec emax sx mx ex lx) = true.
Proof.
  intros Hm He. unfold binary_round_aux.
  destruct (shr_fexp prec emax mx ex lx) as [mrs' e1] eqn:H1.
  apply shr_fexp_pos in H1 as [H1 He1]; [|done..].
  pose proof (round_nearest_even_ge (shr_m mrs') (loc_of_shr_record mrs')) as Hr.
  destruct (shr_fexp prec emax _ e1 loc_Exact) as [mrs'' e2] eqn:H2.
  apply shr_fexp_pos in H2 as [H2 He2]; [|lia..].
  destruct (shr_m mrs''); [lia| |lia]. by destruct (_ <=? _).
Qed.

Lemma shl_align_spec m e e' :
  e' <= e -> (shl_align m e e').2 = e' /\ Z.pos (shl_align m e e').1 = Z.pos m * 2 ^ (e - e').
Proof.
  intros Hle. unfold shl_align. destruct (e' - e) as [|d|d] eqn:Hd; try lia.
  - assert (e = e') as -> by lia. simpl. rewrite Z.sub_diag. simpl. lia.
  - simpl. split; [done|]. change (Pos.iter xO m d) with (shift_pos d m).
    rewrite shift_pos_correct, Z.pow_pos_fold. replace (e - e') with (Z.pos d) by lia. lia.
Qed.

Lemma shl_align_exponent m e e' : (shl_align m e e').2 = Z.min e e'.
Proof.
  unfold shl_align. destruct (e' - e) as [|d|d] eqn:Hd; simpl; lia.
Qed.

Lemma binary_round_sign sx m e : signOf (binary_round prec emax sx m e) = Some sx.
Proof.
  unfold binary_round. destruct (shl_align _ _ _) as [mz ez].
  by apply binary_round_aux_sign.
Qed.

Lemma binary_round_nonzero sx m e :
  emin <= e -> nonzero (binary_round prec emax sx m e) = true.
Proof.
  intros He. unfold binary_round.
  pose proof (shl_align_exponent m e (fexp prec emax (Z.pos (digits2_pos m) + e))) as Hez.
  destruct (shl_align _ _ _) as [mz ez]. simpl in Hez.
  apply binary_round_aux_nonzero; [lia|].
  unfold fexp in Hez. lia.
Qed.

Lemma binary_normalize_sign m e :
  0 <= m -> signOf (binary_normalize prec emax m e false) = Some false.
Proof.
  intros Hm. destruct m; [done| |lia]. apply binary_round_sign.
Qed.

(** *** The sign of a difference

    Numbers in canonical form compare as their exponents and then their
    mantissas do, and a difference that is not 0 is not rounded to 0. *)

Lemma bounded_digits m e :
  bounded prec emax m e = true ->
  emin <= e /\ Z.pos (digits2_pos m) <= prec /\ (emin < e -> Z.pos (digits2_pos m) = prec).
Proof.
  unfold bounded, canonical_mantissa, fexp, SpecFloat.emin, prec, emax.
  intros [Hc _]%andb_prop. apply Z.eqb_eq in Hc. lia.
Qed.

(** Two positive numbers in canonical form compare as their exponents,
    then their mantissas. *)
Lemma aligned_compare mx ex my ey :
  bounded prec emax mx ex = true -> bounded prec emax my ey = true ->
  (Z.pos mx * 2 ^ (ex - Z.min ex ey) ?= Z.pos my * 2 ^ (ey - Z.min ex ey))
  = match ex ?= ey with
    | Eq => Pos.compare_cont Eq mx my
    | Lt => Lt
    | Gt => Gt
    end.
Proof.
  intros (Hex & Hdx & Hnx)%bounded_digits (Hey & Hdy & Hny)%bounded_digits.
  pose proof (digits2_pos_bounds mx) as [Hlx Hux].
  pose proof (digits2_pos_bounds my) as [Hly Huy].
  assert (Hpow : forall d, Z.pos d <= prec -> 2 ^ Z.pos d <= 2 ^ 53).
  { intros d Hd. apply Z.pow_le_mono_r; unfold prec in Hd; lia. }
  assert (Hshift : forall k, 0 < k -> 2 <= 2 ^ k).
  { intros k Hk. change 2 with (2 ^ 1) at 1. apply Z.pow_le_mono_r; lia. }
  destruct (Z.compare_spec ex ey) as [-> | Hlt | Hgt].
  - rewrite Z.min_id, Z.sub_diag, !Z.mul_1_r. done.
  - replace (Z.min ex ey) with ex by lia. rewrite Z.sub_diag, Z.mul_1_r.
    apply Z.compare_lt_iff.
    specialize (Hny ltac:(lia)). rewrite Hny in Hly. unfold prec in Hly.
    specialize (Hpow _ Hdx). specialize (Hshift (ey - ex) ltac:(lia)).
    change (2 ^ (53 - 1)) with 4503599627370496 in Hly.
    change (2 ^ 53) with 9007199254740992 in Hpow. nia.
  - replace (Z.min ex ey) with ey by lia. rewrite Z.sub_diag, Z.mul_1_r.
    apply Z.compare_gt_iff.
    specialize (Hnx ltac:(lia)). rewrite Hnx in Hlx. unfold prec in Hlx.
    specialize (Hpow _ Hdy). specialize (Hshift (ex - ey) ltac:(lia)).
    change (2 ^ (53 - 1)) with 4503599627370496 in Hlx.
    change (2 ^ 53) with 9007199254740992 in Hpow. nia.
Qed.

(** The exact difference of two numbers in canonical form has the sign
    that [SFcompare] gives. *)
Lemma SFcompare_difference sx mx ex sy my ey :
  bounded prec emax mx ex = true -> bounded prec emax my ey = true ->
  SFcompare (S754_finite sx mx ex) (S754_finite sy my ey)
  = Some (cond_Zopp sx (Z.pos (shl_align mx ex (Z.min ex ey)).1)
          - cond_Zopp sy (Z.pos (shl_align my ey (Z.min ex ey)).1) ?= 0).
Proof.
  intros Hx Hy. pose proof (aligned_compare mx ex my ey Hx Hy) as Hcmp.
  destruct (shl_align_spec mx ex (Z.min ex ey) ltac:(lia)) as [_ ->].
  destruct (shl_align_spec my ey (Z.min ex ey) ltac:(lia)) as [_ ->].
  set (a := Z.pos mx * 2 ^ (ex - Z.min ex ey)) in *.
  set (b := Z.pos my * 2 ^ (ey - Z.min ex ey)) in *.
  assert (0 < a /\ 0 < b) as [Ha Hb].
  { split; apply Z.mul_pos_pos; try lia; apply Z.pow_pos_nonneg; lia. }
  simpl SFcompare. f_equal.
  destruct sx, sy; simpl cond_Zopp.
  - replace (- a - - b) with (b - a) by lia.
    rewrite <- Z.compare_sub, (Z.compare_antisym a b), Hcmp. by destruct (ex ?= ey).
  - symmetry. apply Z.compare_lt_iff. lia.
  - symmetry. apply Z.compare_gt_iff. lia.
  - by rewrite <- Z.compare_sub, Hcmp.
Qed.

Lemma binary_normalize_compare m e :
  emin <= e ->
  SFcompare (S754_zero false) (binary_normalize prec emax m e false) = Some (0 ?= m).
Proof.
  intros He. destruct m as [|p|p]; simpl binary_normalize; [done|..].
  - pose proof (binary_round_sign false p e) as Hs.
    pose proof (binary_round_nonzero false p e He) as Hn.
    destruct (binary_round prec emax false p e); simplify_eq/=; done.
  - pose proof (binary_round_sign true p e) as Hs.
    pose proof (binary_round_nonzero true p e He) as Hn.
    destruct (binary_round prec emax true p e); simplify_eq/=; done.
Qed.

(** The sign of a computed difference: [x - y] is positive exactly when
    [y < x]. *)
Lemma SFsub_positive x y :
  valid_binary x = true -> valid_binary y = true ->
  SFltb (S754_zero false) (SFsub prec emax x y) = SFltb y x.
Proof.
  intros Hx Hy. unfold SFltb.
  destruct x as [sx|sx| |sx mx ex], y as [sy|sy| |sy my ey];
    try (by destruct sx, sy); try (by destruct sx); try (by destruct sy); try done.
  simpl in Hx, Hy.
  rewrite (SFcompare_difference sy my ey sx mx ex Hy Hx).
  simpl SFsub. rewrite binary_normalize_compare.
  2:{ apply bounded_digits in Hx, Hy. lia. }
  rewrite (Z.min_comm ey ex).
  set (a := cond_Zopp sx _). set (b := cond_Zopp sy _).
  destruct (Z.compare_spec 0 (a - b)), (Z.compare_spec (b - a) 0); try done; lia.
Qed.

(** *** The order of the comparisons *)

Lemma SFcompare_key x y :
  signOf x <> None -> signOf y <> None ->
  SFcompare x y = Some (keyCompare (SFkey x) (SFkey y)).
Proof.
  intros Hx Hy.
  destruct x as [sx|sx| |sx mx ex], y as [sy|sy| |sy my ey]; try done;
    try (by destruct sx, sy); try (by destruct sx); try (by destruct sy).
  simpl SFcompare. f_equal. destruct sx, sy; try done; unfold keyCompare; simpl.
  all: try rewrite Z.compare_opp, (Z.compare_antisym ex ey); by destruct (ex ?= ey).
Qed.


Lemma keyCompare_le k1 k2 : keyCompare k1 k2 <> Gt <-> keyLe k1 k2.
Proof.
  unfold keyCompare, keyLe.
  destruct (Z.compare_spec k1.1.1 k2.1.1), (Z.compare_spec k1.1.2 k2.1.2),
    (Z.compare_spec k1.2 k2.2); split; (done || lia).
Qed.

Lemma keyCompare_lt k1 k2 : keyCompare k1 k2 = Lt <-> ~ keyLe k2 k1.
Proof.
  unfold keyCompare, keyLe.
  destruct (Z.compare_spec k1.1.1 k2.1.1), (Z.compare_spec k1.1.2 k2.1.2),
    (Z.compare_spec k1.2 k2.2); split; (done || lia).
Qed.

Lemma keyCompare_eq k1 k2 : keyCompare k1 k2 = Eq <-> keyLe k1 k2 /\ keyLe k2 k1.
Proof.
  unfold keyCompare, keyLe.
  destruct (Z.compare_spec k1.1.1 k2.1.1), (Z.compare_spec k1.1.2 k2.1.2),
    (Z.compare_spec k1.2 k2.2); split; (done || lia).
Qed.

Lemma keyLe_trans k1 k2 k3 : keyLe k1 k2 -> keyLe k2 k3 -> keyLe k1 k3.
Proof. unfold keyLe. lia. Qed.

Lemma keyLe_total k1 k2 : keyLe k1 k2 \/ keyLe k2 k1.
Proof. unfold keyLe. lia. Qed.

(** *** The same facts on doubles *)


Lemma leb_isNumber x y : (x <=? y)%float = true -> isNumber x /\ isNumber y.
Proof.
  rewrite FloatAxioms.leb_spec. unfold SFleb, isNumber.
  by destruct (Prim2SF x) as [[]|[]| |[]], (Prim2SF y) as [[]|[]| |[] ].
Qed.

Lemma leb_key x y : isNumber x -> isNumber y -> (x <=? y)%float = true <-> keyLe (key x) (key y).
Proof.
  intros Hx Hy. rewrite FloatAxioms.leb_spec. unfold SFleb. rewrite SFcompare_key by done.
  rewrite <- keyCompare_le. fold (key x) (key y). by destruct (keyCompare _ _).
Qed.

Lemma ltb_key x y : isNumber x -> isNumber y -> (x <? y)%float = true <-> ~ keyLe (key y) (key x).
Proof.
  intros Hx Hy. rewrite FloatAxioms.ltb_spec. unfold SFltb. rewrite SFcompare_key by done.
  rewrite <- keyCompare_lt. fold (key x) (key y). by destruct (keyCompare _ _).
Qed.

Lemma eqb_key x y : (x =? y)%float = true -> isNumber x /\ isNumber y /\ keyLe (key x) (key y) /\ keyLe (key y) (key x).
Proof.
  rewrite FloatAxioms.eqb_spec. unfold SFeqb. intros H.
  assert (isNumber x /\ isNumber y) as [Hx Hy].
  { unfold isNumber. by destruct (Prim2SF x) as [[]|[]| |[]], (Prim2SF y) as [[]|[]| |[] ]. }
  rewrite SFcompare_key in H by done. fold (key x) (key y) in H.
  assert (Heq : keyCompare (key x) (key y) = Eq) by by destruct (keyCompare _ _).
  apply keyCompare_eq in Heq as [H1 H2]. done.
Qed.

Lemma ltb_sub x y : (0 <? x - y)%float = (y <? x)%float.
Proof.
  rewrite !FloatAxioms.ltb_spec, FloatAxioms.sub_spec. apply SFsub_positive; apply Prim2SF_valid.
Qed.

(** *** Operations on numbers that are not negative *)

Lemma SFdiv_sign x my ey :
  signOf x = Some false -> signOf (SFdiv prec emax x (S754_finite false my ey)) = Some false.
Proof.
  destruct x as [sx|sx| |sx mx ex]; intros [= ->]; try done.
  simpl SFdiv. unfold SFdiv_core_binary.
  set (m' := match _ with 0 => Z.pos mx | Z.pos _ => _ | Z.neg _ => 0 end).
  assert (Hm' : 0 <= m').
  { subst m'. destruct (_ - _ - _); try done. apply Z.shiftl_nonneg. lia. }
  pose proof (Z.div_pos m' (Z.pos my) Hm' ltac:(lia)) as Hq.
  unfold Z.div in Hq. destruct (Z.div_eucl m' (Z.pos my)) as [q r].
  by apply binary_round_aux_sign.
Qed.

Lemma SFmul_sign x my ey :
  signOf x = Some false -> signOf (SFmul prec emax x (S754_finite false my ey)) = Some false.
Proof.
  destruct x as [sx|sx| |sx mx ex]; intros [= ->]; try done.
  simpl SFmul. by apply binary_round_aux_sign.
Qed.

Lemma SFadd_sign x y :
  signOf x = Some false -> signOf y = Some false -> signOf (SFadd prec emax x y) = Some false.
Proof.
  destruct x as [sx|sx| |sx mx ex], y as [sy|sy| |sy my ey]; intros [= ->] [= ->]; try done.
  simpl SFadd. apply binary_round_sign.
Qed.

Lemma signOf_leb x : signOf (Prim2SF x) = Some false -> (0 <=? x)%float = true.
Proof.
  rewrite FloatAxioms.leb_spec. change (Prim2SF 0) with (S754_zero false).
  by destruct (Prim2SF x) as [[]|[]| |[] ].
Qed.


Lemma number_sign n : signOf (Prim2SF (number n)) = Some false.
Proof.
  unfold number. rewrite of_uint63_spec. apply binary_normalize_sign.
  apply Uint63.to_Z_bounded.
Qed.

Lemma ltb_leb x y : (x <? y)%float = true -> (x <=? y)%float = true.
Proof.
  rewrite FloatAxioms.ltb_spec, FloatAxioms.leb_spec. unfold SFltb, SFleb.
  by destruct (SFcompare _ _) as [[]|].
Qed.

Lemma ltb_false_leb x y :
  isNumber x -> isNumber y -> (x <? y)%float = false -> (y <=? x)%float = true.
Proof.
  intros Hx Hy Hlt. apply leb_key; [done..|].
  pose proof (ltb_key x y Hx Hy) as Hkey. rewrite Hlt in Hkey.
  destruct (keyLe_total (key y) (key x)) as [Hle | Hle]; [done|].
  unfold keyLe in *. lia.
Qed.

Lemma leb_trans x y z :
  (x <=? y)%float = true -> (y <=? z)%float = true -> (x <=? z)%float = true.
Proof.
  intros Hxy Hyz.
  destruct (leb_isNumber _ _ Hxy) as [Hx Hy]. destruct (leb_isNumber _ _ Hyz) as [_ Hz].
  apply leb_key in Hxy, Hyz; try done. apply leb_key; [done..|]. by eapply keyLe_trans.
Qed.

Lemma eqb_not_ltb x y c :
  (x =? c)%float = true -> (y =? c)%float = true -> (x <? y)%float = false.
Proof.
  intros (Hx & Hc & Hxc & Hcx)%eqb_key (Hy & _ & Hyc & Hcy)%eqb_key.
  pose proof (ltb_key x y Hx Hy) as Hkey.
  destruct (x <? y)%float; [|done].
  exfalso. apply Hkey; [done|]. by eapply keyLe_trans.
Qed.

End Doubles.

(** ** Pattern detection *)

Lemma insertByConfidence_In p q l :
  In q (insertByConfidence p l) <-> q = p \/ In q l.
Proof.
  induction l as [|x l IH]; simpl.
  - intuition.
  - destruct (0 <? _)%float; simpl; [|intuition]. rewrite IH. intuition.
Qed.

Lemma sortByConfidence_In q l : In q (sortByConfidence l) <-> In q l.
Proof.
  unfold sortByConfidence. induction l as [|x l IH]; simpl; [done|].
  rewrite insertByConfidence_In, IH. intuition.
Qed.

(** The lengths of the keyword lists and of the action phrase lists of the
    table are positive numbers. *)
Lemma patterns_lengths :
  Forall (fun e =>
    exists mk ek ma ea,
      Prim2SF (len (pat_components e.2)) = S754_finite false mk ek
      /\ Prim2SF (len (pat_actions e.2)) = S754_finite false ma ea) patterns.
Proof. repeat constructor; vm_compute; eexists _, _, _, _; split; reflexivity. Qed.

Lemma ratio_sign {A B} (l : list A) (k : list B) mk ek :
  Prim2SF (len k) = S754_finite false mk ek ->
  signOf (Prim2SF (len l / len k)) = Some false.
Proof.
  intros Hk. rewrite div_spec, Hk. apply SFdiv_sign, number_sign.
Qed.

Lemma weighted_sum_sign (x y w1 w2 : float) m1 e1 m2 e2 :
  signOf (Prim2SF x) = Some false -> signOf (Prim2SF y) = Some false ->
  Prim2SF w1 = S754_finite false m1 e1 -> Prim2SF w2 = S754_finite false m2 e2 ->
  signOf (Prim2SF (x * w1 + y * w2)) = Some false.
Proof.
  intros Hx Hy Hw1 Hw2. rewrite add_spec, !mul_spec, Hw1, Hw2.
  apply SFadd_sign; by apply SFmul_sign.
Qed.

Lemma calculateConfidence_nonneg mc ma entry :
  In entry patterns -> (0 <=? calculateConfidence mc ma entry.2)%float = true.
Proof.
  intros Hentry. pose proof patterns_lengths as Hlen.
  rewrite List.Forall_forall in Hlen.
  destruct (Hlen _ Hentry) as (mk & ek & mp & ep & Hkw & Hap).
  apply signOf_leb. unfold calculateConfidence.
  eapply weighted_sum_sign; [| |reflexivity..].
  - by eapply ratio_sign.
  - destruct (0 <? length ma)%nat; [by eapply ratio_sign | reflexivity].
Qed.

Lemma calculateConfidence_score mc ma pattern :
  calculateConfidence mc ma pattern
  = score (length mc) (length ma) (length (pat_components pattern))
      (length (pat_actions pattern)).
Proof. reflexivity. Qed.

Lemma scores_bounded : forallb boundedScores patterns = true.
Proof. vm_compute. reflexivity. Qed.

Lemma calculateConfidence_bounded mc ma entry :
  In entry patterns ->
  (0 < length mc <= length (pat_components entry.2))%nat ->
  (length ma <= length (pat_actions entry.2))%nat ->
  (0 <? calculateConfidence mc ma entry.2)%float = true
  /\ (calculateConfidence mc ma entry.2 <=? 1)%float = true.
Proof.
  intros Hentry Hmc Hma. rewrite calculateConfidence_score.
  pose proof scores_bounded as Hall. rewrite forallb_forall in Hall.
  specialize (Hall _ Hentry). unfold boundedScores in Hall.
  rewrite forallb_forall in Hall.
  assert (Hmas := Hall (length mc) ltac:(apply in_seq; lia)).
  rewrite forallb_forall in Hmas. apply andb_prop, Hmas, in_seq. lia.
Qed.

Lemma detectOne_In components entry p :
  In p (detectOne components entry) ->
  dp_name p = fst entry
  /\ (0 < length (dp_components p))%nat
  /\ dp_components p =
       List.filter (fun c => matchesPattern (toLowerCase (name c)) (pat_components (snd entry)))
         components
  /\ dp_actions p =
       findMatchingActions (flat_map userActions (dp_components p)) (pat_actions (snd entry))
  /\ confidence p = calculateConfidence (dp_components p) (dp_actions p) (snd entry).
Proof.
  destruct entry as [patternName pattern]. unfold detectOne.
  destruct (0 <? length _)%nat eqn:Hlen; [|intros []].
  intros [<- | []]. simpl. apply Nat.ltb_lt in Hlen. auto.
Qed.

(** C1, amended. Every pattern returned by [detectPatterns] belongs to a
    predefined pattern; its confidence is the double that the weighted sum
    of the two ratios evaluates to, it is a number and at least 0, and it
    is above 0 and at most 1 when there are no more matching components
    than keywords and no more matching actions than action phrases. *)
#[warnings="-inexact-float"]
Theorem detectPatterns_confidence (components : list ComponentMetadata) (p : DetectedPattern) :
  In p (detectPatterns components) ->
  exists pattern,
    In (dp_name p, pattern) patterns
    /\ confidence p
       = (len (dp_components p) / len (pat_components pattern) * 0.7
          + (if (0 <? length (dp_actions p))%nat
             then len (dp_actions p) / len (pat_actions pattern) else 0) * 0.3)%float
    /\ (0 <=? confidence p)%float = true
    /\ ((length (dp_components p) <= length (pat_components pattern))%nat ->
        (length (dp_actions p) <= length (pat_actions pattern))%nat ->
        (0 <? confidence p)%float = true /\ (confidence p <=? 1)%float = true).
Proof.
  unfold detectPatterns. rewrite sortByConfidence_In, in_flat_map.
  intros [[patternName pattern] [Hentry Hp]].
  apply detectOne_In in Hp as (Hname & Hpos & _ & _ & Hconf). simpl in Hname, Hconf.
  exists pattern. rewrite Hname. split; [done|].
  rewrite Hconf. split; [reflexivity|]. split.
  - apply (calculateConfidence_nonneg _ _ (patternName, pattern) Hentry).
  - intros Hmc Hma.
    apply (calculateConfidence_bounded _ _ (patternName, pattern) Hentry); simpl; lia.
Qed.

Lemma searchPattern_detected : In searchPattern (detectPatterns searchHeavyProject).
Proof. vm_compute. left. reflexivity. Qed.

(** C1 as stated fails: six components whose names contain "search" give
    the search pattern, which has four keywords, the confidence
    1.0499999999999998. *)
Lemma detectPatterns_confidence_above_one :
  ~ (forall p, In p (detectPatterns searchHeavyProject) ->
               (0 <=? confidence p)%float = true /\ (confidence p <=? 1)%float = true).
Proof.
  intros H. destruct (H searchPattern searchPattern_detected) as [_ Hle].
  vm_compute in Hle. discriminate Hle.
Qed.

(** C1, amended, at the search pattern of the six search components. *)
#[warnings="-inexact-float"]
Lemma detectPatterns_confidence_witness :
  exists pattern,
    In (dp_name searchPattern, pattern) patterns
    /\ confidence searchPattern
       = (len (dp_components searchPattern) / len (pat_components pattern) * 0.7
          + (if (0 <? length (dp_actions searchPattern))%nat
             then len (dp_actions searchPattern) / len (pat_actions pattern) else 0) * 0.3)%float
    /\ (0 <=? confidence searchPattern)%float = true
    /\ ((length (dp_components searchPattern) <= length (pat_components pattern))%nat ->
        (length (dp_actions searchPattern) <= length (pat_actions pattern))%nat ->
        (0 <? confidence searchPattern)%float = true
        /\ (confidence searchPattern <=? 1)%float = true).
Proof.
  apply (detectPatterns_confidence searchHeavyProject searchPattern).
  vm_compute. left. reflexivity.
Defined.

(** ** The React analyzer *)

(** A submit action comes from a prop whose name is "on" followed by
    "submit" in any case, and from nothing else. *)
Lemma propActions_submit componentName prop a :
  In a (propActions componentName prop) -> action_type a = submit ->
  toLowerCase (drop 2 (prop_name prop)) = "submit".
Proof.
  unfold propActions.
  destruct (startsWith _ _ && _); [|intros []].
  destruct (String.eqb _ "click") eqn:Hclick; [intros [<- | []]; discriminate|].
  destruct (String.eqb _ "submit") eqn:Hsubmit.
  - intros _ _. by apply String.eqb_eq.
  - destruct (_ || _); [intros [<- | []]; discriminate | intros []].
Qed.

Lemma extractUserActions_submit component a :
  In a (extractUserActions component) -> action_type a = submit ->
  exists prop, In prop (props component)
               /\ toLowerCase (drop 2 (prop_name prop)) = "submit".
Proof.
  unfold extractUserActions. rewrite in_app_iff, in_flat_map.
  intros [(prop & Hprop & Ha) | Hnav] Hsubmit.
  - exists prop. split; [done|]. by eapply propActions_submit.
  - destruct (_ || _); [|destruct Hnav].
    destruct Hnav as [<- | []]. discriminate.
Qed.

(** C5, amended. For the file that default-exports the component LoginForm
    with the destructured props onLogin and redirectUrl and renders a form
    with a button "Sign In", the analyzer yields the name LoginForm, the
    props onLogin and redirectUrl, no user action (the suffix of onLogin
    names no action type), the category FORM and the description
    "Sign in to your account", whatever the path and the classifier
    context. *)
Theorem scenarioA_analysis
    (extractNlpContext : string -> File -> list PropDefinition -> NlpComponentContext)
    (filePath : string) :
  analyzeAst [] extractNlpContext filePath Scenario.loginFormAst =
  {| name := "LoginForm";
     filePath := filePath;
     props := [ {| prop_name := "onLogin"; prop_type := "any"; prop_required := false |};
                {| prop_name := "redirectUrl"; prop_type := "any"; prop_required := false |} ];
     userActions := [];
     semanticCategory := FORM;
     description := "Sign in to your account" |}.
Proof. reflexivity. Qed.

(** C5 as stated fails: the user actions of the scenario contain no submit
    action. *)
Lemma scenarioA_no_submit_action :
  ~ (exists extractNlpContext filePath,
       scenarioA (analyzeAst [] extractNlpContext filePath Scenario.loginFormAst)).
Proof.
  intros (ctx & filePath & _ & _ & _ & (a & Ha & _) & _).
  exact Ha.
Qed.

(** C7 fails on the code. In a file that default-exports the function App
    and then exports the function formatDate by name, the later named export
    overwrites the name the default export gave. *)
Theorem named_export_overrides_default_export :
  extractComponentName "/proj/src/App.jsx" Scenario.appWithHelperAst = "formatDate".
Proof. reflexivity. Qed.

Lemma hasProp_In props n : hasProp props n = true <-> In n (map prop_name props).
Proof.
  unfold hasProp. rewrite existsb_exists, in_map_iff.
  split; intros (p & H1 & H2).
  - apply String.eqb_eq in H2. eauto.
  - exists p. split; [done|]. by apply String.eqb_eq.
Qed.

Lemma fillProps_app props a b : fillProps props (a ++ b) = fillProps (fillProps props a) b.
Proof. unfold fillProps. by rewrite foldl_app. Qed.

Lemma destructured_fill props properties :
  foldl destructuredProperty props properties = fillProps props (flat_map propertyKey properties).
Proof.
  revert props. induction properties as [|q qs IH]; intros props; [done|].
  simpl. rewrite IH. rewrite fillProps_app. f_equal.
  destruct q; try reflexivity. destruct q1; reflexivity.
Qed.

Lemma functionVisitor_fill props n :
  functionVisitor props n = fillProps props (destructuredKeys n).
Proof.
  destruct n; try reflexivity; simpl.
  - destruct params as [|[] ?]; try reflexivity. apply destructured_fill.
  - destruct params as [|[] ?]; try reflexivity. apply destructured_fill.
Qed.

Lemma traverse_functionVisitor ast props :
  traverse ast functionVisitor props = fillProps props (destructuredNames ast).
Proof.
  unfold traverse, destructuredNames. generalize (flat_map preorder ast) as nodes.
  intros nodes. revert props. induction nodes as [|n ns IH]; intros props; [done|].
  simpl. rewrite IH, fillProps_app. by rewrite functionVisitor_fill.
Qed.

Lemma fillProps_spec names : forall props,
  exists added,
    fillProps props names = props ++ added
    /\ Forall (fun p => prop_type p = "any" /\ prop_required p = false) added
    /\ List.NoDup (map prop_name added)
    /\ (forall p, In p added ->
          In (prop_name p) names /\ ~ In (prop_name p) (map prop_name props))
    /\ (forall n, In n names -> In n (map prop_name (props ++ added))).
Proof.
  induction names as [|n ns IH]; intros props.
  - exists []. rewrite app_nil_r.
    split; [reflexivity|]. split; [constructor|]. split; [constructor|].
    split; intros ? [].
  - change (fillProps props (n :: ns))
      with (fillProps (if hasProp props n then props else props ++ [untypedProp n]) ns).
    destruct (hasProp props n) eqn:Hhas.
    + destruct (IH props) as (added & Heq & Hany & Hnd & Hnew & Hall).
      exists added. repeat split; try done.
      * right. by apply Hnew.
      * by apply Hnew.
      * intros m [<- | Hm]; [|by apply Hall].
        rewrite map_app, in_app_iff. left. by apply hasProp_In.
    + assert (Hnot : ~ In n (map prop_name props)).
      { intros Hin. apply hasProp_In in Hin. congruence. }
      destruct (IH (props ++ [untypedProp n])) as (added & Heq & Hany & Hnd & Hnew & Hall).
      exists (untypedProp n :: added). rewrite Heq, <- app_assoc. simpl.
      repeat split.
      * constructor; [done | exact Hany].
      * constructor; [|exact Hnd].
        intros Hin. apply in_map_iff in Hin as (p & Hp & Hin).
        apply Hnew in Hin as [_ Hfresh]. apply Hfresh.
        rewrite map_app, in_app_iff. right. simpl. left. by rewrite Hp.
      * destruct H as [<- | Hin]; [by left | right; by apply Hnew].
      * destruct H as [<- | Hin]; [done|].
        apply Hnew in Hin as [_ Hfresh]. intros Hp. apply Hfresh.
        rewrite map_app, in_app_iff. by left.
      * intros m [<- | Hm].
        -- rewrite map_app, in_app_iff. right. by left.
        -- specialize (Hall m Hm). by rewrite <- app_assoc in Hall.
Qed.

(** What [extractProps] returns. The extracted props are, in this order, the props of the
    interfaces whose name contains "Props", the props of the propTypes
    object, and the destructured names of the first parameter of each
    function declaration and arrow function; the last carry the type "any"
    and required = false, are pairwise distinct, are not among the names
    before them, and every destructured name is in the result. *)
Theorem extractProps_merge (ast : File) :
  let declared :=
    traverse ast interfaceVisitor [] ++ propTypesProps (traverse ast propTypesVisitor []) in
  exists filled,
    extractProps ast = declared ++ filled
    /\ Forall (fun p => prop_type p = "any" /\ prop_required p = false) filled
    /\ List.NoDup (map prop_name filled)
    /\ (forall p, In p filled ->
          In (prop_name p) (destructuredNames ast)
          /\ ~ In (prop_name p) (map prop_name declared))
    /\ (forall n, In n (destructuredNames ast) -> In n (map prop_name (extractProps ast))).
Proof.
  intros declared. unfold extractProps. fold declared.
  rewrite traverse_functionVisitor.
  destruct (fillProps_spec (destructuredNames ast) declared)
    as (added & Heq & Hany & Hnd & Hnew & Hall).
  exists added. rewrite Heq. auto.
Qed.

(** C8 fails on the code. In a file whose interface ButtonProps and whose
    propTypes object both declare the prop label, the extracted props list
    label twice, once for each declaration, and the props of the interface
    come before those of the propTypes object. *)
Theorem extractProps_duplicates_and_order :
  extractProps Scenario.buttonAst
  = [ {| prop_name := "label"; prop_type := "string"; prop_required := true |};
      {| prop_name := "size"; prop_type := "number"; prop_required := false |};
      {| prop_name := "label"; prop_type := "PropTypes"; prop_required := false |};
      {| prop_name := "color"; prop_type := "PropTypes"; prop_required := false |};
      {| prop_name := "onClick"; prop_type := "any"; prop_required := false |} ]
  /\ ~ List.NoDup (map prop_name (extractProps Scenario.buttonAst))
  /\ extractProps Scenario.buttonAst <> propsInClaimedOrder Scenario.buttonAst.
Proof.
  split; [reflexivity|]. split.
  - vm_compute. intros H. inversion H as [|? ? Hnotin _]. apply Hnotin.
    right. left. reflexivity.
  - vm_compute. discriminate.
Qed.

(** ** The cache manager *)

Section CacheLemmas.
Variable md5 : string -> string.

Lemma getCachedComponent_unparsable dir sourceFilePath :
  dir !! getCacheFilePath md5 sourceFilePath = Some Unparsable ->
  getCachedComponent md5 dir sourceFilePath = (None, dir).
Proof. intros H. unfold getCachedComponent. by rewrite H. Qed.

Lemma getCachedComponent_invalid dir sourceFilePath h m :
  dir !! getCacheFilePath md5 sourceFilePath = Some (JsonData h m) ->
  h = None \/ m = None ->
  getCachedComponent md5 dir sourceFilePath
  = (None, delete (getCacheFilePath md5 sourceFilePath) dir).
Proof.
  intros H Hmissing. unfold getCachedComponent, removeCachedComponent. rewrite H.
  destruct h, m; destruct Hmissing; congruence.
Qed.

Lemma getCachedComponent_Some dir sourceFilePath data :
  (getCachedComponent md5 dir sourceFilePath).1 = Some data ->
  getCachedComponent md5 dir sourceFilePath = (Some data, dir)
  /\ dir !! getCacheFilePath md5 sourceFilePath
     = Some (JsonData (Some (sourceFileHash data)) (Some (componentMetadata data))).
Proof.
  unfold getCachedComponent.
  destruct (dir !! _) as [[|[h|] [m|]]|]; simpl; try discriminate.
  intros [= <-]. done.
Qed.
End CacheLemmas.

(** C9 fails on the code. A cache file that [JSON.parse] rejects makes the
    lookup return null, but the file stays in the cache directory. *)
Theorem unparsable_cache_file_is_kept :
  getCachedComponent Md5.md5 Disk.corruptCache Disk.loginRel = (None, Disk.corruptCache)
  /\ Disk.corruptCache !! getCacheFilePath Md5.md5 Disk.loginRel = Some Unparsable.
Proof. split; vm_compute; reflexivity. Qed.

(** ** The analyze command *)

Section AnalyzeLemmas.
Variable md5 : string -> string.
Variable projectRoot : string.
Variable analyzer : string -> string -> option ComponentMetadata.

Local Abbreviation processFile := (processFile md5 projectRoot analyzer).
Local Abbreviation handleDeleted := (handleDeleted md5).

Lemma processFile_processed src st abs :
  processedRelativeFilePaths (processFile src st abs)
  = processedRelativeFilePaths st ++ [Path.relative projectRoot abs].
Proof.
  unfold Cli.processFile. destruct (src !! abs); [|done].
  destruct (getCachedComponent _ _ _) as [[data|] dir];
    repeat case_match; reflexivity.
Qed.

Lemma loop_processed src files : forall st,
  processedRelativeFilePaths (foldl (processFile src) st files)
  = processedRelativeFilePaths st ++ map (Path.relative projectRoot) files.
Proof.
  induction files as [|f fs IH]; intros st; simpl; [by rewrite app_nil_r|].
  rewrite IH, processFile_processed, <- app_assoc. done.
Qed.

Lemma handleDeleted_fold processed cached : forall dir deleted,
  foldl (handleDeleted processed) (dir, deleted) cached
  = (foldl (removeCachedComponent md5) dir (vanished processed cached),
     deleted ++ vanished processed cached).
Proof.
  induction cached as [|p ps IH]; intros dir deleted; simpl; [by rewrite app_nil_r|].
  destruct (arrayIncludes processed p); simpl; [apply IH|].
  rewrite IH, <- app_assoc. done.
Qed.

Lemma remove_all_keeps_absent paths : forall dir k,
  dir !! k = None -> foldl (removeCachedComponent md5) dir paths !! k = None.
Proof.
  induction paths as [|p ps IH]; intros dir k H; simpl; [done|].
  apply IH. unfold removeCachedComponent.
  rewrite lookup_delete. case_decide; done.
Qed.

Lemma remove_all_removes paths : forall dir p,
  In p paths ->
  foldl (removeCachedComponent md5) dir paths !! getCacheFilePath md5 p = None.
Proof.
  induction paths as [|q qs IH]; intros dir p Hin; simpl in *; [done|].
  destruct Hin as [<- | Hin].
  - apply remove_all_keeps_absent. unfold removeCachedComponent.
    apply lookup_delete_eq.
  - by apply IH.
Qed.

Lemma vanished_In processed cached p :
  In p (vanished processed cached) <-> In p cached /\ ~ In p processed.
Proof.
  unfold vanished. rewrite filter_In, negb_true_iff.
  pose proof (arrayIncludes_In processed p) as Hiff.
  destruct (arrayIncludes processed p).
  - split; [intros [_ ?]; discriminate | intros [_ Hn]; destruct Hn; by apply Hiff].
  - split; intros [? _]; (split; [done|]); [|done].
    intros Hin. apply Hiff in Hin. discriminate.
Qed.

Lemma cachePhase_deleted files fs :
  deletedPaths (cachePhase md5 projectRoot analyzer files fs)
  = vanished (map (Path.relative projectRoot) files)
      (getAllCachedFilePaths (metadataCacheDir fs))
  /\ forall p, In p (deletedPaths (cachePhase md5 projectRoot analyzer files fs)) ->
       finalCache (cachePhase md5 projectRoot analyzer files fs)
         !! getCacheFilePath md5 p = None.
Proof.
  unfold cachePhase. rewrite handleDeleted_fold, loop_processed. simpl.
  split; [done|]. intros p Hp. by apply remove_all_removes.
Qed.

Section Artifacts.
Variable stringifyComponents : list ComponentMetadata -> string.
Variable stringifyPatterns : list PatternMatcher.DetectedPattern -> string.
Variable stringifyWorkflows : list PatternMatcher.Workflow -> string.

Local Abbreviation analyze :=
  (analyze md5 projectRoot analyzer stringifyComponents stringifyPatterns
     stringifyWorkflows).

Lemma analyze_cache files fs :
  metadataCacheDir (analyze files fs).1
  = finalCache (cachePhase md5 projectRoot analyzer files fs)
  /\ sources (analyze files fs).1 = sources fs.
Proof. unfold Cli.analyze. repeat case_match; done. Qed.

Lemma cachePhase_ext files fs fs' :
  sources fs = sources fs' -> metadataCacheDir fs = metadataCacheDir fs' ->
  cachePhase md5 projectRoot analyzer files fs
  = cachePhase md5 projectRoot analyzer files fs'.
Proof. intros Hs Hc. unfold cachePhase. by rewrite Hs, Hc. Qed.

Lemma analyze_changeset files fs cs :
  (analyze files fs).2 = Some cs ->
  newComponents cs = newPaths (cachePhase md5 projectRoot analyzer files fs)
  /\ changedComponents cs = changedPaths (cachePhase md5 projectRoot analyzer files fs)
  /\ deletedComponents cs = deletedPaths (cachePhase md5 projectRoot analyzer files fs).
Proof.
  unfold Cli.analyze. repeat case_match; simpl; try discriminate.
  by intros [= <-].
Qed.

Lemma updateArtifact_result {A} (stringify : A -> string) (old : JsonFile A) (new : A)
    changed file :
  updateArtifact md5 stringify old new = Some (changed, file) -> exists v, file = Json v.
Proof.
  destruct old; simpl; try discriminate; intros [= <- <-]; eauto.
  case_match; eauto.
Qed.

(** A completed run leaves three parsable artifacts. *)
Lemma analyze_artifacts files fs cs :
  (analyze files fs).2 = Some cs ->
  exists c p w,
    componentsJson (analyze files fs).1 = Json c
    /\ patternsJson (analyze files fs).1 = Json p
    /\ workflowsJson (analyze files fs).1 = Json w.
Proof.
  unfold Cli.analyze.
  destruct (updateArtifact md5 stringifyComponents _ _) as [[? cFile]|] eqn:Hc;
    [|discriminate].
  destruct (updateArtifact md5 stringifyPatterns _ _) as [[? pFile]|] eqn:Hp;
    [|discriminate].
  destruct (updateArtifact md5 stringifyWorkflows _ _) as [[? wFile]|] eqn:Hw;
    [|discriminate].
  intros _. simpl.
  apply updateArtifact_result in Hc as [c ->].
  apply updateArtifact_result in Hp as [p ->].
  apply updateArtifact_result in Hw as [w ->].
  by exists c, p, w.
Qed.

(** The command completes unless a stored artifact is malformed. *)
Lemma analyze_completes files fs :
  componentsJson fs <> Malformed -> patternsJson fs <> Malformed ->
  workflowsJson fs <> Malformed ->
  exists cs, (analyze files fs).2 = Some cs.
Proof.
  intros Hc Hp Hw. unfold Cli.analyze.
  destruct (componentsJson fs); try done;
    destruct (patternsJson fs); try done;
    destruct (workflowsJson fs); try done; simpl; eauto.
Qed.
End Artifacts.
End AnalyzeLemmas.

Lemma normalizeFilePath_filePath projectRoot m :
  filePath (normalizeFilePath projectRoot m)
  = if Path.isAbsolute (filePath m) then Path.relative projectRoot (filePath m)
    else filePath m.
Proof. unfold normalizeFilePath. by destruct (Path.isAbsolute _). Qed.

(** C2, amended. For a file with a cache entry, the stored metadata is
    reused (with an absolute filePath made relative) without a call of the
    analyzer if and only if the hash of the current content equals the
    entry's sourceFileHash, and then the cache is left as it is; on a
    mismatch the analyzer is called, and the entry is overwritten with the
    new hash and metadata when the analyzer succeeds, and left untouched
    when it throws. *)
Theorem processFile_cached_entry
    (md5 : string -> string) (projectRoot : string)
    (analyzer : string -> string -> option ComponentMetadata)
    (src : gmap string string) (st : LoopState)
    (absoluteFilePath content : string) (data : CachedComponent) :
  src !! absoluteFilePath = Some content ->
  (getCachedComponent md5 (cache st) (Path.relative projectRoot absoluteFilePath)).1
    = Some data ->
  let relativeFilePath := Path.relative projectRoot absoluteFilePath in
  let st' := processFile md5 projectRoot analyzer src st absoluteFilePath in
  ((parsed st' = parsed st
    /\ components st' =
         components st ++ [normalizeFilePath projectRoot (componentMetadata data)])
   <-> sourceFileHash data = md5 content)
  /\ (sourceFileHash data = md5 content ->
      cache st' = cache st
      /\ changedOrNewRelativeFilePaths st' = changedOrNewRelativeFilePaths st)
  /\ (sourceFileHash data <> md5 content ->
      parsed st' = parsed st ++ [absoluteFilePath]
      /\ match analyzer absoluteFilePath content with
         | Some m =>
             cache st' =
               cacheComponent md5 (cache st) relativeFilePath (md5 content)
                 (withFilePath m relativeFilePath)
             /\ components st' = components st ++ [withFilePath m relativeFilePath]
             /\ changedOrNewRelativeFilePaths st' =
                  changedOrNewRelativeFilePaths st ++ [relativeFilePath]
         | None =>
             cache st' = cache st
             /\ components st' = components st
             /\ changedOrNewRelativeFilePaths st' = changedOrNewRelativeFilePaths st
         end).
Proof.
  intros Hsrc Hdata relativeFilePath st'.
  apply getCachedComponent_Some in Hdata as [Hget _].
  subst st' relativeFilePath. unfold processFile. rewrite Hsrc, Hget.
  destruct (String.eqb (sourceFileHash data) (md5 content)) eqn:Heq.
  - apply String.eqb_eq in Heq. simpl. repeat split; try done.
  - apply String.eqb_neq in Heq.
    destruct (analyzer absoluteFilePath content) as [m|]; simpl.
    + split; [|split; [done | by intros _]].
      split; [|done]. intros [Hp _]. by apply app_singleton_neq in Hp.
    + split; [|split; [done | by intros _]].
      split; [|done]. intros [Hp _]. by apply app_singleton_neq in Hp.
Qed.

(** C2, amended, at a hit on an entry that stores an absolute filePath. *)
Lemma processFile_cached_entry_witness :
  let st := Disk.emptyLoop Disk.legacyCache in
  let st' :=
    processFile Md5.md5 Disk.projectRoot Disk.analyzer
      {[ Disk.loginAbs := Disk.loginSource ]} st Disk.loginAbs in
  ((parsed st' = parsed st
    /\ components st' =
         components st ++ [normalizeFilePath Disk.projectRoot (componentMetadata legacyEntry)])
   <-> sourceFileHash legacyEntry = Md5.md5 Disk.loginSource)
  /\ (sourceFileHash legacyEntry = Md5.md5 Disk.loginSource ->
      cache st' = cache st
      /\ changedOrNewRelativeFilePaths st' = changedOrNewRelativeFilePaths st)
  /\ (sourceFileHash legacyEntry <> Md5.md5 Disk.loginSource ->
      parsed st' = parsed st ++ [Disk.loginAbs]
      /\ match Disk.analyzer Disk.loginAbs Disk.loginSource with
         | Some m =>
             cache st' =
               cacheComponent Md5.md5 (cache st)
                 (Path.relative Disk.projectRoot Disk.loginAbs) (Md5.md5 Disk.loginSource)
                 (withFilePath m (Path.relative Disk.projectRoot Disk.loginAbs))
             /\ components st' =
                  components st ++ [withFilePath m (Path.relative Disk.projectRoot Disk.loginAbs)]
             /\ changedOrNewRelativeFilePaths st' =
                  changedOrNewRelativeFilePaths st
                  ++ [Path.relative Disk.projectRoot Disk.loginAbs]
         | None =>
             cache st' = cache st
             /\ components st' = components st
             /\ changedOrNewRelativeFilePaths st' = changedOrNewRelativeFilePaths st
         end).
Proof.
  apply (processFile_cached_entry Md5.md5 Disk.projectRoot Disk.analyzer
           {[ Disk.loginAbs := Disk.loginSource ]} (Disk.emptyLoop Disk.legacyCache)
           Disk.loginAbs Disk.loginSource legacyEntry).
  - vm_compute. reflexivity.
  - vm_compute. reflexivity.
Defined.

Example legacy_filePath_normalized :
  filePath (normalizeFilePath Disk.projectRoot (Disk.loginMeta Disk.loginAbs)) = Disk.loginRel.
Proof. reflexivity. Qed.

(** C2 as stated fails: a file whose content changed into a syntax error
    keeps its stale cache entry. *)
Lemma stale_entry_survives_failed_extraction :
  ~ cacheContract Md5.md5 Disk.projectRoot Disk.analyzer
      {[ Disk.loginAbs := Disk.brokenSource ]} (Disk.emptyLoop Disk.loginCache) Disk.loginAbs.
Proof.
  intros H.
  destruct (H Disk.brokenSource loginEntry) as [_ Hstale].
  - vm_compute. reflexivity.
  - vm_compute. reflexivity.
  - destruct Hstale as (_ & m & Hm).
    + vm_compute. discriminate.
    + vm_compute in Hm. discriminate Hm.
Qed.

(** The deletion loop on the paths it is given. After a completed run, the
    deleted components are the filePath values stored in the cache before
    the run that are not the relative path of a scanned file, and the cache
    file that the key of such a value names is gone: a lookup of the value
    misses. *)
Theorem analyze_deletedComponents
    (md5 : string -> string) (projectRoot : string)
    (analyzer : string -> string -> option ComponentMetadata)
    (stringifyComponents : list ComponentMetadata -> string)
    (stringifyPatterns : list PatternMatcher.DetectedPattern -> string)
    (stringifyWorkflows : list PatternMatcher.Workflow -> string)
    (componentFiles : list string) (fs fs' : FileSystem) (changeset : Changeset) :
  analyze md5 projectRoot analyzer stringifyComponents stringifyPatterns stringifyWorkflows
    componentFiles fs = (fs', Some changeset) ->
  (forall p, In p (deletedComponents changeset) <->
             In p (getAllCachedFilePaths (metadataCacheDir fs))
             /\ ~ In p (map (Path.relative projectRoot) componentFiles))
  /\ (forall p, In p (deletedComponents changeset) ->
                metadataCacheDir fs' !! getCacheFilePath md5 p = None
                /\ getCachedComponent md5 (metadataCacheDir fs') p
                   = (None, metadataCacheDir fs')).
Proof.
  intros Hrun.
  pose proof (analyze_cache md5 projectRoot analyzer stringifyComponents stringifyPatterns
                stringifyWorkflows componentFiles fs) as [Hcache _].
  pose proof (analyze_changeset md5 projectRoot analyzer stringifyComponents
                stringifyPatterns stringifyWorkflows componentFiles fs changeset) as Hcs.
  rewrite Hrun in Hcache, Hcs. simpl in Hcache, Hcs.
  destruct (Hcs eq_refl) as (_ & _ & Hdel).
  destruct (cachePhase_deleted md5 projectRoot analyzer componentFiles fs) as [Hlist Hgone].
  rewrite Hdel, Hlist. split.
  - intros p. apply vanished_In.
  - intros p Hp. rewrite <- Hlist in Hp. specialize (Hgone p Hp).
    rewrite Hcache. split; [done|].
    unfold getCachedComponent. by rewrite Hgone.
Qed.

(** At scenario C: Navigation was analyzed before and is no longer found by
    the scan. *)
Lemma analyze_deletedComponents_witness :
  (forall p, In p (deletedComponents scenarioC_changeset) <->
             In p (getAllCachedFilePaths (metadataCacheDir scenarioC))
             /\ ~ In p (map (Path.relative Disk.projectRoot) [Disk.loginAbs]))
  /\ (forall p, In p (deletedComponents scenarioC_changeset) ->
                metadataCacheDir (Disk.run [Disk.loginAbs] scenarioC).1
                  !! getCacheFilePath Md5.md5 p = None
                /\ getCachedComponent Md5.md5
                     (metadataCacheDir (Disk.run [Disk.loginAbs] scenarioC).1) p
                   = (None, metadataCacheDir (Disk.run [Disk.loginAbs] scenarioC).1)).
Proof.
  apply (analyze_deletedComponents Md5.md5 Disk.projectRoot Disk.analyzer
           Disk.printComponents Disk.printPatterns Disk.printWorkflows
           [Disk.loginAbs] scenarioC (Disk.run [Disk.loginAbs] scenarioC).1
           scenarioC_changeset).
  vm_compute. reflexivity.
Defined.

(** ** Idempotence of the analyze command

    A second run on unchanged files reports no change, provided the cache
    the first run started from was keyed as [cacheComponent] keys it and
    the fingerprints of the paths involved do not collide. *)

Lemma split_parts_not_absolute p x :
  In x (split Path.isSlash p) -> Path.isAbsolute x = false.
Proof.
  revert x. induction p as [|c p IH]; intros x; simpl.
  - intros [<- | []]. reflexivity.
  - destruct (Path.isSlash c) eqn:Hc.
    + intros [<- | Hin]; [reflexivity | by apply IH].
    + destruct (split Path.isSlash p) as [|q qs] eqn:Hsplit.
      * intros [<- | []]. simpl. exact Hc.
      * intros [<- | Hin]; [simpl; exact Hc|].
        apply IH. by right.
Qed.

Lemma dropCommon_suffix a : forall b x,
  In x (Path.dropCommon a b).2 -> In x b.
Proof.
  induction a as [|y a IH]; intros b x; simpl; [by destruct b|].
  destruct b as [|z b]; simpl; [done|].
  destruct (String.eqb y z); simpl; [|done].
  intros H. right. by apply IH.
Qed.

Lemma joinWith_head sep x rest :
  x <> EmptyString ->
  Path.isAbsolute (Path.joinWith sep (x :: rest)) = Path.isAbsolute x.
Proof.
  intros Hx. destruct x as [|c x]; [done|]. simpl. by destruct rest.
Qed.

Lemma relative_not_absolute from to : Path.isAbsolute (Path.relative from to) = false.
Proof.
  unfold Path.relative.
  destruct (Path.dropCommon _ _) as [up down] eqn:Hdrop.
  destruct up as [|u up]; simpl map; simpl app.
  - destruct down as [|d down]; [reflexivity|].
    assert (Hd : In d (Path.segments to)).
    { apply (dropCommon_suffix (Path.segments from)). rewrite Hdrop. by left. }
    unfold Path.segments in Hd. apply filter_In in Hd as [Hd Hne].
    rewrite joinWith_head.
    + by eapply split_parts_not_absolute.
    + intros ->. discriminate.
  - rewrite joinWith_head; [reflexivity | discriminate].
Qed.

Lemma string_length_app (a b : string) :
  String.length (a +:+ b) = (String.length a + String.length b)%nat.
Proof. induction a as [|c a IH]; simpl; [done | by rewrite IH]. Qed.

Lemma append_cancel_r (a b s : string) : a +:+ s = b +:+ s -> a = b.
Proof.
  revert b. induction a as [|c a IH]; intros [|d b] H; simpl in H.
  - reflexivity.
  - apply (f_equal String.length) in H.
    rewrite !string_length_app in H. simpl in H. lia.
  - apply (f_equal String.length) in H.
    rewrite !string_length_app in H. simpl in H. lia.
  - injection H as -> H. f_equal. by apply IH.
Qed.

Section LoopFacts.
Variable md5 : string -> string.
Variable projectRoot : string.
Variable analyzer : string -> string -> option ComponentMetadata.
Variable src : gmap string string.

Local Abbreviation rel := (Path.relative projectRoot).
Local Abbreviation keyOf := (fun abs => getCacheFilePath md5 (Path.relative projectRoot abs)).
Local Abbreviation step := (processFile md5 projectRoot analyzer src).
Local Abbreviation visitResult := (visitResult md5 projectRoot src).
Local Abbreviation settledAll := (settledAll md5 projectRoot analyzer src).

Lemma normalize_relative m abs :
normalizeFilePath projectRoot (withFilePath m (rel abs)) = withFilePath m (rel abs).
Proof. unfold normalizeFilePath. simpl. by rewrite relative_not_absolute. Qed.

Lemma step_unreadable st abs :
src !! abs = None ->
cache (step st abs) = cache st
/\ components (step st abs) = components st
/\ changedOrNewRelativeFilePaths (step st abs) = changedOrNewRelativeFilePaths st.
Proof. intros H. unfold processFile. by rewrite H. Qed.

(** A visit of a settled file leaves the cache alone. *)
Lemma step_settled st abs content :
src !! abs = Some content ->
settled md5 analyzer (cache st !! keyOf abs) abs content ->
cache (step st abs) = cache st
/\ components (step st abs)
   = components st ++ reuse md5 projectRoot (cache st !! keyOf abs) content
/\ changedOrNewRelativeFilePaths (step st abs) = changedOrNewRelativeFilePaths st.
Proof.
intros Hsrc. unfold processFile, getCachedComponent, settled, reuse. rewrite Hsrc.
destruct (cache st !! _) as [[|[h|] [m|]]|]; simpl; try done.
- intros ->. simpl. by rewrite app_nil_r.
- destruct (String.eqb h (md5 content)) eqn:Heq; simpl; [by intros _|].
  intros [-> | ->]; [by rewrite String.eqb_refl in Heq|].
  simpl. by rewrite app_nil_r.
- intros ->. simpl. by rewrite app_nil_r.
Qed.

(** After any visit the file is settled, and the visit touched no other
  cache file. *)
Lemma step_settles st abs content :
src !! abs = Some content ->
settled md5 analyzer (cache (step st abs) !! keyOf abs) abs content
/\ components (step st abs)
   = components st ++ reuse md5 projectRoot (cache (step st abs) !! keyOf abs) content.
Proof.
intros Hsrc. unfold processFile, getCachedComponent, settled, reuse, removeCachedComponent,
  cacheComponent.
rewrite Hsrc.
destruct (cache st !! _) as [[|[h|] [m|]]|] eqn:Hlook; simpl;
  try (destruct (String.eqb h (md5 content)) eqn:Heq; simpl);
  try (destruct (analyzer abs content) as [m0|] eqn:Han; simpl);
  rewrite ?lookup_insert_eq, ?lookup_delete_eq, ?Hlook, ?String.eqb_refl, ?Heq,
    ?normalize_relative, ?app_nil_r;
  try (split; [|reflexivity]); auto.
apply String.eqb_eq in Heq. by left.
Qed.

Lemma step_frame st abs k :
k <> keyOf abs -> cache (step st abs) !! k = cache st !! k.
Proof.
intros Hk. unfold processFile, getCachedComponent, removeCachedComponent, cacheComponent.
destruct (src !! abs) as [content|]; [|done].
destruct (cache st !! getCacheFilePath md5 (rel abs)) as [[|[h|] [m|]]|]; simpl;
  try (destruct (String.eqb h (md5 content)); simpl);
  try (destruct (analyzer abs content); simpl);
  rewrite ?lookup_insert_ne, ?lookup_delete_ne by done; reflexivity.
Qed.

(** Where a cache file after a visit comes from. *)
Lemma step_provenance st abs k e :
cache (step st abs) !! k = Some e ->
cache st !! k = Some e
\/ exists h m, k = keyOf abs /\ e = JsonData (Some h) (Some (withFilePath m (rel abs))).
Proof.
unfold processFile, getCachedComponent, removeCachedComponent, cacheComponent.
destruct (src !! abs) as [content|]; [|by left].
destruct (cache st !! getCacheFilePath md5 (rel abs)) as [[|[h|] [m|]]|]; simpl;
  try (destruct (String.eqb h (md5 content)); simpl);
  try (destruct (analyzer abs content) as [m0|]; simpl);
  intros H;
  repeat match type of H with
  | <[_:=_]> _ !! _ = Some _ => apply lookup_insert_Some in H as [[<- <-] | [_ H]]
  | delete _ _ !! _ = Some _ => apply lookup_delete_Some in H as [_ H]
  end;
  first [ by left | right; eauto ].
Qed.

Lemma visitResult_ext dir dir' files :
(forall f, In f files -> dir !! keyOf f = dir' !! keyOf f) ->
flat_map (visitResult dir) files = flat_map (visitResult dir') files.
Proof.
intros H. induction files as [|f fs IH]; simpl; [done|].
rewrite IH by (intros; apply H; by right).
unfold visitResult. rewrite (H f) by (by left). done.
Qed.

Lemma settledAll_ext dir dir' files :
(forall f, In f files -> dir !! keyOf f = dir' !! keyOf f) ->
settledAll dir files -> settledAll dir' files.
Proof. intros H Hs f content Hf Hsrc. rewrite <- H by done. by apply Hs. Qed.

(** The loop of a run on a cache in which every file is settled. *)
Lemma settled_loop dir files : forall st,
settledAll dir files -> cache st = dir ->
cache (foldl step st files) = dir
/\ components (foldl step st files) = components st ++ flat_map (visitResult dir) files
/\ changedOrNewRelativeFilePaths (foldl step st files) = changedOrNewRelativeFilePaths st.
Proof.
induction files as [|g gs IH]; intros st Hset Hdir; simpl.
{ by rewrite app_nil_r. }
assert (Hstep : cache (step st g) = dir
                /\ components (step st g) = components st ++ visitResult dir g
                /\ changedOrNewRelativeFilePaths (step st g)
                   = changedOrNewRelativeFilePaths st).
{ unfold visitResult. destruct (src !! g) as [content|] eqn:Hsrc.
  - assert (Hs : settled md5 analyzer (cache st !! keyOf g) g content).
    { rewrite Hdir. apply Hset; [by left | done]. }
    destruct (step_settled st g content Hsrc Hs) as (Hc & Hco & Hch).
    rewrite Hc, Hco, Hch, Hdir. done.
  - destruct (step_unreadable st g Hsrc) as (Hc & Hco & Hch).
    rewrite Hc, Hco, Hch, Hdir, app_nil_r. done. }
destruct Hstep as (Hc & Hco & Hch).
destruct (IH (step st g)) as (Hc' & Hco' & Hch'); [|done|].
{ intros f content Hf. apply Hset. by right. }
rewrite Hc', Hco', Hch', Hco, Hch, <- app_assoc. done.
Qed.

Lemma loop_provenance files : forall st k e,
cache (foldl step st files) !! k = Some e ->
cache st !! k = Some e
\/ exists f h m, In f files /\ k = keyOf f
                 /\ e = JsonData (Some h) (Some (withFilePath m (rel f))).
Proof.
induction files as [|g gs IH]; intros st k e; simpl; [by left|].
intros H. apply IH in H as [H | (f & h & m & Hf & -> & ->)].
- apply step_provenance in H as [H | (h & m & -> & ->)]; [by left|].
  right. exists g, h, m. auto.
- right. exists f, h, m. auto.
Qed.

Lemma remove_all_subset paths : forall dir k e,
foldl (removeCachedComponent md5) dir paths !! k = Some e -> dir !! k = Some e.
Proof.
induction paths as [|p ps IH]; intros dir k e; simpl; [done|].
intros H. apply IH in H. unfold removeCachedComponent in H.
by apply lookup_delete_Some in H as [_ ?].
Qed.

Lemma remove_all_frame paths : forall dir k,
(forall p, In p paths -> getCacheFilePath md5 p <> k) ->
foldl (removeCachedComponent md5) dir paths !! k = dir !! k.
Proof.
induction paths as [|p ps IH]; intros dir k H; simpl; [done|].
rewrite IH by (intros; apply H; by right).
unfold removeCachedComponent. apply lookup_delete_ne. apply H. by left.
Qed.

Lemma getAllCachedFilePaths_In dir p :
In p (getAllCachedFilePaths dir) <->
exists k h m, dir !! k = Some (JsonData h (Some m))
              /\ Path.extname k = ".json" /\ p = filePath m.
Proof.
unfold getAllCachedFilePaths. rewrite in_flat_map. split.
- intros ([k e] & Hin & Hp).
  apply list_elem_of_In, elem_of_map_to_list in Hin.
  unfold cachedFilePath in Hp.
  destruct (String.eqb (Path.extname k) ".json") eqn:Hext; [|destruct Hp].
  destruct e as [|h [m|]]; try destruct Hp as [<- | []]; try destruct Hp.
  apply String.eqb_eq in Hext. eauto 6.
- intros (k & h & m & Hlook & Hext & ->).
  exists (k, JsonData h (Some m)). split.
  + by apply list_elem_of_In, elem_of_map_to_list.
  + unfold cachedFilePath. rewrite Hext. simpl. by left.
Qed.
End LoopFacts.

Section NoCollisions.
Variable md5 : string -> string.
Variable projectRoot : string.
Variable analyzer : string -> string -> option ComponentMetadata.
Variable src : gmap string string.

Local Abbreviation rel := (Path.relative projectRoot).
Local Abbreviation keyOf := (fun abs => getCacheFilePath md5 (Path.relative projectRoot abs)).
Local Abbreviation step := (processFile md5 projectRoot analyzer src).
Local Abbreviation visitResult := (visitResult md5 projectRoot src).
Local Abbreviation settledAll := (settledAll md5 projectRoot analyzer src).

Lemma getCacheFilePath_inj paths p q :
collisionFree md5 paths -> In p paths -> In q paths ->
getCacheFilePath md5 p = getCacheFilePath md5 q -> p = q.
Proof.
unfold getCacheFilePath. intros Hfree Hp Hq H.
apply Hfree; [done..|]. by eapply append_cancel_r.
Qed.

(** The loop of the first run, file by file. *)
Lemma first_loop files : forall done st,
(forall f g, In f (done ++ files) -> In g (done ++ files) -> keyOf f = keyOf g -> f = g) ->
settledAll (cache st) done ->
components st = flat_map (visitResult (cache st)) done ->
settledAll (cache (foldl step st files)) (done ++ files)
/\ components (foldl step st files)
   = flat_map (visitResult (cache (foldl step st files))) (done ++ files).
Proof.
induction files as [|g gs IH]; intros done st Hinj Hset Hcomp; simpl.
{ by rewrite app_nil_r. }
replace (done ++ g :: gs) with ((done ++ [g]) ++ gs) in * by (by rewrite <- app_assoc).
apply IH; [done | |].
- (* settled *)
  destruct (in_dec string_dec g done) as [Hin | Hnotin].
  + assert (Hsame : cache (step st g) = cache st).
    { destruct (src !! g) as [content|] eqn:Hsrc.
      - by destruct (step_settled md5 projectRoot analyzer src st g content Hsrc (Hset g content Hin Hsrc)).
      - by destruct (step_unreadable md5 projectRoot analyzer src st g Hsrc). }
    rewrite Hsame. intros f content Hf. apply in_app_or in Hf as [Hf | [<- | []]];
      by apply Hset.
  + intros f content Hf Hsrc. apply in_app_or in Hf as [Hf | [<- | []]].
    * rewrite (step_frame md5 projectRoot analyzer src); [by apply Hset|].
      intros Hk.
      apply Hinj in Hk; [by subst | |]; rewrite !in_app_iff; simpl; auto.
    * by destruct (step_settles md5 projectRoot analyzer src st g content Hsrc).
- (* components *)
  rewrite flat_map_app. simpl. rewrite app_nil_r.
  destruct (in_dec string_dec g done) as [Hin | Hnotin].
  + destruct (src !! g) as [content|] eqn:Hsrc.
    * destruct (step_settled md5 projectRoot analyzer src st g content Hsrc (Hset g content Hin Hsrc))
        as (Hc & Hco & _).
      rewrite Hc, Hco, Hcomp. unfold visitResult at 3. by rewrite Hsrc.
    * destruct (step_unreadable md5 projectRoot analyzer src st g Hsrc) as (Hc & Hco & _).
      rewrite Hc, Hco, Hcomp. unfold visitResult at 3. by rewrite Hsrc, app_nil_r.
  + assert (Hframe : forall f, In f done ->
              cache st !! keyOf f = cache (step st g) !! keyOf f).
    { intros f Hf. symmetry. apply (step_frame md5 projectRoot analyzer src).
      intros Hk.
      apply Hinj in Hk; [by subst | |]; rewrite !in_app_iff; simpl; auto. }
    rewrite <- (visitResult_ext md5 projectRoot src _ _ _ Hframe), <- Hcomp.
    destruct (src !! g) as [content|] eqn:Hsrc.
    * destruct (step_settles md5 projectRoot analyzer src st g content Hsrc) as [_ Hco].
      rewrite Hco. unfold visitResult. by rewrite Hsrc.
    * destruct (step_unreadable md5 projectRoot analyzer src st g Hsrc) as (_ & Hco & _).
      rewrite Hco. unfold visitResult. by rewrite Hsrc, app_nil_r.
Qed.

End NoCollisions.

Lemma vanished_nil processed cached :
  (forall p, In p cached -> In p processed) -> vanished processed cached = [].
Proof.
  intros H. unfold vanished. induction cached as [|p ps IH]; simpl; [done|].
  assert (Hp : arrayIncludes processed p = true).
  { apply arrayIncludes_In, H. by left. }
  rewrite Hp. simpl. apply IH. intros q Hq. apply H. by right.
Qed.

Section IdempotentRun.
Variable md5 : string -> string.
Variable projectRoot : string.
Variable analyzer : string -> string -> option ComponentMetadata.
Variable stringifyComponents : list ComponentMetadata -> string.
Variable stringifyPatterns : list PatternMatcher.DetectedPattern -> string.
Variable stringifyWorkflows : list PatternMatcher.Workflow -> string.

Local Abbreviation rel := (Path.relative projectRoot).
Local Abbreviation run :=
(analyze md5 projectRoot analyzer stringifyComponents stringifyPatterns stringifyWorkflows).
Local Abbreviation phase := (cachePhase md5 projectRoot analyzer).

(** An artifact that was just compared and written is clean. *)
Lemma updateArtifact_again {A} (stringify : A -> string) (old : JsonFile A) (new : A)
  changed file :
updateArtifact md5 stringify old new = Some (changed, file) ->
updateArtifact md5 stringify file new = Some (false, file).
Proof.
destruct old as [| | |v]; simpl; try discriminate.
- intros [= <- <-]. simpl. by rewrite String.eqb_refl.
- intros [= <- <-]. simpl. by rewrite String.eqb_refl.
- destruct (String.eqb _ _) eqn:Heq; simpl; intros [= <- <-]; simpl.
  + by rewrite Heq.
  + by rewrite String.eqb_refl.
Qed.

(** The cache phase of a run that follows a run on a well-keyed cache. *)
Lemma second_cachePhase files fs fs1 :
collisionFree md5 (map rel files ++ getAllCachedFilePaths (metadataCacheDir fs)) ->
distinctRelativePaths projectRoot files ->
wellKeyed md5 (metadataCacheDir fs) ->
sources fs1 = sources fs ->
metadataCacheDir fs1 = finalCache (phase files fs) ->
finalCache (phase files fs1) = finalCache (phase files fs)
/\ allComponents (phase files fs1) = allComponents (phase files fs)
/\ newPaths (phase files fs1) = []
/\ changedPaths (phase files fs1) = []
/\ deletedPaths (phase files fs1) = [].
Proof.
intros Hfree Hrel Hkeyed Hsrc Hcache.
set (src := sources fs).
set (st0 := {| cache := metadataCacheDir fs; components := [];
               processedRelativeFilePaths := []; changedOrNewRelativeFilePaths := [];
               parsed := [] |}).
set (stF := foldl (processFile md5 projectRoot analyzer src) st0 files).
set (gone := vanished (map rel files) (getAllCachedFilePaths (metadataCacheDir fs))).
assert (Hph : finalCache (phase files fs)
              = foldl (removeCachedComponent md5) (cache stF) gone
              /\ allComponents (phase files fs) = components stF).
{ unfold cachePhase. rewrite handleDeleted_fold, loop_processed. done. }
destruct Hph as [HC1 Hcomps].
set (C1 := finalCache (phase files fs)) in *.
(* the first loop settles every file *)
destruct (first_loop md5 projectRoot analyzer src files [] st0)
  as [HsetF HcompF]; [| by intros ? ? [] | done |].
{ simpl. intros f g Hf Hg Hk. apply (Hrel f g Hf Hg).
  apply (getCacheFilePath_inj md5 _ _ _ Hfree); [| | done];
    apply in_or_app; left; by apply in_map. }
fold stF in HsetF, HcompF. simpl in HsetF, HcompF.
(* the deletions leave the cache files of the scanned files alone *)
assert (Hframe : forall f, In f files ->
          cache stF !! getCacheFilePath md5 (rel f) = C1 !! getCacheFilePath md5 (rel f)).
{ intros f Hf. rewrite HC1. symmetry. apply remove_all_frame.
  intros p Hp Hk. apply vanished_In in Hp as [Hlisted Hp]. apply Hp.
  apply (getCacheFilePath_inj md5 _ _ _ Hfree) in Hk.
  - subst p. by apply in_map.
  - apply in_or_app. by right.
  - apply in_or_app. left. by apply in_map. }
assert (Hset1 : settledAll md5 projectRoot analyzer src C1 files).
{ by eapply settledAll_ext. }
assert (Hout1 : flat_map (visitResult md5 projectRoot src C1) files = components stF).
{ rewrite HcompF. symmetry. by apply visitResult_ext. }
(* every path listed after the first run was scanned *)
assert (Hlisted : forall p, In p (getAllCachedFilePaths C1) -> In p (map rel files)).
{ intros p Hp. apply getAllCachedFilePaths_In in Hp as (k & h & m & Hlook & Hext & ->).
  pose proof Hlook as Hlook1.
  rewrite HC1 in Hlook. apply remove_all_subset in Hlook.
  apply loop_provenance in Hlook as [Hold | (f & h' & m' & Hf & _ & Heq)].
  - destruct (in_dec string_dec (filePath m) (map rel files)) as [Hin | Hout]; [done|].
    exfalso.
    assert (Hgone : In (filePath m) gone).
    { apply vanished_In. split; [|done].
      apply getAllCachedFilePaths_In. eauto 6. }
    apply (remove_all_removes md5 gone (cache stF)) in Hgone.
    rewrite <- HC1 in Hgone. fold C1 in Hgone.
    specialize (Hkeyed k _ Hold). simpl in Hkeyed. rewrite Hext in Hkeyed. simpl in Hkeyed.
    apply String.eqb_eq in Hkeyed. rewrite <- Hkeyed in Hgone. congruence.
  - injection Heq as _ ->. simpl. exact (in_map rel files f Hf). }
(* the second loop *)
set (st1 := {| cache := metadataCacheDir fs1; components := [];
               processedRelativeFilePaths := []; changedOrNewRelativeFilePaths := [];
               parsed := [] |}).
destruct (settled_loop md5 projectRoot analyzer src C1 files st1 Hset1 Hcache)
  as (Hc2 & Hco2 & Hch2).
simpl in Hco2, Hch2.
rewrite Hcomps.
unfold cachePhase. rewrite Hsrc, handleDeleted_fold, loop_processed. simpl.
fold src st1. rewrite Hc2, Hco2, Hch2, Hcache. fold C1.
rewrite (vanished_nil _ _ Hlisted). simpl.
rewrite Hout1. done.
Qed.

(** X19. After a completed run on a well-keyed cache, a second run on the
  same files leaves the cache and the three artifacts as they are and
  writes the empty changeset. *)
Theorem analyze_idempotent_when_well_keyed files fs fs1 cs1 :
collisionFree md5 (map rel files ++ getAllCachedFilePaths (metadataCacheDir fs)) ->
distinctRelativePaths projectRoot files ->
wellKeyed md5 (metadataCacheDir fs) ->
run files fs = (fs1, Some cs1) ->
run files fs1 = (withChangeset fs1 emptyChangeset, Some emptyChangeset).
Proof.
intros Hfree Hrel Hkeyed Hrun.
assert (Hfs1 : sources fs1 = sources fs
               /\ metadataCacheDir fs1 = finalCache (phase files fs)).
{ destruct (analyze_cache md5 projectRoot analyzer stringifyComponents stringifyPatterns
              stringifyWorkflows files fs) as [Hc Hs].
  rewrite Hrun in Hc, Hs. done. }
destruct Hfs1 as [Hsrc Hcache].
destruct (second_cachePhase files fs fs1 Hfree Hrel Hkeyed Hsrc Hcache)
  as (Hfinal & Hcomps & Hnew & Hchanged & Hdeleted).
revert Hrun. unfold analyze.
destruct (updateArtifact md5 stringifyComponents (componentsJson fs) _)
  as [[c cFile]|] eqn:Hc; [|discriminate].
destruct (updateArtifact md5 stringifyPatterns (patternsJson fs) _)
  as [[p pFile]|] eqn:Hp; [|discriminate].
destruct (updateArtifact md5 stringifyWorkflows (workflowsJson fs) _)
  as [[w wFile]|] eqn:Hw; [|discriminate].
intros [= <- _]. simpl in *.
rewrite Hfinal, Hcomps, Hnew, Hchanged, Hdeleted.
rewrite (updateArtifact_again _ _ _ _ _ Hc).
rewrite (updateArtifact_again _ _ _ _ _ Hp).
rewrite (updateArtifact_again _ _ _ _ _ Hw).
reflexivity.
Qed.
End IdempotentRun.

Lemma collisionFreeb_sound md5 paths :
  collisionFreeb md5 paths = true -> collisionFree md5 paths.
Proof.
  unfold collisionFreeb. rewrite forallb_forall. intros H p q Hp Hq Heq.
  specialize (H p Hp). rewrite forallb_forall in H. specialize (H q Hq).
  rewrite Heq, String.eqb_refl in H. by apply String.eqb_eq.
Qed.

Lemma wellKeyedb_sound md5 dir : wellKeyedb md5 dir = true -> wellKeyed md5 dir.
Proof.
  unfold wellKeyedb, wellKeyed. rewrite forallb_forall. intros H k e Hlook.
  apply (H (k, e)). by apply list_elem_of_In, elem_of_map_to_list.
Qed.

(** X19, at scenario C, with the MD5 digest: after the run that dropped
    Navigation, a second run reports nothing. *)
Lemma analyze_idempotent_scenarioC :
  Disk.run [Disk.loginAbs] (Disk.run [Disk.loginAbs] scenarioC).1
  = (withChangeset (Disk.run [Disk.loginAbs] scenarioC).1 emptyChangeset,
     Some emptyChangeset).
Proof.
  apply (analyze_idempotent_when_well_keyed Md5.md5 Disk.projectRoot Disk.analyzer
           Disk.printComponents Disk.printPatterns Disk.printWorkflows
           [Disk.loginAbs] scenarioC _ scenarioC_changeset).
  - apply collisionFreeb_sound. vm_compute. reflexivity.
  - intros f g [<- | []] [<- | []] _. reflexivity.
  - apply wellKeyedb_sound. vm_compute. reflexivity.
  - vm_compute. reflexivity.
Defined.

Lemma legacy_cachePhase (analyzer : string -> string -> option ComponentMetadata) :
  cachePhase Md5.md5 Disk.projectRoot analyzer [Disk.loginAbs]
    (Disk.freshOutput {[ Disk.loginAbs := Disk.loginSource ]} Disk.legacyCache)
  = {| finalCache := Disk.legacyCache;
       allComponents := [Disk.loginMeta Disk.loginRel];
       newPaths := []; changedPaths := [];
       deletedPaths := [Disk.loginAbs]; parsedFiles := [] |}.
Proof. vm_compute. reflexivity. Qed.

(** C3 fails on the code. With a cache entry that stores an absolute
    filePath, which the loop reuses as a hit, the first run and the second
    run on the unchanged files both report that path as deleted, for every
    analyzer and every serializer. *)
Theorem second_run_still_reports_deletion
    (analyzer : string -> string -> option ComponentMetadata)
    (stringifyComponents : list ComponentMetadata -> string)
    (stringifyPatterns : list PatternMatcher.DetectedPattern -> string)
    (stringifyWorkflows : list PatternMatcher.Workflow -> string) :
  let run :=
    analyze Md5.md5 Disk.projectRoot analyzer stringifyComponents stringifyPatterns
      stringifyWorkflows [Disk.loginAbs] in
  let fs0 := Disk.freshOutput {[ Disk.loginAbs := Disk.loginSource ]} Disk.legacyCache in
  let fs1 := (run fs0).1 in
  exists cs1 cs2,
    (run fs0).2 = Some cs1
    /\ (run fs1).2 = Some cs2
    /\ metadataCacheDir fs1 = Disk.legacyCache
    /\ deletedComponents cs1 = [Disk.loginAbs]
    /\ deletedComponents cs2 = [Disk.loginAbs].
Proof.
  intros run fs0 fs1.
  pose proof (legacy_cachePhase analyzer) as Hph0. fold fs0 in Hph0.
  assert (Hfs1 : metadataCacheDir fs1 = Disk.legacyCache /\ sources fs1 = sources fs0).
  { destruct (analyze_cache Md5.md5 Disk.projectRoot analyzer stringifyComponents
                stringifyPatterns stringifyWorkflows [Disk.loginAbs] fs0) as [Hc Hs].
    rewrite Hph0 in Hc. split; [exact Hc | exact Hs]. }
  destruct Hfs1 as [Hcache Hsrc].
  assert (Hph1 : deletedPaths (cachePhase Md5.md5 Disk.projectRoot analyzer [Disk.loginAbs] fs1)
                 = [Disk.loginAbs]).
  { rewrite (cachePhase_ext Md5.md5 Disk.projectRoot analyzer [Disk.loginAbs] fs1 fs0 Hsrc)
      by (rewrite Hcache; reflexivity).
    by rewrite Hph0. }
  destruct (analyze_completes Md5.md5 Disk.projectRoot analyzer stringifyComponents
              stringifyPatterns stringifyWorkflows [Disk.loginAbs] fs0) as [cs1 Hcs1];
    [done..|].
  destruct (analyze_artifacts _ _ _ _ _ _ _ _ _ Hcs1) as (c & p & w & Hc & Hp & Hw).
  destruct (analyze_completes Md5.md5 Disk.projectRoot analyzer stringifyComponents
              stringifyPatterns stringifyWorkflows [Disk.loginAbs] fs1) as [cs2 Hcs2].
  { subst fs1 run. by rewrite Hc. }
  { subst fs1 run. by rewrite Hp. }
  { subst fs1 run. by rewrite Hw. }
  exists cs1, cs2.
  split; [exact Hcs1|]. split; [exact Hcs2|]. split; [exact Hcache|].
  apply analyze_changeset in Hcs1 as (_ & _ & Hd1).
  apply analyze_changeset in Hcs2 as (_ & _ & Hd2).
  rewrite Hd1, Hd2, Hph0, Hph1. split; reflexivity.
Qed.

Lemma legacyNavigation_cachePhase (analyzer : string -> string -> option ComponentMetadata) :
  cachePhase Md5.md5 Disk.projectRoot analyzer [Disk.loginAbs] scenarioLegacyDeletion
  = {| finalCache := legacyNavigationCache;
       allComponents := [Disk.loginMeta Disk.loginRel];
       newPaths := []; changedPaths := [];
       deletedPaths := [navigationAbs]; parsedFiles := [] |}.
Proof. vm_compute. reflexivity. Qed.

(** C4 fails on the code. Navigation.jsx was analyzed before and is gone
    from the project; its cache entry stores the absolute path of the file.
    For every analyzer and every serializer the run reports the absolute
    path as deleted, not the relative one, and the cache entry is not
    removed: its file is still in the cache directory, it is still listed
    among the cached paths, and a lookup of the relative path still finds
    it. *)
Theorem legacy_entry_survives_deletion
    (analyzer : string -> string -> option ComponentMetadata)
    (stringifyComponents : list ComponentMetadata -> string)
    (stringifyPatterns : list PatternMatcher.DetectedPattern -> string)
    (stringifyWorkflows : list PatternMatcher.Workflow -> string) :
  let result :=
    analyze Md5.md5 Disk.projectRoot analyzer stringifyComponents stringifyPatterns
      stringifyWorkflows [Disk.loginAbs] scenarioLegacyDeletion in
  exists changeset,
    result.2 = Some changeset
    /\ deletedComponents changeset = [navigationAbs]
    /\ navigationAbs <> Disk.navigationRel
    /\ Path.isAbsolute navigationAbs = true
    /\ metadataCacheDir result.1 = legacyNavigationCache
    /\ metadataCacheDir result.1 !! getCacheFilePath Md5.md5 Disk.navigationRel
       = Some (JsonData (Some (sourceFileHash legacyNavigationEntry))
                 (Some (componentMetadata legacyNavigationEntry)))
    /\ In navigationAbs (getAllCachedFilePaths (metadataCacheDir result.1))
    /\ (getCachedComponent Md5.md5 (metadataCacheDir result.1) Disk.navigationRel).1
       = Some legacyNavigationEntry.
Proof.
  intros result.
  pose proof (legacyNavigation_cachePhase analyzer) as Hphase.
  destruct (analyze_cache Md5.md5 Disk.projectRoot analyzer stringifyComponents
              stringifyPatterns stringifyWorkflows [Disk.loginAbs] scenarioLegacyDeletion)
    as [Hcache _].
  fold result in Hcache. rewrite Hphase in Hcache. cbn [finalCache] in Hcache.
  destruct (analyze_completes Md5.md5 Disk.projectRoot analyzer stringifyComponents
              stringifyPatterns stringifyWorkflows [Disk.loginAbs] scenarioLegacyDeletion)
    as [changeset Hrun]; [done..|].
  fold result in Hrun.
  exists changeset. split; [exact Hrun|].
  apply analyze_changeset in Hrun as (_ & _ & Hdeleted).
  rewrite Hphase in Hdeleted. cbn [deletedPaths] in Hdeleted.
  split; [exact Hdeleted|]. split; [discriminate|]. split; [reflexivity|].
  split; [exact Hcache|]. rewrite Hcache.
  split; [vm_compute; reflexivity|]. split; [vm_compute; tauto|].
  vm_compute. reflexivity.
Qed.

(** * Further properties of the code *)

(** ** Strings and lists *)

Lemma string_app_assoc (a b c : string) : (a +:+ b) +:+ c = a +:+ (b +:+ c).
Proof.
  induction a as [|x a IH]; [done|].
  change (String x ((a +:+ b) +:+ c) = String x (a +:+ (b +:+ c))). by rewrite IH.
Qed.

Lemma string_app_nil_r (s : string) : s +:+ "" = s.
Proof.
  induction s as [|c s IH]; [done|].
  change (String c (s +:+ "") = String c s). by rewrite IH.
Qed.

Lemma prefix_app (a b : string) : String.prefix a (a +:+ b) = true.
Proof.
  induction a as [|x a IH]; simpl; [by destruct b|].
  destruct (ascii_dec x x); [done | congruence].
Qed.

Lemma drop_app (a b : string) : drop (String.length a) (a +:+ b) = b.
Proof. induction a as [|c a IH]; simpl; [by destruct b | done]. Qed.

Lemma substring_app (a b : string) : String.substring 0 (String.length a) (a +:+ b) = a.
Proof.
  induction a as [|c a IH]; simpl; [by destruct b | by rewrite IH].
Qed.

Lemma endsWith_app (a m : string) : endsWith (a +:+ m) m = true.
Proof.
  unfold endsWith. rewrite string_length_app.
  replace (String.length a + String.length m - String.length m)%nat
    with (String.length a) by lia.
  rewrite drop_app, String.eqb_refl, andb_true_r. apply Nat.leb_le. lia.
Qed.

Lemma chars_append a b c : In c (chars (a +:+ b)) <-> In c (chars a) \/ In c (chars b).
Proof.
  induction a as [|x a IH]; simpl; [tauto|]. rewrite IH. tauto.
Qed.

Lemma chars_join parts c : In c (chars (join parts)) -> exists p, In p parts /\ In c (chars p).
Proof.
  induction parts as [|p ps IH]; simpl; [done|].
  change (String.append p (foldr String.append "" ps)) with (p +:+ join ps).
  rewrite chars_append. intros [H | H]; [by exists p; auto|].
  destruct (IH H) as (q & Hq & Hc). exists q. auto.
Qed.

Lemma chars_mapString f s c : In c (chars (mapString f s)) -> exists c', c = f c'.
Proof.
  induction s as [|a s IH]; simpl; [done|]. intros [<- | H]; [by eexists | by apply IH].
Qed.

Lemma mapString_fixed f s : (forall c, In c (chars s) -> f c = c) -> mapString f s = s.
Proof.
  induction s as [|a s IH]; simpl; [done|]. intros H.
  rewrite (H a) by (by left). rewrite IH; [done|]. intros c Hc. apply H. by right.
Qed.

Lemma mapString_length f s : String.length (mapString f s) = String.length s.
Proof. induction s as [|c s IH]; simpl; [done | by rewrite IH]. Qed.

Lemma includes_char s c : ~ In c (chars s) -> includes s (String c "") = false.
Proof.
  induction s as [|a s IH]; intros H; [done|].
  cbn [includes]. rewrite IH by (intros Hc; apply H; by right).
  cbn [String.prefix]. destruct (ascii_dec c a) as [-> | Hne].
  - exfalso. apply H. by left.
  - reflexivity.
Qed.

Lemma includes_char_In s c : In c (chars s) -> includes s (String c "") = true.
Proof.
  induction s as [|a s IH]; [done|]. intros [-> | H].
  - cbn [includes String.prefix]. destruct (ascii_dec c c); [|congruence].
    by destruct s.
  - cbn [includes]. rewrite IH by done. apply orb_true_r.
Qed.

Lemma includes_char_app a b c :
  ~ In c (chars b) -> includes (a +:+ b) (String c "") = includes a (String c "").
Proof.
  intros Hb. destruct (in_dec ascii_dec c (chars a)) as [Hin | Hout].
  - rewrite !includes_char_In; [done.. |]. apply chars_append. by left.
  - rewrite !includes_char; [done.. |]. rewrite chars_append. tauto.
Qed.

(** The parts of a split are made of the characters of the string that
    are no separators. *)
Lemma split_chars isSep s w c :
  In w (split isSep s) -> In c (chars w) -> In c (chars s) /\ isSep c = false.
Proof.
  revert w. induction s as [|a s IH]; intros w Hw Hc.
  - simpl in Hw. destruct Hw as [<- | []]. done.
  - simpl in Hw. destruct (isSep a) eqn:Ha.
    + destruct Hw as [<- | Hw]; [done|]. destruct (IH w Hw Hc). split; [by right | done].
    + destruct (split isSep s) as [|p ps] eqn:Hs.
      * destruct Hw as [<- | []]. destruct Hc as [<- | []]. split; [by left | done].
      * destruct Hw as [<- | Hw].
        -- destruct Hc as [<- | Hc]; [split; [by left | done]|].
           destruct (IH p (or_introl eq_refl) Hc). split; [by right | done].
        -- destruct (IH w (or_intror Hw) Hc). split; [by right | done].
Qed.

Lemma split_nonempty isSep s : split isSep s <> [].
Proof.
  destruct s as [|c s]; simpl; [done|]. destruct (isSep c); [done|].
  by destruct (split isSep s).
Qed.

Lemma split_cons isSep a s :
  split isSep (String a s)
  = if isSep a then EmptyString :: split isSep s
    else match split isSep s with
         | p :: ps => String a p :: ps
         | [] => [String a EmptyString]
         end.
Proof. reflexivity. Qed.

Lemma split_plain isSep s :
  (forall c, In c (chars s) -> isSep c = false) -> split isSep s = [s].
Proof.
  induction s as [|a s IH]; intros H; [done|]. simpl.
  rewrite (H a) by (by left). rewrite IH; [done|]. intros c Hc. apply H. by right.
Qed.

Lemma lowerAscii_idem c : lowerAscii (lowerAscii c) = lowerAscii c.
Proof. destruct c as [[] [] [] [] [] [] [] []]; reflexivity. Qed.

Lemma lowerAscii_upperAscii c : lowerAscii (upperAscii c) = lowerAscii c.
Proof. destruct c as [[] [] [] [] [] [] [] []]; reflexivity. Qed.

Lemma upperAscii_space c : Ascii.eqb (upperAscii c) " " = Ascii.eqb c " ".
Proof. destruct c as [[] [] [] [] [] [] [] []]; reflexivity. Qed.

Lemma lowerAscii_space c : Ascii.eqb (lowerAscii c) " " = Ascii.eqb c " ".
Proof. destruct c as [[] [] [] [] [] [] [] []]; reflexivity. Qed.

Lemma filter_sublist {A} (f : A -> bool) (l : list A) : sublist (List.filter f l) l.
Proof.
  induction l as [|x l IH]; [constructor|]. simpl.
  destruct (f x); [by apply sublist_skip | by apply sublist_cons].
Qed.

Lemma filter_nonempty {A} (f : A -> bool) (l : list A) :
  (0 <? length (List.filter f l))%nat = existsb f l.
Proof.
  induction l as [|x l IH]; [done|]. simpl. destruct (f x); [done|]. by rewrite IH.
Qed.

Lemma filter_exists {A} (f g : A -> bool) (l : list A) :
  (forall x, f x = true -> g x = true) -> existsb f l = true -> List.filter g l <> [].
Proof.
  intros Hfg Hex. apply existsb_exists in Hex as (x & Hx & Hf).
  intros Hnil. assert (Hin : In x (List.filter g l)) by (apply filter_In; auto).
  by rewrite Hnil in Hin.
Qed.

Lemma foldl_invariant {S A} (P : S -> Prop) (f : S -> A -> S) (l : list A) :
  (forall s x, P s -> P (f s x)) -> forall s, P s -> P (foldl f s l).
Proof.
  intros Hf. induction l as [|x l IH]; intros s Hs; [done|]. simpl. by apply IH, Hf.
Qed.

Lemma flat_map_length_le {A B} (f : A -> list B) (l : list A) :
  (forall x, length (f x) <= 1)%nat -> (length (flat_map f l) <= length l)%nat.
Proof.
  intros H. induction l as [|x l IH]; simpl; [lia|].
  rewrite length_app. specialize (H x). lia.
Qed.

(** ** Pattern detection: order and provenance *)

Lemma insertByConfidence_sorted p l :
  (0 <=? confidence p)%float = true ->
  Forall (fun q => (0 <=? confidence q)%float = true) l ->
  StronglySorted (fun a b => (confidence b <=? confidence a)%float = true) l ->
  StronglySorted (fun a b => (confidence b <=? confidence a)%float = true)
    (insertByConfidence p l).
Proof.
  intros Hp Hl Hs. induction Hs as [|q rest Hs IH Hq]; simpl.
  - repeat constructor.
  - apply Forall_cons in Hl as [Hqn Hrest].
    apply leb_isNumber in Hp as Hpn. apply leb_isNumber in Hqn as Hqn'.
    unfold byConfidence. rewrite ltb_sub.
    destruct (confidence p <? confidence q)%float eqn:Hlt.
    + constructor; [by apply IH|].
      apply List.Forall_forall. intros r Hr.
      apply insertByConfidence_In in Hr as [-> | Hr]; [by apply ltb_leb|].
      rewrite List.Forall_forall in Hq. by apply Hq.
    + apply ltb_false_leb in Hlt; [|tauto..].
      constructor; [by constructor|]. constructor; [done|].
      eapply List.Forall_impl; [|exact Hq]. simpl. intros r Hr. by eapply leb_trans.
Qed.

Lemma sortByConfidence_sorted l :
  Forall (fun q => (0 <=? confidence q)%float = true) l ->
  StronglySorted (fun a b => (confidence b <=? confidence a)%float = true)
    (sortByConfidence l).
Proof.
  induction l as [|p l IH]; [constructor|].
  intros [Hp Hl]%Forall_cons. cbn [sortByConfidence foldr]. fold (sortByConfidence l).
  apply insertByConfidence_sorted; [done| |by apply IH].
  apply List.Forall_forall. intros q Hq. rewrite sortByConfidence_In in Hq.
  rewrite List.Forall_forall in Hl. by apply Hl.
Qed.

Lemma insertByConfidence_perm p l : Permutation (insertByConfidence p l) (p :: l).
Proof.
  induction l as [|q rest IH]; simpl; [done|].
  destruct (0 <? _)%float; [|done].
  rewrite IH. apply perm_swap.
Qed.

Lemma sortByConfidence_perm l : Permutation (sortByConfidence l) l.
Proof.
  induction l as [|p l IH]; simpl; [done|].
  by rewrite insertByConfidence_perm, IH.
Qed.

Lemma insertByConfidence_ties c p l :
  List.filter (fun q => (confidence q =? c)%float) (insertByConfidence p l)
  = List.filter (fun q => (confidence q =? c)%float) (p :: l).
Proof.
  induction l as [|q rest IH]; [done|].
  cbn [insertByConfidence]. unfold byConfidence. rewrite ltb_sub.
  destruct (confidence p <? confidence q)%float eqn:Hlt; [|done].
  cbn [List.filter] in *. rewrite IH.
  destruct (confidence p =? c)%float eqn:Hp; [|done].
  destruct (confidence q =? c)%float eqn:Hq; [|done].
  rewrite (eqb_not_ltb _ _ _ Hp Hq) in Hlt. done.
Qed.

Lemma sortByConfidence_ties c l :
  List.filter (fun q => (confidence q =? c)%float) (sortByConfidence l)
  = List.filter (fun q => (confidence q =? c)%float) l.
Proof.
  induction l as [|p l IH]; [done|].
  cbn [sortByConfidence foldr]. fold (sortByConfidence l).
  rewrite insertByConfidence_ties. cbn [List.filter]. by rewrite IH.
Qed.

Lemma detected_confidences components :
  Forall (fun q => (0 <=? confidence q)%float = true)
    (flat_map (detectOne components) patterns).
Proof.
  apply List.Forall_forall. intros q Hq.
  apply in_flat_map in Hq as (entry & Hentry & Hq).
  apply detectOne_In in Hq as (_ & _ & _ & _ & ->).
  by apply calculateConfidence_nonneg.
Qed.

(** X1. The patterns [detectPatterns] returns are in descending order of
    confidence, as doubles compare; they are the patterns the loop over the
    table found, and patterns of the same confidence keep the order of the
    table. *)
Theorem detectPatterns_sorted (components : list ComponentMetadata) :
  StronglySorted (fun p q => (confidence q <=? confidence p)%float = true)
    (detectPatterns components)
  /\ Permutation (detectPatterns components) (flat_map (detectOne components) patterns)
  /\ forall c : float,
       List.filter (fun p => (confidence p =? c)%float) (detectPatterns components)
       = List.filter (fun p => (confidence p =? c)%float)
           (flat_map (detectOne components) patterns).
Proof.
  unfold detectPatterns. split; [apply sortByConfidence_sorted, detected_confidences|].
  split; [apply sortByConfidence_perm|]. intros c. apply sortByConfidence_ties.
Qed.

(** Rounding decides the order: with three of the four search keywords and
    one of the three search actions against four of the seven CRUD keywords
    and three of the four CRUD actions, both scores are 5/8 in exact
    arithmetic; as doubles the search pattern, which the table lists first,
    scores one unit in the last place less and comes second. *)
#[warnings="-inexact-float"]
Example detectPatterns_rounding :
  map (fun p => (dp_name p, confidence p)) (detectPatterns tieProject)
  = [("crud", 0.625%float); ("search", 0.6249999999999999%float)]
  /\ map dp_name (flat_map (detectOne tieProject) patterns) = ["search"; "crud"].
Proof. split; vm_compute; reflexivity. Qed.

Lemma detected_names components entries :
  sublist (map dp_name (flat_map (detectOne components) entries)) (map fst entries).
Proof.
  induction entries as [|[n pat] entries IH]; [constructor|].
  cbn [flat_map map fst]. unfold detectOne at 1.
  destruct (0 <? _)%nat; simpl.
  - by apply sublist_skip.
  - by apply sublist_cons.
Qed.

Lemma pattern_names_distinct : List.NoDup (map fst patterns).
Proof. apply NoDup_ListNoDup. apply (bool_decide_unpack _). vm_compute. exact I. Qed.

(** X2. No pattern is reported twice, at most ten are reported, and a
    pattern of the table is reported exactly when the lower-cased name of
    some component contains one of its keywords. *)
Theorem detectPatterns_reported (components : list ComponentMetadata) :
  List.NoDup (map dp_name (detectPatterns components))
  /\ (length (detectPatterns components) <= 10)%nat
  /\ forall n,
       In n (map dp_name (detectPatterns components)) <->
       exists pattern c,
         In (n, pattern) patterns /\ In c components
         /\ matchesPattern (toLowerCase (name c)) (pat_components pattern) = true.
Proof.
  pose proof (sortByConfidence_perm (flat_map (detectOne components) patterns)) as Hperm.
  fold (detectPatterns components) in Hperm.
  pose proof (detected_names components patterns) as Hsub.
  split; [|split].
  - apply NoDup_ListNoDup. rewrite Hperm. refine (sublist_NoDup _ _ _ Hsub).
    apply NoDup_ListNoDup, pattern_names_distinct.
  - rewrite Hperm. apply sublist_length in Hsub. by rewrite !length_map in Hsub.
  - intros n. rewrite in_map_iff. split.
    + intros (p & <- & Hp).
      apply sortByConfidence_In, in_flat_map in Hp as ([n pat] & Hentry & Hp).
      unfold detectOne in Hp. rewrite filter_nonempty in Hp.
      destruct (existsb _ components) eqn:Hex; [|done].
      destruct Hp as [<- | []]. simpl.
      apply existsb_exists in Hex as (c & Hc & Hm). by exists pat, c.
    + intros (pat & c & Hentry & Hc & Hm).
      assert (Hex : existsb (fun component =>
                matchesPattern (toLowerCase (name component)) (pat_components pat))
                components = true).
      { apply existsb_exists. by exists c. }
      eexists. split; [|apply sortByConfidence_In, in_flat_map; exists (n, pat); split; [done|]].
      2:{ unfold detectOne. rewrite filter_nonempty, Hex. by left. }
      done.
Qed.

(** X3. Every reported pattern carries the description and the user goal
    of its table entry; its components are a non-empty selection of the
    input, in input order, each with a name that contains a keyword of the
    pattern; and each of its actions is an action of one of its components. *)
Theorem detectPatterns_provenance (components : list ComponentMetadata) :
  Forall (fun p =>
    dp_components p <> []
    /\ sublist (dp_components p) components
    /\ (exists pattern, In (dp_name p, pattern) patterns
          /\ Forall (fun c => matchesPattern (toLowerCase (name c)) (pat_components pattern) = true)
               (dp_components p)
          /\ dp_description p = pat_description pattern
          /\ dp_userGoal p = pat_userGoal pattern)
    /\ Forall (fun a => exists c, In c (dp_components p) /\ In a (userActions c)) (dp_actions p))
    (detectPatterns components).
Proof.
  apply List.Forall_forall. intros p Hp.
  apply sortByConfidence_In, in_flat_map in Hp as ([n pat] & Hentry & Hp).
  unfold detectOne in Hp.
  destruct (0 <? _)%nat eqn:Hlen; [|done]. destruct Hp as [<- | []]. simpl.
  split; [|split; [|split]].
  - intros Hnil. rewrite Hnil in Hlen. done.
  - apply filter_sublist.
  - exists pat. split; [done|]. split; [|done].
    apply List.Forall_forall. intros c Hc. by apply filter_In in Hc as [_ Hc].
  - apply List.Forall_forall. intros a Ha. unfold findMatchingActions in Ha.
    apply filter_In in Ha as [Ha _]. apply in_flat_map in Ha as (c & Hc & Ha). by exists c.
Qed.

(** ** Workflows *)

(** X4. Components without user actions give no workflow. *)
Theorem detectWorkflows_needs_actions (components : list ComponentMetadata) :
  Forall (fun c => userActions c = []) components -> detectWorkflows components = [].
Proof.
  intros H.
  assert (Hnone : flat_map userActions components = []).
  { induction H as [|c cs Hc _ IH]; [done|]. simpl. by rewrite Hc, IH. }
  unfold detectWorkflows, hasAuthenticationFlow, hasSearchFlow, hasFormSubmissionFlow,
    hasCRUDFlow, hasCheckoutFlow.
  rewrite Hnone. simpl. by rewrite !andb_false_r.
Qed.

(** X4, at the six search components, none of which has an action. *)
Lemma detectWorkflows_needs_actions_witness : detectWorkflows searchHeavyProject = [].
Proof.
  apply (detectWorkflows_needs_actions searchHeavyProject).
  repeat constructor.
Defined.

(** X5. The workflows come in a fixed order, each at most once, and each
    with its fixed number of steps. *)
Theorem detectWorkflows_order (components : list ComponentMetadata) :
  sublist (map (fun w => (wf_name w, length (steps w))) (detectWorkflows components))
    [ ("Authentication", 2%nat); ("Search and Filter", 3%nat); ("Form Submission", 3%nat);
      ("Manage Items", 4%nat); ("Shopping Checkout", 6%nat) ].
Proof.
  unfold detectWorkflows.
  destruct (hasAuthenticationFlow _ _), (hasSearchFlow _ _), (hasFormSubmissionFlow _ _),
    (hasCRUDFlow _ _), (hasCheckoutFlow _ _); cbn;
    solve [repeat first [apply sublist_nil | apply sublist_skip | apply sublist_cons]].
Qed.

(** X6. The components of a workflow are a selection of the input, the
    actions of its steps are a selection of the actions of all components,
    and every workflow but Authentication has at least one component. *)
Theorem detectWorkflows_components (components : list ComponentMetadata) :
  Forall (fun w =>
    sublist (wf_components w) components
    /\ Forall (fun s => sublist (step_actions s) (flat_map userActions components)) (steps w)
    /\ (wf_name w <> "Authentication" -> wf_components w <> []))
    (detectWorkflows components).
Proof.
  unfold detectWorkflows.
  repeat apply Forall_app_2.
  - destruct (hasAuthenticationFlow _ _); constructor; [|constructor].
    split; [apply filter_sublist|]. split; [|done].
    repeat constructor; apply filter_sublist.
  - destruct (hasSearchFlow _ _) eqn:H; constructor; [|constructor].
    split; [apply filter_sublist|]. split; [repeat constructor; apply filter_sublist|].
    intros _. apply andb_true_iff in H as [H _]. revert H. by apply filter_exists.
  - destruct (hasFormSubmissionFlow _ _) eqn:H; constructor; [|constructor].
    split; [apply filter_sublist|]. split; [repeat constructor; apply filter_sublist|].
    intros _. apply andb_true_iff in H as [H _]. revert H. apply filter_exists.
    intros x. by rewrite orb_comm.
  - destruct (hasCRUDFlow _ _) eqn:H; constructor; [|constructor].
    split; [apply filter_sublist|]. split; [repeat constructor; apply filter_sublist|].
    intros _. apply andb_true_iff in H as [H _]. revert H. by apply filter_exists.
  - destruct (hasCheckoutFlow _ _) eqn:H; constructor; [|constructor].
    split; [apply filter_sublist|]. split; [repeat constructor; apply filter_sublist|].
    intros _. apply andb_true_iff in H as [H _]. revert H. apply filter_exists.
    intros x Hx. rewrite Hx. done.
Qed.

(** The Authentication workflow can come without a component: the test
    accepts a name with "register", the selection asks for "auth". *)
Example authentication_without_components :
  map (fun w => (wf_name w, wf_components w))
    (detectWorkflows
       [ {| name := "RegisterPage"; filePath := "src/RegisterPage.jsx"; props := [];
            userActions := [ createClickAction "onClickCreateAccount" "RegisterPage" ];
            semanticCategory := LAYOUT; description := "" |} ])
  = [("Authentication", [])].
Proof. vm_compute. reflexivity. Qed.

(** ** Descriptions and keywords *)

Lemma lookupTruthy_nonempty record key d : lookupTruthy record key = Some d -> d <> "".
Proof.
  induction record as [|[k v] rest IH]; simpl; [done|].
  destruct (String.eqb k key); [|done].
  destruct (String.eqb v "") eqn:Hv; [done|].
  intros [= <-]. by apply String.eqb_neq.
Qed.

Lemma spaceLowerUpper_cons a b r :
  spaceLowerUpper (String a (String b r))
  = if isLower a && isUpper b
    then String a (String " " (spaceLowerUpper (String b r)))
    else String a (spaceLowerUpper (String b r)).
Proof. reflexivity. Qed.

Lemma spaceUpperUpperLower_cons a b c r :
  spaceUpperUpperLower (String a (String b (String c r)))
  = if isUpper a && isUpper b && isLower c
    then String a (String " " (String b (String c (spaceUpperUpperLower r))))
    else String a (spaceUpperUpperLower (String b (String c r))).
Proof. reflexivity. Qed.

Lemma spaceLowerUpper_head c r : exists r', spaceLowerUpper (String c r) = String c r'.
Proof.
  destruct r as [|b r]; [by eexists|]. rewrite spaceLowerUpper_cons.
  destruct (_ && _); by eexists.
Qed.

Lemma spaceUpperUpperLower_head c r : exists r', spaceUpperUpperLower (String c r) = String c r'.
Proof.
  destruct r as [|b [|d r]]; [by eexists..|]. rewrite spaceUpperUpperLower_cons.
  destruct (_ && _); by eexists.
Qed.

Lemma withoutSpaces_cons c s :
  withoutSpaces (String c s)
  = if Ascii.eqb c " " then withoutSpaces s else String c (withoutSpaces s).
Proof. reflexivity. Qed.

Lemma withoutSpaces_space s : withoutSpaces (String " " s) = withoutSpaces s.
Proof. reflexivity. Qed.

Lemma withoutSpaces_spaceLowerUpper s : withoutSpaces (spaceLowerUpper s) = withoutSpaces s.
Proof.
  induction s as [|a s IH]; [done|].
  destruct s as [|b r]; [done|]. rewrite spaceLowerUpper_cons.
  destruct (isLower a && isUpper b).
  - by rewrite !(withoutSpaces_cons a), withoutSpaces_space, IH.
  - rewrite !(withoutSpaces_cons a). by rewrite IH.
Qed.

Lemma withoutSpaces_spaceUpperUpperLower s :
  withoutSpaces (spaceUpperUpperLower s) = withoutSpaces s.
Proof.
  assert (H : forall n s, (String.length s <= n)%nat ->
                withoutSpaces (spaceUpperUpperLower s) = withoutSpaces s).
  { clear s. induction n as [|n IH]; intros s Hlen.
    - destruct s; [done | simpl in Hlen; lia].
    - destruct s as [|a [|b [|c r]]]; [done..|]. rewrite spaceUpperUpperLower_cons.
      simpl in Hlen.
      destruct (isUpper a && isUpper b && isLower c).
      + rewrite !(withoutSpaces_cons a), withoutSpaces_space, !(withoutSpaces_cons b),
          !(withoutSpaces_cons c). by rewrite (IH r) by lia.
      + rewrite !(withoutSpaces_cons a). rewrite (IH (String b (String c r))); [done|].
        simpl. lia. }
  by apply (H (String.length s)).
Qed.

Lemma withoutSpaces_toLowerCase s : withoutSpaces (toLowerCase s) = toLowerCase (withoutSpaces s).
Proof.
  induction s as [|c s IH]; [done|].
  change (toLowerCase (String c s)) with (String (lowerAscii c) (toLowerCase s)).
  rewrite !withoutSpaces_cons, lowerAscii_space, IH.
  by destruct (Ascii.eqb c " ").
Qed.

(** X8. Turning a name into words only inserts spaces: without its spaces,
    the words of the fallback description are the name with its first
    letter in upper case, and the words of a trigger are the name in lower
    case. *)
Theorem humanize_keeps_letters (s : string) :
  withoutSpaces (humanize s) = withoutSpaces (capitalizeFirst s)
  /\ withoutSpaces (formatTriggerName s) = withoutSpaces (toLowerCase s).
Proof.
  split.
  - unfold humanize.
    pose proof (withoutSpaces_spaceUpperUpperLower (spaceLowerUpper s)) as H.
    rewrite withoutSpaces_spaceLowerUpper in H.
    destruct s as [|c r]; [done|].
    destruct (spaceLowerUpper_head c r) as [r1 H1]. rewrite H1 in *.
    destruct (spaceUpperUpperLower_head c r1) as [r2 H2]. rewrite H2 in *.
    cbn [capitalizeFirst]. rewrite !withoutSpaces_cons in *. rewrite upperAscii_space.
    destruct (Ascii.eqb c " "); [done|]. by injection H as ->.
  - unfold formatTriggerName.
    by rewrite !withoutSpaces_toLowerCase, withoutSpaces_spaceUpperUpperLower,
      withoutSpaces_spaceLowerUpper.
Qed.

Lemma humanize_nonempty s : s <> "" -> humanize s <> "".
Proof.
  destruct s as [|c r]; [done|]. intros _. unfold humanize.
  destruct (spaceLowerUpper_head c r) as [r1 ->].
  destruct (spaceUpperUpperLower_head c r1) as [r2 ->]. done.
Qed.

Lemma semanticMappings_nonempty pattern d : In (pattern, d) semanticMappings -> d <> "".
Proof.
  intros Hin.
  assert (H : forallb (fun e => negb (String.eqb (snd e) "")) semanticMappings = true)
    by reflexivity.
  rewrite forallb_forall in H. specialize (H _ Hin). simpl in H.
  apply negb_true_iff in H. by apply String.eqb_neq.
Qed.

(** X7. A component with a non-empty name that is not the name of a member
    of [Object.prototype] gets a non-empty description, whatever the custom
    mappings hold. *)
Theorem generateDescription_nonempty (customMappings : list (string * string))
    (componentName : string) (props : list PropDefinition) (ctx : NlpComponentContext) :
  componentName <> "" ->
  ~ In componentName objectPrototypeKeys ->
  generateDescription customMappings componentName props ctx <> "".
Proof.
  intros Hname _. unfold generateDescription.
  destruct (lookupTruthy customMappings componentName) as [d|] eqn:Hc.
  { by eapply lookupTruthy_nonempty. }
  destruct (lookupTruthy semanticMappings componentName) as [d|] eqn:Hs.
  { by eapply lookupTruthy_nonempty. }
  destruct (List.find _ semanticMappings) as [[pattern d]|] eqn:Hf.
  { apply find_some in Hf as [Hin _]. by eapply semanticMappings_nonempty. }
  by apply humanize_nonempty.
Qed.

(** X7, with a custom mapping that holds the empty string for the name. *)
Lemma generateDescription_nonempty_witness :
  generateDescription [("UserCard", "")] "UserCard" [] (Disk.noContext "" [] []) <> "".
Proof.
  apply (generateDescription_nonempty [("UserCard", "")] "UserCard" []
           (Disk.noContext "" [] [])).
  - discriminate.
  - simpl. intuition discriminate.
Defined.

Lemma nameWords_shape s w :
  In w (nameWords s) -> toLowerCase w = w /\ includes w " " = false.
Proof.
  unfold nameWords. intros Hw. split.
  - apply mapString_fixed. intros c Hc.
    destruct (split_chars _ _ _ _ Hw Hc) as [Hc' _].
    apply chars_mapString in Hc' as [c' ->]. apply lowerAscii_idem.
  - apply includes_char. intros Hc.
    by destruct (split_chars _ _ _ _ Hw Hc) as [_ Hsep].
Qed.

Lemma setAdd_In set x y : In y (setAdd set x) <-> In y set \/ y = x.
Proof.
  unfold setAdd. destruct (arrayIncludes set x) eqn:Hx.
  - apply arrayIncludes_In in Hx. split; [by left | by intros [? | ->]].
  - rewrite in_app_iff. simpl. split; [intros [? | [<- | []]] | intros [? | ->]]; auto.
Qed.

Lemma setAdd_NoDup set x : List.NoDup set -> List.NoDup (setAdd set x).
Proof.
  unfold setAdd. destruct (arrayIncludes set x) eqn:Hx; [done|]. intros Hnd.
  apply NoDup_ListNoDup, NoDup_app. split; [by apply NoDup_ListNoDup|]. split.
  - intros y Hy Hyx. apply list_elem_of_In in Hy. apply list_elem_of_In in Hyx.
    destruct Hyx as [<- | []]. apply arrayIncludes_In in Hy. congruence.
  - apply NoDup_singleton.
Qed.

(** Adding the words of a name that pass a test to a set of keywords. *)
Lemma add_words (cond : string -> bool) s : forall ks,
  (forall w, cond w = true -> (2 < String.length w)%nat) ->
  let ks' := foldl (fun keywords word => if cond word then setAdd keywords word else keywords)
               ks (nameWords s) in
  (List.NoDup ks -> List.NoDup ks')
  /\ (Forall keywordLike ks -> Forall keywordLike ks')
  /\ (forall w, In w ks -> In w ks')
  /\ (forall w, In w (nameWords s) -> cond w = true -> In w ks').
Proof.
  intros ks Hcond. revert ks.
  pose proof (nameWords_shape s) as Hshape.
  induction (nameWords s) as [|x l IH]; intros ks; simpl.
  { done. }
  destruct (IH (fun w Hw => Hshape w (or_intror Hw))
              (if cond x then setAdd ks x else ks))
    as (Hnd & Hall & Hmono & Hin).
  split; [|split; [|split]].
  - intros H. apply Hnd. destruct (cond x); [by apply setAdd_NoDup | done].
  - intros H. apply Hall. destruct (cond x) eqn:Hc; [|done].
    apply List.Forall_forall. intros y Hy. apply setAdd_In in Hy as [Hy | ->].
    + rewrite List.Forall_forall in H. by apply H.
    + split; [by apply Hcond|]. apply Hshape. by left.
  - intros w Hw. apply Hmono. destruct (cond x); [|done]. apply setAdd_In. by left.
  - intros w [<- | Hw] Hc.
    + apply Hmono. rewrite Hc. apply setAdd_In. by right.
    + by apply Hin.
Qed.

Lemma add_props (cond : string -> bool) props : forall ks,
  (forall w, cond w = true -> (2 < String.length w)%nat) ->
  let ks' :=
    foldl (fun keywords prop =>
             foldl (fun keywords word => if cond word then setAdd keywords word else keywords)
               keywords (nameWords (prop_name prop))) ks props in
  (List.NoDup ks -> List.NoDup ks')
  /\ (Forall keywordLike ks -> Forall keywordLike ks')
  /\ (forall w, In w ks -> In w ks')
  /\ (forall p w, In p props -> In w (nameWords (prop_name p)) -> cond w = true -> In w ks').
Proof.
  intros ks Hcond. revert ks.
  induction props as [|p ps IH]; intros ks; cbn [foldl].
  { repeat split; done. }
  destruct (add_words cond (prop_name p) ks Hcond) as (Hnd1 & Hall1 & Hmono1 & Hin1).
  destruct (IH (foldl (fun keywords word => if cond word then setAdd keywords word else keywords)
                  ks (nameWords (prop_name p)))) as (Hnd2 & Hall2 & Hmono2 & Hin2).
  split; [auto|]. split; [auto|]. split; [auto|].
  intros q w [<- | Hq] Hw Hc; [apply Hmono2; by apply Hin1 | by eapply Hin2].
Qed.

(** X9. The keywords of a component are distinct, longer than two
    characters, in lower case and without spaces; they hold every such
    word of the component name, and every such word of a prop name that
    is none of the, and, for, with. *)
Theorem extractKeywords_spec (componentName : string) (props : list PropDefinition)
    (ctx : NlpComponentContext) :
  let keywords := extractKeywords componentName props ctx in
  List.NoDup keywords
  /\ Forall (fun k => (2 < String.length k)%nat /\ toLowerCase k = k /\ includes k " " = false)
       keywords
  /\ (forall w, In w (nameWords componentName) -> (2 < String.length w)%nat -> In w keywords)
  /\ (forall p w, In p props -> In w (nameWords (prop_name p)) -> (2 < String.length w)%nat ->
        ~ In w ["the"; "and"; "for"; "with"] -> In w keywords).
Proof.
  unfold extractKeywords.
  destruct (add_words (fun w => (2 <? String.length w)%nat) componentName []
              (fun w => proj1 (Nat.ltb_lt 2 (String.length w))))
    as (Hnd1 & Hall1 & _ & Hin1).
  assert (Hlong : forall w,
            (2 <? String.length w)%nat
            && negb (arrayIncludes ["the"; "and"; "for"; "with"] w) = true ->
            (2 < String.length w)%nat).
  { intros w Hw. apply andb_true_iff in Hw as [Hw _]. by apply Nat.ltb_lt. }
  destruct (add_props _ props
              (foldl (fun keywords word =>
                        if (2 <? String.length word)%nat then setAdd keywords word else keywords)
                 [] (nameWords componentName)) Hlong)
    as (Hnd2 & Hall2 & Hmono2 & Hin2).
  split; [apply Hnd2, Hnd1; constructor|].
  split; [by apply Hall2, Hall1|].
  split.
  - intros w Hw Hlen. apply Hmono2, Hin1; [done | by apply Nat.ltb_lt].
  - intros p w Hp Hw Hlen Hstop. apply (Hin2 p w Hp Hw).
    apply andb_true_iff. split; [by apply Nat.ltb_lt|].
    apply negb_true_iff. destruct (arrayIncludes _ w) eqn:Hs; [|done].
    by apply arrayIncludes_In in Hs.
Qed.

(** The stop words are dropped from the prop names only. *)
Example extractKeywords_values :
  extractKeywords "UserProfileForAdmin"
    [ {| prop_name := "onSaveForUser"; prop_type := "any"; prop_required := false |};
      {| prop_name := "userId"; prop_type := "any"; prop_required := false |} ]
    (Disk.noContext "" [] [])
  = ["user"; "profile"; "for"; "admin"; "save"].
Proof. reflexivity. Qed.

(** ** The React analyzer: names, actions, declared props *)

Lemma nameVisitor_exportedName componentName n :
  nameVisitor componentName n = default componentName (exportedName n).
Proof.
  destruct n as [| | | | | | | | | |d|[d|]| | | | |]; try reflexivity.
  - destruct d as [| | | | | | |[x|]|[x|]| | | | | | | |]; reflexivity.
  - destruct d as [| | | | | | |[x|]|[x|]| | | | | | | |]; reflexivity.
Qed.

Lemma foldl_nameVisitor nodes : forall init,
  foldl nameVisitor init nodes = default init (last (omap exportedName nodes)).
Proof.
  induction nodes as [|n nodes IH]; intros init; [done|].
  destruct (exportedName n) as [x|] eqn:Hn; simpl; rewrite Hn;
    rewrite nameVisitor_exportedName, Hn, IH; simpl; [|done].
  change (list_omap Node string exportedName nodes) with (omap exportedName nodes).
  destruct (omap exportedName nodes) as [|y ys]; [done|].
  change (last (x :: y :: ys)) with (last (y :: ys)).
  destruct (last (y :: ys)) eqn:Hl; [done|]. by apply last_None in Hl.
Qed.

(** X10. The component name is the name of the last export declaration
    the traversal enters that carries one (a default export of an
    identifier, or a default or named export of a named function or
    class); without such a declaration it is derived from the file name. *)
Theorem extractComponentName_last_export (filePath : string) (ast : File) :
  extractComponentName filePath ast =
  match last (omap exportedName (flat_map preorder ast)) with
  | Some x => if String.eqb x "" then nameFromFile filePath else x
  | None => nameFromFile filePath
  end.
Proof.
  unfold extractComponentName, traverse. rewrite foldl_nameVisitor.
  by destruct (last _).
Qed.

Lemma propActions_cases componentName prop a :
  In a (propActions componentName prop) ->
  startsWith (prop_name prop) "on" = true
  /\ match action_type a with
     | click => toLowerCase (drop 2 (prop_name prop)) = "click"
     | submit => toLowerCase (drop 2 (prop_name prop)) = "submit"
     | input => toLowerCase (drop 2 (prop_name prop)) = "change"
                \/ toLowerCase (drop 2 (prop_name prop)) = "input"
     | navigation => False
     end.
Proof.
  unfold propActions.
  destruct (startsWith (prop_name prop) "on") eqn:Hon; [|done]. simpl.
  destruct (2 <? _)%nat; [|done].
  destruct (String.eqb _ "click") eqn:Hc.
  { intros [<- | []]. split; [done|]. simpl. by apply String.eqb_eq. }
  destruct (String.eqb _ "submit") eqn:Hs.
  { intros [<- | []]. split; [done|]. simpl. by apply String.eqb_eq. }
  destruct (String.eqb _ "change") eqn:Hch.
  { intros [<- | []]. split; [done|]. simpl. left. by apply String.eqb_eq. }
  destruct (String.eqb _ "input") eqn:Hi; [|done].
  intros [<- | []]. split; [done|]. simpl. right. by apply String.eqb_eq.
Qed.

Lemma propActions_length componentName prop :
  (length (propActions componentName prop) <= 1)%nat.
Proof.
  unfold propActions. repeat (case_match; simpl; try lia).
Qed.

(** X11. The actions of a component are the actions of its props, none of
    which is a navigation action, followed by the navigation action when
    the name contains link or nav or a prop is named to or href: the
    navigation action comes last and at most once.  There is at most one
    action per prop, and each is a click, submit or input action of a prop
    whose name is on followed by click, submit, change or input, in any
    letter case. *)
Theorem extractUserActions_shape (component : ComponentMetadata) :
  let navigates :=
    includes (toLowerCase (name component)) "link"
    || includes (toLowerCase (name component)) "nav"
    || existsb (fun p => String.eqb (prop_name p) "to" || String.eqb (prop_name p) "href")
         (props component) in
  (exists handlers,
     extractUserActions component
     = handlers ++ (if navigates then [createNavigationAction (name component)] else [])
     /\ (length handlers <= length (props component))%nat
     /\ Forall (fun a => action_type a <> navigation) handlers)
  /\ (length (extractUserActions component) <= S (length (props component)))%nat
  /\ List.filter (fun a => isType a navigation) (extractUserActions component)
     = (if navigates then [createNavigationAction (name component)] else [])
  /\ Forall (fun a =>
       action_type a = navigation
       \/ exists prop, In prop (props component)
            /\ startsWith (prop_name prop) "on" = true
            /\ match action_type a with
               | click => toLowerCase (drop 2 (prop_name prop)) = "click"
               | submit => toLowerCase (drop 2 (prop_name prop)) = "submit"
               | input => toLowerCase (drop 2 (prop_name prop)) = "change"
                          \/ toLowerCase (drop 2 (prop_name prop)) = "input"
               | navigation => False
               end)
       (extractUserActions component).
Proof.
  intros navigates. unfold extractUserActions. fold navigates.
  split; [|split; [|split]].
  - eexists. split; [reflexivity|]. split.
    + apply flat_map_length_le, propActions_length.
    + apply List.Forall_forall. intros a Ha Hnav.
      apply in_flat_map in Ha as (p & _ & Ha).
      apply propActions_cases in Ha as [_ Ha]. by rewrite Hnav in Ha.
  - rewrite length_app.
    pose proof (flat_map_length_le (propActions (name component)) (props component)
                  (propActions_length (name component))).
    destruct navigates; simpl; lia.
  - rewrite List.filter_app.
    assert (Hnone : List.filter (fun a => isType a navigation)
                      (flat_map (propActions (name component)) (props component)) = []).
    { induction (props component) as [|p ps IH]; [done|]. simpl.
      rewrite List.filter_app, IH, app_nil_r.
      destruct (List.filter _ (propActions (name component) p)) as [|a l] eqn:Hf; [done|].
      assert (Ha : In a (List.filter (fun a => isType a navigation)
                           (propActions (name component) p))) by (rewrite Hf; by left).
      apply filter_In in Ha as [Ha Hnav].
      apply propActions_cases in Ha as [_ Ha].
      unfold isType in Hnav. apply bool_decide_eq_true in Hnav. by rewrite Hnav in Ha. }
    rewrite Hnone. by destruct navigates.
  - apply Forall_app_2.
    + apply List.Forall_forall. intros a Ha. apply in_flat_map in Ha as (p & Hp & Ha).
      right. exists p. split; [done|]. by apply propActions_cases in Ha.
    + destruct navigates; repeat constructor.
Qed.

Lemma recordSet_keys {V} (record : list (string * V)) k v x :
  In x (map fst (recordSet record k v)) <-> In x (map fst record) \/ x = k.
Proof.
  induction record as [|[k' v'] rest IH]; simpl.
  - split; [intros [<- | []]; by right | intros [[] | ->]; by left].
  - destruct (String.eqb k' k) eqn:Hk; simpl.
    + apply String.eqb_eq in Hk as ->. split; [by left | intros [? | ->]; auto].
    + rewrite IH. tauto.
Qed.

Lemma recordSet_NoDup {V} (record : list (string * V)) k v :
  List.NoDup (map fst record) -> List.NoDup (map fst (recordSet record k v)).
Proof.
  induction record as [|[k' v'] rest IH]; simpl; intros Hnd.
  - repeat constructor. by intros [].
  - inversion Hnd as [|? ? Hnotin Hrest]; subst.
    destruct (String.eqb k' k) eqn:Hk; simpl; constructor; try done.
    + rewrite recordSet_keys. intros [? | ->]; [done|]. by rewrite String.eqb_refl in Hk.
    + by apply IH.
Qed.

Lemma objectAssign_ownKeys {V} (record : list (string * V)) k v :
  ownKeys record -> ownKeys (objectAssign record k v).
Proof.
  unfold objectAssign. intros [Hnd Hproto].
  destruct (String.eqb k "__proto__") eqn:Hk; [done|].
  split; [by apply recordSet_NoDup|].
  rewrite recordSet_keys. intros [? | <-]; [done|]. by rewrite String.eqb_refl in Hk.
Qed.

Lemma propTypesVisitor_ownKeys propTypes n :
  ownKeys propTypes -> ownKeys (propTypesVisitor propTypes n).
Proof.
  intros H. unfold propTypesVisitor. repeat case_match; try done.
  apply foldl_invariant; [|done]. clear. intros s prop Hs.
  unfold propTypesEntry. repeat case_match; try done; by apply objectAssign_ownKeys.
Qed.

(** X12. The props read from the propTypes assignments of a file have
    distinct names: a name that is declared again keeps one entry. *)
Theorem propTypes_names_distinct (ast : File) :
  let declared := propTypesProps (traverse ast propTypesVisitor []) in
  List.NoDup (map prop_name declared) /\ ~ In "__proto__" (map prop_name declared).
Proof.
  assert (Hkeys : forall r : list (string * (string * bool)),
            map prop_name (propTypesProps r) = map fst r).
  { intros r. unfold propTypesProps. rewrite map_map. apply map_ext. by intros [n [t q]]. }
  simpl. rewrite Hkeys. unfold traverse.
  apply (foldl_invariant ownKeys); [by intros; apply propTypesVisitor_ownKeys|].
  split; [constructor | by intros []].
Qed.

Lemma upperAscii_separator c :
  isDashOrUnderscore (upperAscii c) = true -> isDashOrUnderscore c = true.
Proof. destruct c as [[] [] [] [] [] [] [] []]; vm_compute; congruence. Qed.

Lemma nameFromFile_chars filePath c :
  In c (chars (nameFromFile filePath)) -> isDashOrUnderscore c = false.
Proof.
  unfold nameFromFile. intros Hc.
  apply chars_join in Hc as (p & Hp & Hc).
  apply in_map_iff in Hp as (w & <- & Hw).
  destruct w as [|a w]; [done|]. simpl in Hc. destruct Hc as [<- | Hc].
  - destruct (isDashOrUnderscore (upperAscii a)) eqn:Hup; [|done].
    apply upperAscii_separator in Hup.
    destruct (split_chars _ _ _ a Hw) as [_ Hsep]; [by left | congruence].
  - by destruct (split_chars _ _ _ c Hw) as [_ Hsep]; [by right|].
Qed.

(** X13. A name derived from the file name holds neither a dash nor an
    underscore. *)
Theorem nameFromFile_no_separators (filePath : string) :
  includes (nameFromFile filePath) "-" = false
  /\ includes (nameFromFile filePath) "_" = false.
Proof.
  split; apply includes_char; intros Hc; by apply nameFromFile_chars in Hc.
Qed.

(** ** The cache manager: writing, reading, removing, listing *)

Section CacheRoundTrips.
Variable md5 : string -> string.

Lemma getCachedComponent_subseteq dir p : (getCachedComponent md5 dir p).2 ⊆ dir.
Proof.
  unfold getCachedComponent, removeCachedComponent.
  repeat case_match; simpl; done || apply delete_subseteq.
Qed.

(** X14. What [cacheComponent] writes for a path is what [getCachedComponent]
    reads for it, and the read leaves the directory alone; a second write
    for the path replaces the first; the files of other keys are not
    touched. *)
Theorem cacheComponent_getCachedComponent (dir : gmap string CacheFile)
    (sourceFilePath hash : string) (metadata : ComponentMetadata) :
  let dir' := cacheComponent md5 dir sourceFilePath hash metadata in
  getCachedComponent md5 dir' sourceFilePath
  = (Some {| sourceFileHash := hash; componentMetadata := metadata |}, dir')
  /\ (forall hash' metadata',
        cacheComponent md5 dir' sourceFilePath hash' metadata'
        = cacheComponent md5 dir sourceFilePath hash' metadata')
  /\ (forall other,
        getCacheFilePath md5 other <> getCacheFilePath md5 sourceFilePath ->
        dir' !! getCacheFilePath md5 other = dir !! getCacheFilePath md5 other).
Proof.
  unfold cacheComponent, getCachedComponent. simpl. split; [|split].
  - by rewrite lookup_insert_eq.
  - intros. by rewrite insert_insert_eq.
  - intros other Hne. by rewrite lookup_insert_ne.
Qed.

(** X15. After [removeCachedComponent] the path has no entry; removing
    again, or removing a path without a cache file, changes nothing; the
    other files stay. *)
Theorem removeCachedComponent_getCachedComponent (dir : gmap string CacheFile)
    (sourceFilePath : string) :
  let dir' := removeCachedComponent md5 dir sourceFilePath in
  getCachedComponent md5 dir' sourceFilePath = (None, dir')
  /\ removeCachedComponent md5 dir' sourceFilePath = dir'
  /\ (dir !! getCacheFilePath md5 sourceFilePath = None -> dir' = dir)
  /\ (forall k, k <> getCacheFilePath md5 sourceFilePath -> dir' !! k = dir !! k).
Proof.
  unfold removeCachedComponent, getCachedComponent. simpl. split; [|split; [|split]].
  - by rewrite lookup_delete_eq.
  - apply delete_id. by rewrite lookup_delete_eq.
  - apply delete_id.
  - intros k Hk. by rewrite lookup_delete_ne.
Qed.

(** X16. [getCachedComponent] never adds a file and touches no file but
    the one of the path; asking again gives the same answer and changes
    nothing more; and writing back what was read leaves the directory as
    it was. *)
Theorem getCachedComponent_stable (dir : gmap string CacheFile) (sourceFilePath : string) :
  let result := getCachedComponent md5 dir sourceFilePath in
  getCachedComponent md5 result.2 sourceFilePath = result
  /\ result.2 ⊆ dir
  /\ (forall k, k <> getCacheFilePath md5 sourceFilePath -> result.2 !! k = dir !! k)
  /\ (forall data, result.1 = Some data ->
        cacheComponent md5 dir sourceFilePath (sourceFileHash data) (componentMetadata data)
        = dir).
Proof.
  unfold getCachedComponent.
  destruct (dir !! getCacheFilePath md5 sourceFilePath) as [[|[h|] [m|]]|] eqn:Hlook; simpl;
    unfold removeCachedComponent;
    rewrite ?Hlook, ?lookup_delete_eq; (split; [done|]);
    (split; [done || apply delete_subseteq|]);
    (split; [intros k Hk; by rewrite ?lookup_delete_ne|]); try done.
  intros data [= <-]. simpl. unfold cacheComponent. by apply insert_id.
Qed.

End CacheRoundTrips.

Lemma fromLastDot_app a ext :
  Path.fromLastDot ext = Some ext -> Path.fromLastDot (a +:+ ext) = Some ext.
Proof.
  intros H. induction a as [|c a IH]; [done|].
  change (String c a +:+ ext) with (String c (a +:+ ext)).
  cbn [Path.fromLastDot]. by rewrite IH.
Qed.

Lemma lastSegment_plain s : ~ In "/"%char (chars s) -> Path.lastSegment s = s.
Proof.
  intros Hs. destruct s as [|x s]; [done|]. cbn [Path.lastSegment].
  rewrite includes_char by (intros H; apply Hs; by right).
  destruct (Path.isSlash x) eqn:Hx; [|done].
  exfalso. apply Hs. left. unfold Path.isSlash in Hx. apply Ascii.eqb_eq in Hx. by subst.
Qed.

Lemma lastSegment_app q s :
  ~ In "/"%char (chars s) -> Path.lastSegment (q +:+ s) = Path.lastSegment q +:+ s.
Proof.
  intros Hs. induction q as [|c q IH].
  - change ("" +:+ s) with s. by apply lastSegment_plain.
  - change (String c q +:+ s) with (String c (q +:+ s)). cbn [Path.lastSegment].
    rewrite (includes_char_app q s "/"%char Hs), IH.
    destruct (includes q "/"); [done|]. by destruct (Path.isSlash c).
Qed.

(** File names that end in a marker followed by an extension. *)
Lemma marked_file q m ext :
  m <> "" -> ~ In "/"%char (chars m) ->
  (2 <= String.length ext)%nat -> ~ In "/"%char (chars ext) ->
  Path.fromLastDot ext = Some ext ->
  Path.extname (q +:+ m +:+ ext) = ext
  /\ Path.basename (q +:+ m +:+ ext) ext = Path.lastSegment q +:+ m.
Proof.
  intros Hm Hmslash Hlen Hextslash Hdot.
  assert (Hseg : Path.lastSegment (q +:+ m +:+ ext) = (Path.lastSegment q +:+ m) +:+ ext).
  { rewrite lastSegment_app, string_app_assoc; [done|].
    rewrite chars_append. tauto. }
  set (t := Path.lastSegment q +:+ m) in *.
  assert (Ht : t <> "").
  { subst t. destruct (Path.lastSegment q); [by destruct m | done]. }
  split.
  - unfold Path.extname. rewrite Hseg.
    destruct t as [|c t']; [done|].
    change (String c t' +:+ ext) with (String c (t' +:+ ext)). cbv iota beta.
    rewrite (fromLastDot_app t' ext Hdot).
    change (String c (t' +:+ ext)) with (String c t' +:+ ext).
    rewrite (fromLastDot_app (String c t') ext Hdot).
    destruct (Path.isDot c); [|done].
    destruct (String.eqb (t' +:+ ext) ".") eqn:Heq; [|done].
    apply String.eqb_eq in Heq. apply (f_equal String.length) in Heq.
    rewrite string_length_app in Heq. simpl in Heq. lia.
  - unfold Path.basename. rewrite Hseg.
    destruct (String.eqb ext "") eqn:He.
    { apply String.eqb_eq in He. subst ext. simpl in Hlen. lia. }
    destruct (String.eqb (q +:+ m +:+ ext) ext) eqn:Hp.
    { apply String.eqb_eq in Hp. apply (f_equal String.length) in Hp.
      rewrite !string_length_app in Hp. destruct m; [done | simpl in Hp; lia]. }
    cbv zeta. rewrite string_length_app.
    replace (String.length t + String.length ext - String.length ext)%nat
      with (String.length t) by lia.
    rewrite drop_app, substring_app, String.eqb_refl, andb_true_r.
    destruct (0 <? String.length t)%nat eqn:Hpos; [done|].
    apply Nat.ltb_ge in Hpos. destruct t; [done | simpl in Hpos; lia].
Qed.

Lemma extname_json h :
  h <> "" -> (forall c, In c (chars h) -> plainChar c = true) ->
  Path.extname (h +:+ ".json") = ".json".
Proof.
  intros Hne Hplain.
  assert (Hslash : forall c, In c (chars h) -> Path.isSlash c = false).
  { intros c Hc. apply Hplain, andb_true_iff in Hc as [Hc _]. by apply negb_true_iff. }
  assert (Hdot : forall c, In c (chars h) -> Path.isDot c = false).
  { intros c Hc. apply Hplain, andb_true_iff in Hc as [_ Hc]. by apply negb_true_iff. }
  destruct h as [|a h]; [done|].
  unfold Path.extname.
  rewrite lastSegment_plain.
  - change (String a h +:+ ".json") with (String a (h +:+ ".json")). cbv iota beta.
    rewrite (Hdot a) by (by left).
    change (String a (h +:+ ".json")) with (String a h +:+ ".json").
    by rewrite fromLastDot_app.
  - rewrite chars_append. intros [Hc | Hc].
    + by specialize (Hslash "/"%char Hc).
    + simpl in Hc. intuition congruence.
Qed.

Lemma leBytes_range n : forall x, Forall (fun b => 0 <= b < 256)%Z (Md5.leBytes n x).
Proof.
  induction n as [|n IH]; intros x; simpl; constructor; [|apply IH].
  change 255%Z with (Z.ones 8). rewrite Z.land_ones by lia.
  apply Z.mod_pos_bound. lia.
Qed.

Lemma hexByte_plain b c :
  (0 <= b < 256)%Z -> In c (chars (Md5.hexByte b)) -> plainChar c = true.
Proof.
  intros Hb.
  assert (Hall : forallb (fun n => forallb plainChar (chars (Md5.hexByte (Z.of_nat n))))
                   (seq 0 256) = true) by (vm_compute; reflexivity).
  rewrite forallb_forall in Hall. specialize (Hall (Z.to_nat b)).
  rewrite Z2Nat.id in Hall by lia. rewrite forallb_forall in Hall.
  apply Hall. apply in_seq. lia.
Qed.

Transparent Md5.md5.

(** A digest is not empty and holds neither a slash nor a dot. *)
Lemma md5_plain s :
  Md5.md5 s <> "" /\ forall c, In c (chars (Md5.md5 s)) -> plainChar c = true.
Proof.
  unfold Md5.md5.
  destruct (foldl Md5.processBlock _ _) as [[[a b] c] d].
  pose proof (Forall_app_2 _ _ _ (leBytes_range 4 a)
                (Forall_app_2 _ _ _ (leBytes_range 4 b)
                   (Forall_app_2 _ _ _ (leBytes_range 4 c) (leBytes_range 4 d)))) as Hrange.
  split.
  - change (Md5.leBytes 4 a) with (Z.land a 255 :: Md5.leBytes 3 (Z.shiftr a 8)). done.
  - intros x Hx. apply chars_join in Hx as (p & Hp & Hx).
    apply in_map_iff in Hp as (byte & <- & Hbyte).
    rewrite List.Forall_forall in Hrange. by eapply hexByte_plain; [apply Hrange|].
Qed.

Opaque Md5.md5.

(** X17. With the MD5 digest, the cache file of every path has the
    extension .json, so that a component that was just cached is among the
    paths [getAllCachedFilePaths] lists. *)
Theorem cached_component_is_listed (dir : gmap string CacheFile)
    (sourceFilePath hash : string) (metadata : ComponentMetadata) :
  Path.extname (getCacheFilePath Md5.md5 sourceFilePath) = ".json"
  /\ In (filePath metadata)
       (getAllCachedFilePaths (cacheComponent Md5.md5 dir sourceFilePath hash metadata)).
Proof.
  assert (Hext : Path.extname (getCacheFilePath Md5.md5 sourceFilePath) = ".json").
  { destruct (md5_plain sourceFilePath) as [Hne Hplain]. by apply extname_json. }
  split; [done|].
  apply getAllCachedFilePaths_In.
  exists (getCacheFilePath Md5.md5 sourceFilePath), (Some hash), metadata.
  split; [|done]. unfold cacheComponent. by rewrite lookup_insert_eq.
Qed.

(** ** The analyze command: what a run reports and writes *)

Section RunFacts.
Variable md5 : string -> string.
Variable projectRoot : string.
Variable analyzer : string -> string -> option ComponentMetadata.
Variable src : gmap string string.

Local Abbreviation rel := (Path.relative projectRoot).
Local Abbreviation step := (processFile md5 projectRoot analyzer src).

Ltac step_cases st abs :=
  unfold processFile;
  destruct (src !! abs) as [content|] eqn:Hsrc; simpl;
  [ destruct (getCachedComponent md5 (cache st) (rel abs)) as [[data|] dir] eqn:Hget;
    [ destruct (String.eqb (sourceFileHash data) (md5 content)) eqn:Hhash;
      [ | destruct (analyzer abs content) as [parsedMetadata|] eqn:Han ]
    | destruct (analyzer abs content) as [parsedMetadata|] eqn:Han ]; simpl
  | ].

(** A visit adds at most one component, with a relative filePath. *)
Lemma step_components st abs :
  exists added,
    components (step st abs) = components st ++ added
    /\ (length added <= 1)%nat
    /\ Forall (fun m => Path.isAbsolute (filePath m) = false) added.
Proof.
  step_cases st abs;
    try (exists []; rewrite app_nil_r; split; [done|]; split; [simpl; lia | done]);
    (eexists; split; [done|]; split; [simpl; lia|]; constructor; [|done]);
    try apply relative_not_absolute.
  rewrite normalizeFilePath_filePath.
  destruct (Path.isAbsolute (filePath (componentMetadata data))) eqn:Habs;
    [apply relative_not_absolute | exact Habs].
Qed.

Lemma loop_components files : forall st,
  exists added,
    components (foldl step st files) = components st ++ added
    /\ (length added <= length files)%nat
    /\ Forall (fun m => Path.isAbsolute (filePath m) = false) added.
Proof.
  induction files as [|f files IH]; intros st; simpl.
  { exists []. by rewrite app_nil_r. }
  destruct (IH (step st f)) as (l2 & -> & Hlen2 & Hrel2).
  destruct (step_components st f) as (l1 & -> & Hlen1 & Hrel1).
  exists (l1 ++ l2). rewrite app_assoc. split; [done|].
  split; [rewrite length_app; lia | by apply Forall_app_2].
Qed.

(** A path is listed as changed or new only when the analyzer was called
    on its file and returned metadata. *)
Lemma step_changedOrNew st abs p :
  In p (changedOrNewRelativeFilePaths (step st abs)) ->
  In p (changedOrNewRelativeFilePaths st)
  \/ (p = rel abs
      /\ exists content m, src !! abs = Some content /\ analyzer abs content = Some m).
Proof.
  step_cases st abs; try (by left);
    rewrite in_app_iff; (intros [H | [<- | []]]; [by left | right; eauto]).
Qed.

Lemma loop_changedOrNew files : forall st p,
  In p (changedOrNewRelativeFilePaths (foldl step st files)) ->
  In p (changedOrNewRelativeFilePaths st)
  \/ exists f content m,
       In f files /\ p = rel f /\ src !! f = Some content /\ analyzer f content = Some m.
Proof.
  induction files as [|f files IH]; intros st p Hp; [by left|].
  simpl in Hp. apply IH in Hp as [Hp | (g & content & m & Hg & Hrest)].
  - apply step_changedOrNew in Hp as [Hp | (-> & content & m & Hc & Hm)]; [by left|].
    right. exists f, content, m. split; [by left | done].
  - right. exists g, content, m. split; [by right | done].
Qed.

(** With a cache whose entries all stem from this run, every component and
    every cache entry carries a path that is listed as changed or new. *)
Lemma step_fresh st abs :
  (forall k h m, cache st !! k = Some (JsonData h (Some m)) ->
     In (filePath m) (changedOrNewRelativeFilePaths st)
     /\ Path.isAbsolute (filePath m) = false) ->
  Forall (fun m => In (filePath m) (changedOrNewRelativeFilePaths st)) (components st) ->
  (forall k h m, cache (step st abs) !! k = Some (JsonData h (Some m)) ->
     In (filePath m) (changedOrNewRelativeFilePaths (step st abs))
     /\ Path.isAbsolute (filePath m) = false)
  /\ Forall (fun m => In (filePath m) (changedOrNewRelativeFilePaths (step st abs)))
       (components (step st abs)).
Proof.
  intros Hcache Hcomps.
  pose proof (getCachedComponent_subseteq md5 (cache st) (rel abs)) as Hsub.
  assert (Hgrow : forall extra,
            Forall (fun m => In (filePath m) (changedOrNewRelativeFilePaths st ++ extra))
              (components st)).
  { intros extra. eapply List.Forall_impl; [|exact Hcomps]. simpl. intros m Hm.
    apply in_or_app. by left. }
  assert (Hold : forall dir k h m,
            dir ⊆ cache st -> dir !! k = Some (JsonData h (Some m)) ->
            In (filePath m) (changedOrNewRelativeFilePaths st)
            /\ Path.isAbsolute (filePath m) = false).
  { intros dir k h m Hdir Hlook. apply (Hcache k h m).
    by eapply lookup_weaken. }
  step_cases st abs; try (rewrite Hget in Hsub; cbn [snd] in Hsub).
  - (* hit *)
    split; [intros k h m Hl; exact (Hold dir k h m Hsub Hl)|].
    apply Forall_app_2; [done|]. constructor; [|done].
    pose proof (f_equal fst Hget) as Hdata. simpl in Hdata.
    apply getCachedComponent_Some in Hdata as [_ Hlook].
    destruct (Hcache _ _ _ Hlook) as [Hin Hrel].
    unfold normalizeFilePath. by rewrite Hrel.
  - (* stale, extracted *)
    split.
    + intros k h m. unfold cacheComponent. rewrite lookup_insert_Some.
      intros [[_ [= _ <-]] | [_ Hlook]]; simpl.
      * split; [apply in_or_app; right; by left | apply relative_not_absolute].
      * destruct (Hold dir k h m Hsub Hlook). split; [apply in_or_app; by left | done].
    + apply Forall_app_2; [apply Hgrow|]. constructor; [|done]. simpl.
      apply in_or_app. right. by left.
  - split; [intros k h m Hl; exact (Hold dir k h m Hsub Hl) | done].
  - (* miss, extracted *)
    split.
    + intros k h m. unfold cacheComponent. rewrite lookup_insert_Some.
      intros [[_ [= _ <-]] | [_ Hlook]]; simpl.
      * split; [apply in_or_app; right; by left | apply relative_not_absolute].
      * destruct (Hold dir k h m Hsub Hlook). split; [apply in_or_app; by left | done].
    + apply Forall_app_2; [apply Hgrow|]. constructor; [|done]. simpl.
      apply in_or_app. right. by left.
  - split; [intros k h m Hl; exact (Hold dir k h m Hsub Hl) | done].
  - done.
Qed.

Lemma loop_fresh files : forall st,
  (forall k h m, cache st !! k = Some (JsonData h (Some m)) ->
     In (filePath m) (changedOrNewRelativeFilePaths st)
     /\ Path.isAbsolute (filePath m) = false) ->
  Forall (fun m => In (filePath m) (changedOrNewRelativeFilePaths st)) (components st) ->
  Forall (fun m => In (filePath m) (changedOrNewRelativeFilePaths (foldl step st files)))
    (components (foldl step st files)).
Proof.
  induction files as [|f files IH]; intros st Hcache Hcomps; [done|].
  simpl. destruct (step_fresh st f Hcache Hcomps). by apply IH.
Qed.

End RunFacts.

Section RunTheorems.
Variable md5 : string -> string.
Variable projectRoot : string.
Variable analyzer : string -> string -> option ComponentMetadata.
Variable stringifyComponents : list ComponentMetadata -> string.
Variable stringifyPatterns : list PatternMatcher.DetectedPattern -> string.
Variable stringifyWorkflows : list PatternMatcher.Workflow -> string.

Local Abbreviation rel := (Path.relative projectRoot).
Local Abbreviation run :=
  (analyze md5 projectRoot analyzer stringifyComponents stringifyPatterns stringifyWorkflows).
Local Abbreviation phase := (cachePhase md5 projectRoot analyzer).

Lemma cachePhase_unfold files fs :
  let st := foldl (processFile md5 projectRoot analyzer (sources fs))
              {| cache := metadataCacheDir fs; components := [];
                 processedRelativeFilePaths := []; changedOrNewRelativeFilePaths := [];
                 parsed := [] |} files in
  let cached := getAllCachedFilePaths (metadataCacheDir fs) in
  finalCache (phase files fs)
  = foldl (removeCachedComponent md5) (cache st) (vanished (map rel files) cached)
  /\ allComponents (phase files fs) = components st
  /\ newPaths (phase files fs)
     = List.filter (fun p => negb (arrayIncludes cached p)) (changedOrNewRelativeFilePaths st)
  /\ changedPaths (phase files fs)
     = List.filter (arrayIncludes cached) (changedOrNewRelativeFilePaths st)
  /\ deletedPaths (phase files fs) = vanished (map rel files) cached.
Proof.
  simpl. unfold cachePhase. rewrite handleDeleted_fold, loop_processed. done.
Qed.

(** What a completed run leaves in the three artifacts. *)
Lemma analyze_written files fs fs' cs :
  run files fs = (fs', Some cs) ->
  componentsJson fs'
  = (if componentsJsonChanged cs then Json (allComponents (phase files fs))
     else componentsJson fs)
  /\ patternsJson fs'
     = (if patternsJsonChanged cs then Json (detectPatterns (allComponents (phase files fs)))
        else patternsJson fs)
  /\ workflowsJson fs'
     = (if workflowsJsonChanged cs then Json (detectWorkflows (allComponents (phase files fs)))
        else workflowsJson fs).
Proof.
  unfold analyze, updateArtifact.
  destruct (componentsJson fs) eqn:Hc, (patternsJson fs) eqn:Hp, (workflowsJson fs) eqn:Hw;
    simpl; try discriminate;
    repeat match goal with
    | |- context [negb ?b] => destruct b; simpl
    end;
    intros [= <- <-]; simpl; by rewrite ?Hc, ?Hp, ?Hw.
Qed.

(** X18. A run keeps the cache well keyed: when every cache file that holds
    metadata is named by the key of the filePath it stores, the same holds
    after the run. *)
Theorem analyze_keeps_cache_well_keyed (files : list string) (fs : FileSystem) :
  wellKeyed md5 (metadataCacheDir fs) ->
  wellKeyed md5 (metadataCacheDir (run files fs).1).
Proof.
  intros Hkeyed k e Hlook.
  destruct (analyze_cache md5 projectRoot analyzer stringifyComponents stringifyPatterns
              stringifyWorkflows files fs) as [Hcache _].
  rewrite Hcache in Hlook.
  destruct (cachePhase_unfold files fs) as (Hfinal & _). rewrite Hfinal in Hlook.
  apply remove_all_subset, loop_provenance in Hlook
    as [Hold | (f & h & m & Hf & -> & ->)].
  - by apply (Hkeyed k e).
  - simpl. destruct (String.eqb (Path.extname _) ".json"); [|done]. apply String.eqb_refl.
Qed.

(** X20. In the changeset of a completed run, a new or changed path is the
    relative path of a scanned file on which the analyzer was called and
    returned metadata; it was listed in the cache before the run when it
    is changed, and was not when it is new; a deleted path was listed in
    the cache, was not scanned, and is neither new nor changed. *)
Theorem analyze_changeset_lists (files : list string) (fs fs' : FileSystem) (cs : Changeset) :
  run files fs = (fs', Some cs) ->
  let cachedBefore := getAllCachedFilePaths (metadataCacheDir fs) in
  let reanalysed p :=
    exists f content m,
      In f files /\ p = rel f /\ sources fs !! f = Some content
      /\ analyzer f content = Some m in
  (forall p, In p (newComponents cs) -> reanalysed p /\ ~ In p cachedBefore)
  /\ (forall p, In p (changedComponents cs) -> reanalysed p /\ In p cachedBefore)
  /\ (forall p, In p (deletedComponents cs) ->
        In p cachedBefore /\ ~ In p (map rel files)
        /\ ~ In p (newComponents cs) /\ ~ In p (changedComponents cs)).
Proof.
  intros Hrun cachedBefore reanalysed.
  assert (Hcs : (run files fs).2 = Some cs) by (by rewrite Hrun).
  apply analyze_changeset in Hcs as (Hnew & Hchanged & Hdeleted).
  destruct (cachePhase_unfold files fs) as (_ & _ & Hn & Hc & Hd).
  rewrite Hn in Hnew. rewrite Hc in Hchanged. rewrite Hd in Hdeleted.
  fold cachedBefore in Hnew, Hchanged, Hdeleted.
  assert (Hre : forall p,
            In p (changedOrNewRelativeFilePaths
                    (foldl (processFile md5 projectRoot analyzer (sources fs))
                       {| cache := metadataCacheDir fs; components := [];
                          processedRelativeFilePaths := [];
                          changedOrNewRelativeFilePaths := []; parsed := [] |} files)) ->
            reanalysed p).
  { intros p Hp. by apply loop_changedOrNew in Hp as [[] | Hp]. }
  assert (Hscanned : forall p, reanalysed p -> In p (map rel files)).
  { intros p (f & _ & _ & Hf & -> & _). by apply in_map. }
  split; [|split].
  - intros p Hp. rewrite Hnew in Hp. apply filter_In in Hp as [Hp Hnot].
    split; [by apply Hre|]. intros Hin. apply arrayIncludes_In in Hin.
    by rewrite Hin in Hnot.
  - intros p Hp. rewrite Hchanged in Hp. apply filter_In in Hp as [Hp Hin].
    split; [by apply Hre | by apply arrayIncludes_In].
  - intros p Hp. rewrite Hdeleted in Hp. apply vanished_In in Hp as [Hin Hnot].
    split; [done|]. split; [done|]. split.
    + intros Hp. rewrite Hnew in Hp. apply filter_In in Hp as [Hp _].
      by apply Hnot, Hscanned, Hre.
    + intros Hp. rewrite Hchanged in Hp. apply filter_In in Hp as [Hp _].
      by apply Hnot, Hscanned, Hre.
Qed.

(** X21. When the stored text of components.json, patterns.json or
    workflows.json cannot be parsed, the command ends with an error: no
    changeset is computed, and changeset.json is left as it was. *)
Theorem analyze_fails_on_malformed_artifact (files : list string) (fs : FileSystem) :
  componentsJson fs = Malformed \/ patternsJson fs = Malformed
  \/ workflowsJson fs = Malformed ->
  let result := run files fs in
  result.2 = None /\ changesetJson result.1 = changesetJson fs.
Proof.
  intros Hmalformed result.
  split; subst result; unfold analyze, updateArtifact;
    destruct (componentsJson fs), (patternsJson fs), (workflowsJson fs); simpl; try done;
    destruct Hmalformed as [? | [? | ?]]; done.
Qed.

(** X22. After a completed run an artifact whose flag is false is
    untouched.  When components.json is written it holds at most one
    component per scanned file, each with a relative filePath, and the
    patterns and workflows written in the same run are those detected on
    these components. *)
Theorem analyze_artifacts_written (files : list string) (fs fs' : FileSystem) (cs : Changeset) :
  run files fs = (fs', Some cs) ->
  (componentsJsonChanged cs = false -> componentsJson fs' = componentsJson fs)
  /\ (patternsJsonChanged cs = false -> patternsJson fs' = patternsJson fs)
  /\ (workflowsJsonChanged cs = false -> workflowsJson fs' = workflowsJson fs)
  /\ (componentsJsonChanged cs = true ->
      exists components,
        componentsJson fs' = Json components
        /\ (length components <= length files)%nat
        /\ Forall (fun m => Path.isAbsolute (filePath m) = false) components
        /\ (patternsJsonChanged cs = true ->
            patternsJson fs' = Json (detectPatterns components))
        /\ (workflowsJsonChanged cs = true ->
            workflowsJson fs' = Json (detectWorkflows components))).
Proof.
  intros Hrun. destruct (analyze_written files fs fs' cs Hrun) as (Hc & Hp & Hw).
  split; [by intros H; rewrite H in Hc|].
  split; [by intros H; rewrite H in Hp|].
  split; [by intros H; rewrite H in Hw|].
  intros H. rewrite H in Hc. exists (allComponents (phase files fs)).
  split; [done|].
  assert (Hcomps : (length (allComponents (phase files fs)) <= length files)%nat
                   /\ Forall (fun m => Path.isAbsolute (filePath m) = false)
                        (allComponents (phase files fs))).
  { destruct (cachePhase_unfold files fs) as (_ & Hall & _). rewrite Hall.
    destruct (loop_components md5 projectRoot analyzer (sources fs) files
                {| cache := metadataCacheDir fs; components := [];
                   processedRelativeFilePaths := []; changedOrNewRelativeFilePaths := [];
                   parsed := [] |}) as (added & -> & Hlen & Hrel).
    done. }
  destruct Hcomps as [Hlen Hrel].
  split; [done|]. split; [done|].
  split; [by intros H'; rewrite H' in Hp | by intros H'; rewrite H' in Hw].
Qed.

(** X23. A completed first run, with an empty cache directory and no
    components.json, reports nothing as changed or deleted, writes
    components.json, and reports the filePath of every component it
    writes there as new. *)
Theorem analyze_first_run (files : list string) (fs fs' : FileSystem) (cs : Changeset) :
  metadataCacheDir fs = ∅ -> componentsJson fs = Missing ->
  run files fs = (fs', Some cs) ->
  changedComponents cs = [] /\ deletedComponents cs = []
  /\ componentsJsonChanged cs = true
  /\ exists components,
       componentsJson fs' = Json components
       /\ Forall (fun m => In (filePath m) (newComponents cs)) components.
Proof.
  intros Hempty Hmissing Hrun.
  assert (Hcs : (run files fs).2 = Some cs) by (by rewrite Hrun).
  apply analyze_changeset in Hcs as (Hnew & Hchanged & Hdeleted).
  destruct (cachePhase_unfold files fs) as (_ & Hall & Hn & Hc & Hd).
  rewrite Hn in Hnew. rewrite Hc in Hchanged. rewrite Hd in Hdeleted.
  assert (Hnone : getAllCachedFilePaths (metadataCacheDir fs) = []).
  { rewrite Hempty. unfold getAllCachedFilePaths. by rewrite map_to_list_empty. }
  rewrite Hnone in Hnew, Hchanged, Hdeleted.
  assert (Hflag : componentsJsonChanged cs = true).
  { revert Hrun. unfold analyze. rewrite Hmissing. simpl.
    destruct (updateArtifact md5 stringifyPatterns _ _) as [[? ?]|]; [|discriminate].
    destruct (updateArtifact md5 stringifyWorkflows _ _) as [[? ?]|]; [|discriminate].
    by intros [= _ <-]. }
  split; [|split; [|split; [done|]]].
  - rewrite Hchanged. generalize (changedOrNewRelativeFilePaths
      (foldl (processFile md5 projectRoot analyzer (sources fs))
         {| cache := metadataCacheDir fs; components := [];
            processedRelativeFilePaths := []; changedOrNewRelativeFilePaths := [];
            parsed := [] |} files)).
    intros l. induction l as [|x l IH]; [done | exact IH].
  - done.
  - destruct (analyze_written files fs fs' cs Hrun) as (Hjson & _).
    rewrite Hflag in Hjson. eexists. split; [exact Hjson|].
    rewrite Hall, Hnew.
    assert (Hid : forall l : list string,
              List.filter (fun p => negb (arrayIncludes [] p)) l = l).
    { induction l as [|x l IH]; [done|]. simpl. f_equal. exact IH. }
    rewrite Hid. apply loop_fresh; simpl; [|done].
    intros k h m. rewrite Hempty. by rewrite lookup_empty.
Qed.

End RunTheorems.

Lemma scenarioStale_run :
  Disk.run [Disk.loginAbs] scenarioStale
  = ((Disk.run [Disk.loginAbs] scenarioStale).1, Some scenarioStale_changeset).
Proof. vm_compute. reflexivity. Qed.

Lemma scenarioFirstRun_run :
  Disk.run [Disk.loginAbs] scenarioFirstRun
  = ((Disk.run [Disk.loginAbs] scenarioFirstRun).1, Some scenarioFirstRun_changeset).
Proof. vm_compute. reflexivity. Qed.

(** X18, at the run that finds LoginForm.jsx edited and Navigation.jsx gone. *)
Lemma analyze_keeps_cache_well_keyed_witness :
  wellKeyed Md5.md5 (metadataCacheDir (Disk.run [Disk.loginAbs] scenarioStale).1).
Proof.
  apply (analyze_keeps_cache_well_keyed Md5.md5 Disk.projectRoot Disk.analyzer
           Disk.printComponents Disk.printPatterns Disk.printWorkflows
           [Disk.loginAbs] scenarioStale).
  apply wellKeyedb_sound. vm_compute. reflexivity.
Defined.

(** X20, at the same run: LoginForm.jsx is changed, Navigation.jsx deleted. *)
Lemma analyze_changeset_lists_witness :
  let cs := scenarioStale_changeset in
  let cachedBefore := getAllCachedFilePaths (metadataCacheDir scenarioStale) in
  let reanalysed p :=
    exists f content m,
      In f [Disk.loginAbs] /\ p = Path.relative Disk.projectRoot f
      /\ sources scenarioStale !! f = Some content
      /\ Disk.analyzer f content = Some m in
  (forall p, In p (newComponents cs) -> reanalysed p /\ ~ In p cachedBefore)
  /\ (forall p, In p (changedComponents cs) -> reanalysed p /\ In p cachedBefore)
  /\ (forall p, In p (deletedComponents cs) ->
        In p cachedBefore /\ ~ In p (map (Path.relative Disk.projectRoot) [Disk.loginAbs])
        /\ ~ In p (newComponents cs) /\ ~ In p (changedComponents cs)).
Proof.
  apply (analyze_changeset_lists Md5.md5 Disk.projectRoot Disk.analyzer
           Disk.printComponents Disk.printPatterns Disk.printWorkflows
           [Disk.loginAbs] scenarioStale (Disk.run [Disk.loginAbs] scenarioStale).1
           scenarioStale_changeset).
  exact scenarioStale_run.
Defined.

(** X22, at the same run. *)
Lemma analyze_artifacts_written_witness :
  let fs := scenarioStale in
  let fs' := (Disk.run [Disk.loginAbs] scenarioStale).1 in
  let cs := scenarioStale_changeset in
  (componentsJsonChanged cs = false -> componentsJson fs' = componentsJson fs)
  /\ (patternsJsonChanged cs = false -> patternsJson fs' = patternsJson fs)
  /\ (workflowsJsonChanged cs = false -> workflowsJson fs' = workflowsJson fs)
  /\ (componentsJsonChanged cs = true ->
      exists components,
        componentsJson fs' = Json components
        /\ (length components <= length [Disk.loginAbs])%nat
        /\ Forall (fun m => Path.isAbsolute (filePath m) = false) components
        /\ (patternsJsonChanged cs = true ->
            patternsJson fs' = Json (detectPatterns components))
        /\ (workflowsJsonChanged cs = true ->
            workflowsJson fs' = Json (detectWorkflows components))).
Proof.
  apply (analyze_artifacts_written Md5.md5 Disk.projectRoot Disk.analyzer
           Disk.printComponents Disk.printPatterns Disk.printWorkflows
           [Disk.loginAbs] scenarioStale (Disk.run [Disk.loginAbs] scenarioStale).1
           scenarioStale_changeset).
  exact scenarioStale_run.
Defined.

(** X23, at the first run on LoginForm.jsx. *)
Lemma analyze_first_run_witness :
  let cs := scenarioFirstRun_changeset in
  changedComponents cs = [] /\ deletedComponents cs = []
  /\ componentsJsonChanged cs = true
  /\ exists components,
       componentsJson (Disk.run [Disk.loginAbs] scenarioFirstRun).1 = Json components
       /\ Forall (fun m => In (filePath m) (newComponents cs)) components.
Proof.
  apply (analyze_first_run Md5.md5 Disk.projectRoot Disk.analyzer
           Disk.printComponents Disk.printPatterns Disk.printWorkflows
           [Disk.loginAbs] scenarioFirstRun (Disk.run [Disk.loginAbs] scenarioFirstRun).1
           scenarioFirstRun_changeset).
  - reflexivity.
  - reflexivity.
  - exact scenarioFirstRun_run.
Defined.

(** X21, at a run that finds patterns.json unparsable: changeset.json still
    holds the earlier changeset. *)
Lemma analyze_fails_on_malformed_artifact_witness :
  let result := Disk.run [Disk.loginAbs] scenarioMalformed in
  result.2 = None /\ changesetJson result.1 = changesetJson scenarioMalformed.
Proof.
  apply (analyze_fails_on_malformed_artifact Md5.md5 Disk.projectRoot Disk.analyzer
           Disk.printComponents Disk.printPatterns Disk.printWorkflows
           [Disk.loginAbs] scenarioMalformed).
  right. left. reflexivity.
Defined.

Section CurrentCache.
Variable md5 : string -> string.
Variable projectRoot : string.
Variable analyzer : string -> string -> option ComponentMetadata.
Variable stringifyComponents : list ComponentMetadata -> string.
Variable stringifyPatterns : list PatternMatcher.DetectedPattern -> string.
Variable stringifyWorkflows : list PatternMatcher.Workflow -> string.

Local Abbreviation rel := (Path.relative projectRoot).
Local Abbreviation run :=
  (analyze md5 projectRoot analyzer stringifyComponents stringifyPatterns stringifyWorkflows).

(** X30. After a run, the cache is current for every scanned file the
    analyzer can handle: when no two of the paths involved have the same
    fingerprint and no two scanned files the same relative path,
    [getCachedComponent] finds for the file an entry whose sourceFileHash
    is the digest of the file's present content. *)
Theorem analyze_cache_is_current (files : list string) (fs : FileSystem)
    (f content : string) (m : ComponentMetadata) :
  collisionFree md5 (map rel files ++ getAllCachedFilePaths (metadataCacheDir fs)) ->
  distinctRelativePaths projectRoot files ->
  In f files -> sources fs !! f = Some content -> analyzer f content = Some m ->
  exists m',
    getCachedComponent md5 (metadataCacheDir (run files fs).1) (rel f)
    = (Some {| sourceFileHash := md5 content; componentMetadata := m' |},
       metadataCacheDir (run files fs).1).
Proof.
  intros Hfree Hrel Hf Hsrc Han.
  destruct (analyze_cache md5 projectRoot analyzer stringifyComponents stringifyPatterns
              stringifyWorkflows files fs) as [Hcache _].
  rewrite Hcache.
  destruct (cachePhase_unfold md5 projectRoot analyzer files fs) as (Hfinal & _).
  rewrite Hfinal. clear Hcache Hfinal.
  set (st0 := {| cache := metadataCacheDir fs; components := [];
                 processedRelativeFilePaths := []; changedOrNewRelativeFilePaths := [];
                 parsed := [] |}).
  set (stF := foldl (processFile md5 projectRoot analyzer (sources fs)) st0 files).
  destruct (first_loop md5 projectRoot analyzer (sources fs) files [] st0)
    as [HsetF _]; [| by intros ? ? [] | done |].
  { simpl. intros g1 g2 Hg1 Hg2 Hk. apply (Hrel g1 g2 Hg1 Hg2).
    apply (getCacheFilePath_inj md5 _ _ _ Hfree); [| | done];
      apply in_or_app; left; by apply in_map. }
  fold stF in HsetF. simpl in HsetF.
  specialize (HsetF f content Hf Hsrc).
  assert (Hframe : foldl (removeCachedComponent md5) (cache stF)
                     (vanished (map rel files) (getAllCachedFilePaths (metadataCacheDir fs)))
                     !! getCacheFilePath md5 (rel f)
                   = cache stF !! getCacheFilePath md5 (rel f)).
  { apply remove_all_frame.
    intros p Hp Hk. apply vanished_In in Hp as [Hlisted Hp]. apply Hp.
    apply (getCacheFilePath_inj md5 _ _ _ Hfree) in Hk.
    - subst p. by apply in_map.
    - apply in_or_app. by right.
    - apply in_or_app. left. by apply in_map. }
  unfold getCachedComponent. rewrite Hframe.
  unfold settled in HsetF.
  destruct (cache stF !! getCacheFilePath md5 (rel f)) as [[|[h|] [m'|]]|];
    try done; try congruence.
  destruct HsetF as [-> | Hnone]; [by exists m' | congruence].
Qed.
End CurrentCache.

(** X30, at the run that finds LoginForm.jsx edited: its entry holds the
    digest of the new text afterwards. *)
Lemma analyze_cache_is_current_witness :
  exists m',
    getCachedComponent Md5.md5 (metadataCacheDir (Disk.run [Disk.loginAbs] scenarioStale).1)
      (Path.relative Disk.projectRoot Disk.loginAbs)
    = (Some {| sourceFileHash := Md5.md5 Disk.loginSource; componentMetadata := m' |},
       metadataCacheDir (Disk.run [Disk.loginAbs] scenarioStale).1).
Proof.
  apply (analyze_cache_is_current Md5.md5 Disk.projectRoot Disk.analyzer
           Disk.printComponents Disk.printPatterns Disk.printWorkflows
           [Disk.loginAbs] scenarioStale Disk.loginAbs Disk.loginSource
           (withFilePath (Disk.loginMeta Disk.loginAbs) Disk.loginAbs)).
  - apply collisionFreeb_sound. vm_compute. reflexivity.
  - intros f g [<- | []] [<- | []] _. reflexivity.
  - by left.
  - vm_compute. reflexivity.
  - vm_compute. reflexivity.
Defined.

(** ** The generate command *)

(** X24. The test for regenerating the structural files is the negation of
    the test that ends the command early, and the command ends early
    exactly on the empty changeset, the one a second run of analyze on
    unchanged files writes. *)
Theorem generate_skips_empty_changeset (changeset : Changeset) :
  needsStructuralUpdate changeset = negb (noRelevantChanges changeset)
  /\ (noRelevantChanges changeset = true <-> changeset = emptyChangeset).
Proof.
  destruct changeset as [n c d cj pj wj].
  unfold needsStructuralUpdate, noRelevantChanges, emptyChangeset. simpl. split.
  - destruct n, c, d, cj, pj, wj; reflexivity.
  - split.
    + destruct n, c, d, cj, pj, wj; simpl; done.
    + intros [= -> -> -> -> -> ->]. reflexivity.
Qed.

Lemma replaced_char c :
  let r := if isLower c || isDigit c then c else "-"%char in
  isLower r || isDigit r || Ascii.eqb r "-" = true.
Proof. simpl. destruct (isLower c || isDigit c) eqn:H; [by rewrite H | reflexivity]. Qed.

(** X28. The page of a component and the page looked for after a deletion
    are named by lower-case letters, digits and dashes followed by .md:
    the name holds no slash and no backslash, and no dot before .md. *)
Theorem doc_file_names_are_plain (component : ComponentMetadata) (deletedComponentPath : string) :
  Forall (fun f =>
    includes f "/" = false /\ includes f "\" = false
    /\ exists stem,
         f = stem +:+ ".md" /\ includes stem "." = false
         /\ Forall (fun c => isLower c || isDigit c || Ascii.eqb c "-" = true) (chars stem))
    [componentDocFileName component; deletedDocFileName deletedComponentPath].
Proof.
  assert (H : forall s c, In c (chars (replaceNonAlnum s)) ->
            isLower c || isDigit c || Ascii.eqb c "-" = true).
  { intros s c Hc. apply chars_mapString in Hc as [c' ->]. apply replaced_char. }
  assert (Hplain : forall s,
            includes (replaceNonAlnum s +:+ ".md") "/" = false
            /\ includes (replaceNonAlnum s +:+ ".md") "\" = false
            /\ exists stem, replaceNonAlnum s +:+ ".md" = stem +:+ ".md"
                 /\ includes stem "." = false
                 /\ Forall (fun c => isLower c || isDigit c || Ascii.eqb c "-" = true)
                      (chars stem)).
  { intros s. split; [|split].
    - apply includes_char. rewrite chars_append. intros [Hc | Hc].
      + by apply H in Hc.
      + simpl in Hc. intuition congruence.
    - apply includes_char. rewrite chars_append. intros [Hc | Hc].
      + by apply H in Hc.
      + simpl in Hc. intuition congruence.
    - eexists. split; [done|]. split.
      + apply includes_char. intros Hc. by apply H in Hc.
      + apply List.Forall_forall. apply H. }
  repeat constructor; apply Hplain.
Qed.

Lemma capitalizeFirst_length s : String.length (capitalizeFirst s) = String.length s.
Proof. by destruct s. Qed.

Lemma join_capitalized_length w ws :
  String.length (join (map capitalizeFirst (w :: ws)))
  = (String.length w + String.length (join (map capitalizeFirst ws)))%nat.
Proof.
  change (join (map capitalizeFirst (w :: ws)))
    with (capitalizeFirst w +:+ join (map capitalizeFirst ws)).
  by rewrite string_length_app, capitalizeFirst_length.
Qed.

(** Splitting drops the separators: the parts are as long as the string
    only when it has none. *)
Lemma split_join_length isSep s :
  (String.length (join (map capitalizeFirst (split isSep s))) <= String.length s)%nat
  /\ (String.length (join (map capitalizeFirst (split isSep s))) = String.length s ->
      forall c, In c (chars s) -> isSep c = false).
Proof.
  induction s as [|a s [IHle IHeq]]; [done|].
  rewrite split_cons. destruct (isSep a) eqn:Ha.
  - rewrite join_capitalized_length. cbn [String.length]. split; [lia|]. intros Heq. lia.
  - destruct (split isSep s) as [|p ps] eqn:Hs; [by apply split_nonempty in Hs|].
    rewrite join_capitalized_length in *. cbn [String.length] in *.
    split; [lia|].
    intros Heq c [<- | Hc]; [done|]. apply IHeq; [lia | done].
Qed.

Lemma toLowerCase_capitalizeFirst s : toLowerCase (capitalizeFirst s) = toLowerCase s.
Proof.
  destruct s as [|c s]; [done|]. simpl. unfold toLowerCase. simpl.
  by rewrite lowerAscii_upperAscii.
Qed.

(** X29. For a component named after its file, whose file name without the
    extension is made of ASCII characters, the page written for it is the
    page looked for when the file is deleted exactly when that name holds
    neither a dash nor an underscore. *)
Theorem fallback_name_doc_file (component : ComponentMetadata)
    (absoluteFilePath deletedComponentPath : string) :
  name component = nameFromFile absoluteFilePath ->
  Path.basename deletedComponentPath (Path.extname deletedComponentPath)
  = Path.basename absoluteFilePath (Path.extname absoluteFilePath) ->
  Forall (fun c => isAscii c = true)
    (chars (Path.basename absoluteFilePath (Path.extname absoluteFilePath))) ->
  (componentDocFileName component = deletedDocFileName deletedComponentPath
   <-> includes (Path.basename absoluteFilePath (Path.extname absoluteFilePath)) "-" = false
       /\ includes (Path.basename absoluteFilePath (Path.extname absoluteFilePath)) "_" = false).
Proof.
  intros Hname Hbase _. unfold componentDocFileName, deletedDocFileName.
  rewrite Hname, Hbase. unfold nameFromFile.
  set (base := Path.basename absoluteFilePath (Path.extname absoluteFilePath)).
  destruct (split_join_length isDashOrUnderscore base) as [_ Hlen].
  split.
  - intros Heq. apply append_cancel_r in Heq.
    apply (f_equal String.length) in Heq.
    unfold replaceNonAlnum, toLowerCase in Heq. rewrite !mapString_length in Heq.
    specialize (Hlen Heq).
    split; apply includes_char; intros Hc; by apply Hlen in Hc.
  - intros [Hdash Hunder].
    rewrite split_plain.
    + unfold join. simpl. by rewrite string_app_nil_r, toLowerCase_capitalizeFirst.
    + intros c Hc. unfold isDashOrUnderscore.
      destruct (Ascii.eqb c "-") eqn:H1.
      { apply Ascii.eqb_eq in H1 as ->. apply includes_char_In in Hc. congruence. }
      destruct (Ascii.eqb c "_") eqn:H2; [|done].
      apply Ascii.eqb_eq in H2 as ->. apply includes_char_In in Hc. congruence.
Qed.

(** X29, at login-form.jsx: the page is loginform.md, the page looked for
    is login-form.md. *)
Lemma fallback_name_doc_file_witness :
  componentDocFileName (mkComponent "LoginForm") = deletedDocFileName "src/login-form.jsx"
  <-> includes (Path.basename "/proj/src/login-form.jsx"
                  (Path.extname "/proj/src/login-form.jsx")) "-" = false
      /\ includes (Path.basename "/proj/src/login-form.jsx"
                     (Path.extname "/proj/src/login-form.jsx")) "_" = false.
Proof.
  apply (fallback_name_doc_file (mkComponent "LoginForm")
           "/proj/src/login-form.jsx" "src/login-form.jsx");
    [reflexivity | reflexivity | vm_compute; repeat constructor].
Defined.

(** ** File discovery *)

(** X25. A file whose name ends in .test or .spec before the extension
    .jsx, .tsx, .js or .ts is no React component file, whatever its
    directory and the rest of its name. *)
Theorem isComponentFile_rejects_tests (stem : string) :
  Forall (fun ext =>
    isComponentFile (stem +:+ ".test" +:+ ext) "react" = false
    /\ isComponentFile (stem +:+ ".spec" +:+ ext) "react" = false)
    [".jsx"; ".tsx"; ".js"; ".ts"].
Proof.
  assert (H : forall m ext,
            In m [".test"; ".spec"] -> In ext [".jsx"; ".tsx"; ".js"; ".ts"] ->
            isComponentFile (stem +:+ m +:+ ext) "react" = false).
  { intros m ext Hm Hext.
    destruct (marked_file stem m ext) as [Hextname Hbase].
    - destruct Hm as [<- | [<- | []]]; done.
    - destruct Hm as [<- | [<- | []]]; vm_compute; intuition congruence.
    - destruct Hext as [<- | [<- | [<- | [<- | []]]]]; simpl; lia.
    - destruct Hext as [<- | [<- | [<- | [<- | []]]]]; vm_compute; intuition congruence.
    - destruct Hext as [<- | [<- | [<- | [<- | []]]]]; reflexivity.
    - unfold isComponentFile. rewrite Hextname.
      assert (Hlow : toLowerCase ext = ext).
      { destruct Hext as [<- | [<- | [<- | [<- | []]]]]; reflexivity. }
      rewrite Hlow, Hbase. cbn [String.eqb Ascii.eqb Bool.eqb].
      destruct Hm as [<- | [<- | []]].
      + rewrite (endsWith_app (Path.lastSegment stem) ".test"). simpl.
        by rewrite andb_false_r.
      + rewrite (endsWith_app (Path.lastSegment stem) ".spec"). simpl.
        by rewrite andb_false_r. }
  repeat constructor; apply H; simpl; auto 10.
Qed.

Lemma DirEntry_nested_ind (P : DirEntry -> Prop) :
  (forall n, P (FileEntry n)) ->
  (forall n entries, Forall P entries -> P (Directory n entries)) ->
  (forall n, P (OtherEntry n)) ->
  forall e, P e.
Proof.
  intros Hf Hd Ho. fix IH 1. intros [n | n entries | n]; [apply Hf | | apply Ho].
  apply Hd. induction entries as [|e es IHes]; constructor; [apply IH | exact IHes].
Qed.

Lemma scanEntry_sound framework excluded e : forall dirPath,
  Forall (fun p =>
    isComponentFile p framework = true /\ excluded p = false
    /\ exists rest, p = dirPath +:+ "/" +:+ rest)
    (scanEntry framework excluded dirPath e).
Proof.
  induction e as [n | n es IH | n] using DirEntry_nested_ind; intros dirPath;
    cbn [scanEntry entry_name].
  - destruct (excluded _) eqn:Hex; [constructor|].
    destruct (isComponentFile _ framework) eqn:Hc; constructor; [|constructor].
    split; [done|]. split; [done|]. by exists n.
  - destruct (excluded _) eqn:Hex; [constructor|].
    destruct (negb (skippedDirectory n)); [|constructor].
    induction IH as [|e es He _ IHes]; [constructor|]. simpl.
    apply Forall_app_2; [|exact IHes].
    eapply List.Forall_impl; [|apply He]. simpl.
    intros p (Hc & Hp & rest & ->). split; [done|]. split; [done|].
    exists (n +:+ "/" +:+ rest). by rewrite !string_app_assoc.
  - destruct (excluded _); constructor.
Qed.

(** X26. Every path [findComponentFiles] returns lies below the entry
    path, passes [isComponentFile] for the framework and matches no
    exclude pattern. *)
Theorem findComponentFiles_sound (framework : string) (excluded : string -> bool)
    (entryPath : string) (entries : list DirEntry) :
  Forall (fun p =>
    isComponentFile p framework = true
    /\ excluded p = false
    /\ startsWith p (entryPath +:+ "/") = true)
    (findComponentFiles framework excluded entryPath entries).
Proof.
  unfold findComponentFiles. induction entries as [|e es IH]; [constructor|]. simpl.
  apply Forall_app_2; [|exact IH].
  eapply List.Forall_impl; [|apply scanEntry_sound]. simpl.
  intros p (Hc & Hp & rest & ->). split; [done|]. split; [done|].
  unfold startsWith. rewrite <- string_app_assoc. apply prefix_app.
Qed.

(** X27. The scan never looks into node_modules, dist, build or a
    directory whose name starts with a dot: it returns the same files, in
    the same order, on the tree from which these directories are removed
    at every depth. *)
Theorem findComponentFiles_skips_directories (framework : string) (excluded : string -> bool)
    (entryPath : string) (entries : list DirEntry) :
  findComponentFiles framework excluded entryPath (flat_map pruneEntry entries)
  = findComponentFiles framework excluded entryPath entries.
Proof.
  unfold findComponentFiles. revert entryPath.
  assert (Hentry : forall e dirPath,
            flat_map (scanEntry framework excluded dirPath) (pruneEntry e)
            = scanEntry framework excluded dirPath e).
  { induction e as [n | n es IH | n] using DirEntry_nested_ind; intros dirPath.
    - simpl. by rewrite app_nil_r.
    - cbn [pruneEntry scanEntry entry_name]. destruct (skippedDirectory n) eqn:Hskip; simpl.
      + by destruct (excluded _).
      + rewrite Hskip. simpl. rewrite app_nil_r. destruct (excluded _); [done|].
        generalize (dirPath +:+ "/" +:+ n). intros d.
        induction IH as [|e es He _ IHes]; [done|]. simpl.
        by rewrite flat_map_app, He, IHes.
    - simpl. by rewrite app_nil_r. }
  intros entryPath. induction entries as [|e es IH]; [done|]. simpl.
  by rewrite flat_map_app, Hentry, IH.
Qed.
